(** * Mobile Trauma Assessment: session store, report synthesis, submission
      and response polling of [app.py]

    A shallow embedding of [EnhancedTraumaAssessmentApp] and of the
    [clear_conversation] handler.  The object's attributes become a record
    that every operation takes and returns; what the operations do to the
    outside world (HTTP requests, lookup-store queries, sleeps, thread
    launches, console output) is recorded as a list of events, and what the
    outside world answers (HTTP response, model output, query result, clock)
    is an argument of the operation.

    Python [str] values are modelled as byte strings (UTF-8); [lower],
    [upper] and [title] act on ASCII letters and leave other bytes alone. *)

From Stdlib Require Import String Ascii ZArith List QArith Qround DecimalString Lia.
From stdpp Require Import gmap strings.

Open Scope string_scope.
Open Scope list_scope.

(** ** Python primitives *)

Module Py.

Definition is_upper (c : ascii) : bool :=
  let n := nat_of_ascii c in (65 <=? n)%nat && (n <=? 90)%nat.

Definition is_lower (c : ascii) : bool :=
  let n := nat_of_ascii c in (97 <=? n)%nat && (n <=? 122)%nat.

Definition to_lower (c : ascii) : ascii :=
  if is_upper c then ascii_of_nat (nat_of_ascii c + 32) else c.

Definition to_upper (c : ascii) : ascii :=
  if is_lower c then ascii_of_nat (nat_of_ascii c - 32) else c.

(** [str.lower()] *)
Fixpoint lower (s : string) : string :=
  match s with
  | EmptyString => EmptyString
  | String c r => String (to_lower c) (lower r)
  end.

(** [str.upper()] *)
Fixpoint upper (s : string) : string :=
  match s with
  | EmptyString => EmptyString
  | String c r => String (to_upper c) (upper r)
  end.

(** [str.title()]: a letter that follows a cased character is lowered,
    any other letter is raised. *)
Fixpoint title_from (previous_is_cased : bool) (s : string) : string :=
  match s with
  | EmptyString => EmptyString
  | String c r =>
      let c' := if previous_is_cased then to_lower c else to_upper c in
      String c' (title_from (is_upper c || is_lower c) r)
  end.

Definition title (s : string) : string := title_from false s.

(** [str.replace(old, new)] for one-character [old] and [new]. *)
Fixpoint replace (old new : ascii) (s : string) : string :=
  match s with
  | EmptyString => EmptyString
  | String c r =>
      String (if Ascii.eqb c old then new else c) (replace old new r)
  end.

(** [needle in hay] *)
Fixpoint contains (needle hay : string) : bool :=
  if String.prefix needle hay then true
  else match hay with
       | EmptyString => false
       | String _ r => contains needle r
       end.

(** [s.endswith(suffix)] *)
Definition endswith (s suffix : string) : bool :=
  let n := String.length s in
  let k := String.length suffix in
  (k <=? n)%nat && String.eqb (String.substring (n - k) k s) suffix.

(** [s[:n]] *)
Definition take (n : nat) (s : string) : string := String.substring 0 n s.

(** [str(z)] for an [int]. *)
Definition str_of_int (z : Z) : string := NilZero.string_of_int (Z.to_int z).

Definition str_of_len (n : nat) : string := str_of_int (Z.of_nat n).

(** [bool(s)] for a [str]. *)
Definition nonempty (s : string) : bool :=
  match s with EmptyString => false | String _ _ => true end.

(** [int(x)] for a finite number: truncation towards zero. *)
Definition int_of_number (x : Q) : Z :=
  if Qle_bool 0 x then Qfloor x else Qceiling x.

(** [bool(x)] for a number. *)
Definition number_truthy (x : Q) : bool := negb (Qeq_bool x 0).

Definition nl : string := String (ascii_of_nat 10) EmptyString.

(** [sep.join(parts)] *)
Definition join (sep : string) (parts : list string) : string :=
  String.concat sep parts.

(** The values a decoded JSON field can hold, as far as the program looks
    at them: truthiness and [str()].  Containers and floats are
    [PyOther], carrying both. *)
Inductive value : Type :=
| PyNone
| PyBool (b : bool)
| PyInt (z : Z)
| PyStr (s : string)
| PyOther (is_truthy : bool) (repr : string).

Definition truthy (v : value) : bool :=
  match v with
  | PyNone => false
  | PyBool b => b
  | PyInt z => negb (Z.eqb z 0)
  | PyStr s => nonempty s
  | PyOther t _ => t
  end.

Definition str (v : value) : string :=
  match v with
  | PyNone => "None"
  | PyBool true => "True"
  | PyBool false => "False"
  | PyInt z => str_of_int z
  | PyStr s => s
  | PyOther _ r => r
  end.

End Py.

(** ** Data model: [report_data] and the attributes of the app object *)

Record ChildInfo : Type := mkChildInfo {
  name : string;
  age : Z;
  gender : string;
  location : string
}.

Record AssessmentData : Type := mkAssessmentData {
  parent_observations : string;
  ai_analysis : string;
  severity_score : Z;
  risk_indicators : list string;
  cultural_context : string
}.

Record Attachment : Type := mkAttachment {
  path : string;
  timestamp : string
}.

Record MediaAttachments : Type := mkMediaAttachments {
  drawings : list Attachment;
  audio_recordings : list Attachment;
  photos : list Attachment
}.

Inductive Role : Type := User | Assistant.

(** The content of a chat turn: a text, or [{"path": file}]. *)
Inductive Content : Type :=
| Text (t : string)
| FilePath (p : string).

Record Turn : Type := mkTurn {
  role : Role;
  content : Content
}.

Record ReportData : Type := mkReportData {
  child_info : ChildInfo;
  assessment_data : AssessmentData;
  media_attachments : MediaAttachments;
  mobile_app_id : string;
  session_start : string;
  conversation_history : list Turn
}.

(** The pydantic model [RiskAssessment]. *)
Record RiskAssessment : Type := mkRiskAssessment {
  ra_parent_observations : string;
  ra_ai_analysis : string;
  ra_severity_score : Z;
  ra_risk_indicators : list string;
  ra_cultural_context : string
}.

(** [recommendations] of a reply: a dict, iterated in insertion order, or
    anything else, which is shown through [str()]. *)
Inductive Recommendations : Type :=
| RecDict (items : list (string * string))
| RecFlat (shown : string).

(** What [get_specialist_response] has in hand once it has read every
    column of a row without raising: the texts it formats. *)
Record SpecialistResponse : Type := mkSpecialistResponse {
  response_date : string;
  psychologist_id : string;
  urgency_level : string;
  psychologist_notes : string;
  recommendations : Recommendations
}.

(** One column of a row of the [responses] table, as the query returns it:
    the key can be absent from the dict; it can hold a text; or it holds
    something else (a [NULL], which is [None], a number, a list ...).
    [shown] is the [str()] of such a value, [misuse] the message of the
    exception Python raises where the program uses it as a text (slices
    it and calls [.replace], calls [.upper()], or, when it is not
    [hashable], looks it up in a dict). *)
Inductive Cell : Type :=
| Missing
| TextCell (s : string)
| NotText (shown misuse : string) (hashable : bool).

(** [response.data[0]]: a dict from which the program reads five keys.
    [row_recommendations] is [None] when the key is absent. *)
Record Row : Type := mkRow {
  row_response_date : Cell;
  row_psychologist_id : Cell;
  row_urgency_level : Cell;
  row_psychologist_notes : Cell;
  row_recommendations : option Recommendations
}.

(** A call returns a value or raises an exception, of which the program
    only ever uses the message. *)
Inductive Outcome (A : Type) : Type :=
| Returns (a : A)
| Raises (e : string).

Arguments Returns {A} a.
Arguments Raises {A} e.

Record SupabaseClient : Type := mkSupabaseClient {
  supabase_url : string;
  supabase_key : string
}.

(** The attributes of [EnhancedTraumaAssessmentApp].  [specialist_response]
    is [None] while the object has no such attribute ([hasattr] is false). *)
Record App : Type := mkApp {
  report_data : ReportData;
  is_onboarded : bool;
  submitted_report_id : Py.value;
  polling_active : bool;
  ollama_conversation : list Turn;
  supabase : option SupabaseClient;
  specialist_response : option Row
}.

(** What an operation does to the outside world. *)
Record ApiData : Type := mkApiData {
  api_age : Z;
  api_gender : string;
  api_location : string;
  api_assessment_data : AssessmentData;
  api_media_attachments : MediaAttachments;
  api_mobile_app_id : string
}.

Inductive Event : Type :=
| EvPost (url : string) (json : ApiData) (timeout : Z)
| EvThreadStart
| EvQuery (report_id : Py.value)
| EvSleep (seconds : Z)
| EvPrint (msg : string)
| EvProgress (msg : string)
| EvChat (prompt : string)
| EvChatTurns (messages : list Turn)
| EvChatImage (prompt image : string)
| EvPause.

(** *** Field updates *)

Definition with_report_data (f : ReportData -> ReportData) (s : App) : App :=
  mkApp (f (report_data s)) (is_onboarded s) (submitted_report_id s)
        (polling_active s) (ollama_conversation s) (supabase s)
        (specialist_response s).

Definition with_assessment_data (f : AssessmentData -> AssessmentData)
    (r : ReportData) : ReportData :=
  mkReportData (child_info r) (f (assessment_data r)) (media_attachments r)
               (mobile_app_id r) (session_start r) (conversation_history r).

Definition set_child_info (c : ChildInfo) (r : ReportData) : ReportData :=
  mkReportData c (assessment_data r) (media_attachments r)
               (mobile_app_id r) (session_start r) (conversation_history r).

Definition set_media_attachments (m : MediaAttachments) (r : ReportData)
    : ReportData :=
  mkReportData (child_info r) (assessment_data r) m
               (mobile_app_id r) (session_start r) (conversation_history r).

Definition set_conversation_history (h : list Turn) (r : ReportData)
    : ReportData :=
  mkReportData (child_info r) (assessment_data r) (media_attachments r)
               (mobile_app_id r) (session_start r) h.

Definition set_parent_observations (v : string) (a : AssessmentData)
    : AssessmentData :=
  mkAssessmentData v (ai_analysis a) (severity_score a) (risk_indicators a)
                   (cultural_context a).

Definition set_ai_analysis (v : string) (a : AssessmentData) : AssessmentData :=
  mkAssessmentData (parent_observations a) v (severity_score a)
                   (risk_indicators a) (cultural_context a).

Definition set_severity_score (v : Z) (a : AssessmentData) : AssessmentData :=
  mkAssessmentData (parent_observations a) (ai_analysis a) v
                   (risk_indicators a) (cultural_context a).

Definition set_risk_indicators (v : list string) (a : AssessmentData)
    : AssessmentData :=
  mkAssessmentData (parent_observations a) (ai_analysis a) (severity_score a)
                   v (cultural_context a).

Definition set_cultural_context (v : string) (a : AssessmentData)
    : AssessmentData :=
  mkAssessmentData (parent_observations a) (ai_analysis a) (severity_score a)
                   (risk_indicators a) v.

Definition set_is_onboarded (b : bool) (s : App) : App :=
  mkApp (report_data s) b (submitted_report_id s) (polling_active s)
        (ollama_conversation s) (supabase s) (specialist_response s).

Definition set_submitted_report_id (v : Py.value) (s : App) : App :=
  mkApp (report_data s) (is_onboarded s) v (polling_active s)
        (ollama_conversation s) (supabase s) (specialist_response s).

Definition set_polling_active (b : bool) (s : App) : App :=
  mkApp (report_data s) (is_onboarded s) (submitted_report_id s) b
        (ollama_conversation s) (supabase s) (specialist_response s).

Definition set_ollama_conversation (c : list Turn) (s : App) : App :=
  mkApp (report_data s) (is_onboarded s) (submitted_report_id s)
        (polling_active s) c (supabase s) (specialist_response s).

Definition set_specialist_response (r : Row) (s : App) : App :=
  mkApp (report_data s) (is_onboarded s) (submitted_report_id s)
        (polling_active s) (ollama_conversation s) (supabase s) (Some r).

(** ** [__init__] *)

(** [uuid] and [started] stand for [str(uuid.uuid4())] and
    [datetime.now().isoformat()]; [client] is the lookup-store client, present
    when both credentials are in the environment. *)
Definition init (uuid started : string) (client : option SupabaseClient) : App :=
  mkApp
    (mkReportData
       (mkChildInfo "" 0 "" "")
       (mkAssessmentData "" "" 0 [] "")
       (mkMediaAttachments [] [] [])
       uuid started [])
    false Py.PyNone false [] client None.

(** ** [generate_cultural_context] *)

Definition any_keyword_in (keywords : list string) (s : string) : bool :=
  existsb (fun keyword => Py.contains keyword s) keywords.

Definition generate_cultural_context (loc : string) : string :=
  let location_lower := Py.lower loc in
  if any_keyword_in ["gaza"; "palestine"; "west bank"] location_lower then
    "Assessment conducted considering ongoing conflict exposure and displacement trauma"
  else if any_keyword_in ["ukraine"; "kyiv"; "kharkiv"; "mariupol"] location_lower then
    "Assessment considering war-related trauma and displacement from conflict zones"
  else if any_keyword_in ["syria"; "lebanon"; "jordan"] location_lower then
    "Assessment considering refugee experience and cultural adaptation challenges"
  else
    "Assessment conducted with consideration for local cultural context in " +:+ loc.

(** ** [complete_onboarding] *)

(** [child_age] is the value of the number widget: [None] when it is empty. *)
Definition age_truthy (child_age : option Q) : bool :=
  match child_age with
  | None => false
  | Some x => Py.number_truthy x
  end.

Definition onboarding_incomplete_msg : string :=
  "Please fill in all required information about your child.".

Definition welcome_msg (child_name : string) : string :=
  "Welcome! I'm ready to help you with " +:+ child_name +:+ "'s assessment.".

Definition complete_onboarding (s : App)
    (child_name : string) (child_age : option Q)
    (child_gender child_location : string) : (bool * string) * App :=
  match child_age with
  | Some x =>
      if Py.nonempty child_name && Py.number_truthy x
         && Py.nonempty child_gender && Py.nonempty child_location
      then
        let s1 := with_report_data
                    (set_child_info
                       (mkChildInfo child_name (Py.int_of_number x)
                                    child_gender child_location)) s in
        let s2 := set_is_onboarded true s1 in
        let s3 := with_report_data
                    (with_assessment_data
                       (set_cultural_context
                          (generate_cultural_context child_location))) s2 in
        ((true, welcome_msg child_name), s3)
      else ((false, onboarding_incomplete_msg), s)
  | None => ((false, onboarding_incomplete_msg), s)
  end.

(** ** [classify_file_type] and [add_message] *)

Inductive FileType : Type := Image | Other.

Definition classify_file_type (file_path : string) : FileType :=
  let p := Py.lower file_path in
  if existsb (Py.endswith p) [".jpg"; ".jpeg"; ".png"; ".gif"; ".bmp"]
  then Image else Other.

(** The multimodal message: [files] is empty and [text] is [""] when the
    key is absent or falsy. *)
Record Message : Type := mkMessage {
  files : list string;
  text : string
}.

Definition append_attachment (file now : string) (m : MediaAttachments)
    : MediaAttachments :=
  let a := mkAttachment file now in
  if Py.contains "draw" (Py.lower file)
  then mkMediaAttachments (drawings m ++ [a]) (audio_recordings m) (photos m)
  else mkMediaAttachments (drawings m) (audio_recordings m) (photos m ++ [a]).

(** The loop over [message["files"]]; [now k] is the clock at the k-th file. *)
Fixpoint add_files (fs : list string) (k : nat) (now : nat -> string)
    (history : list Turn) (s : App) (out : list Event)
    : list Turn * App * list Event :=
  match fs with
  | [] => (history, s, out)
  | file :: rest =>
      let history' := history ++ [mkTurn User (FilePath file)] in
      match classify_file_type file with
      | Image =>
          let s' := with_report_data
                      (fun r => set_media_attachments
                                  (append_attachment file (now k)
                                     (media_attachments r)) r) s in
          add_files rest (S k) now history' s'
                    (out ++ [EvPrint ("Image file detected: " +:+ file)])
      | Other => add_files rest (S k) now history' s out
      end
  end.

Definition add_text (txt : string) (history : list Turn) (s : App)
    : list Turn * App :=
  if Py.nonempty txt then
    let history' := history ++ [mkTurn User (Text txt)] in
    let s1 := set_ollama_conversation
                (ollama_conversation s ++ [mkTurn User (Text txt)]) s in
    let current_obs := parent_observations (assessment_data (report_data s1)) in
    let obs' := if Py.nonempty current_obs
                then current_obs +:+ " " +:+ txt else txt in
    (history', with_report_data
                 (with_assessment_data (set_parent_observations obs')) s1)
  else (history, s).

Definition add_message (s : App) (now : nat -> string)
    (history : list Turn) (message : Message)
    : list Turn * App * list Event :=
  if negb (is_onboarded s) then (history, s, [])
  else
    let '(h1, s1, out) := add_files (files message) 0 now history s [] in
    let '(h2, s2) := add_text (text message) h1 s1 in
    (h2, with_report_data (set_conversation_history h2) s2, out).

(** ** [clear_conversation] *)

Definition clear_conversation (s : App) : list Turn * App :=
  let s1 := with_report_data (set_conversation_history []) s in
  let s2 := with_report_data
              (with_assessment_data (set_parent_observations "")) s1 in
  let s3 := with_report_data (with_assessment_data (set_ai_analysis "")) s2 in
  let s4 := with_report_data
              (set_media_attachments (mkMediaAttachments [] [] [])) s3 in
  ([], s4).

(** ** [bot_response] *)

(** What a [chat] call of the conversation meets: it raises, or it returns
    a message with this content. *)
Inductive ChatOutcome : Type :=
| ChatFails (e : string)
| ChatReplies (reply : string).

(** The loop over [reversed(history)]: the content of the latest user
    turn. *)
Fixpoint latest_user_content (reversed_history : list Turn) : option Content :=
  match reversed_history with
  | [] => None
  | msg :: older =>
      match role msg with
      | User => Some (content msg)
      | Assistant => latest_user_content older
      end
  end.

Definition image_prompt (child_name : string) : string :=
  "I am sharing an image related to my child " +:+ child_name
  +:+ "'s situation. Please analyze this image in the context of trauma assessment and respond empathetically.".

Definition image_fallback (child_name : string) : string :=
  "I can see you've shared an image. Thank you for providing this visual information about "
  +:+ child_name
  +:+ ". Visual expressions can tell us a lot about how children process their experiences. Could you tell me more about when this was created or what you'd like me to know about it?".

Definition text_fallback (child_name : string) : string :=
  "Thank you for sharing that with me. I understand this is a difficult time for you and "
  +:+ child_name
  +:+ ". Could you tell me more about what you're observing?".

(** The histories that the generator yields, one for each character of the
    reply: the assistant turn at the end holds a longer prefix each time.
    (The program yields one list, mutated in place; these are its contents
    at each yield.) *)
Definition streamed (history : list Turn) (response_text : string)
    : list (list Turn) :=
  map (fun k => history ++ [mkTurn Assistant (Text (Py.take k response_text))])
      (seq 1 (String.length response_text)).

(** The generator, run to its end.  [EvPause] is [time.sleep(0.02)]. *)
Definition bot_response (s : App) (history : list Turn) (llm : ChatOutcome)
    : list (list Turn) * App * list Event :=
  match history with
  | [] => ([], s, [])
  | _ :: _ =>
      if negb (is_onboarded s) then ([], s, [])
      else
        let child_name := name (child_info (report_data s)) in
        let image_path :=
          match latest_user_content (rev history) with
          | Some (FilePath p) => if Py.nonempty p then Some p else None
          | _ => None
          end in
        let '(response_text, out) :=
          match image_path with
          | Some p =>
              match llm with
              | ChatReplies reply =>
                  (reply, [EvChatImage (image_prompt child_name) p])
              | ChatFails e =>
                  (image_fallback child_name,
                   [EvChatImage (image_prompt child_name) p;
                    EvPrint ("Ollama image error: " +:+ e)])
              end
          | None =>
              match llm with
              | ChatReplies reply =>
                  (reply, [EvChatTurns (ollama_conversation s)])
              | ChatFails e =>
                  (text_fallback child_name,
                   [EvChatTurns (ollama_conversation s);
                    EvPrint ("Ollama text error: " +:+ e)])
              end
          end in
        let s' := set_ollama_conversation
                    (ollama_conversation s
                     ++ [mkTurn Assistant (Text response_text)]) s in
        (streamed history response_text, s',
         out ++ repeat EvPause (String.length response_text))
  end.

(** ** [generate_comprehensive_report] *)

(** The four readings of [datetime.now()] that the report prints. *)
Record ReportClock : Type := mkReportClock {
  generated_at : string;     (* strftime("%B %d, %Y at %H:%M") *)
  assessment_date : string;  (* strftime("%B %d, %Y") *)
  generated_iso : string;    (* isoformat() *)
  next_review : string       (* strftime("%B %d, %Y") *)
}.

(** What the body of the [try] block meets: [chat] raises, or it returns and
    [RiskAssessment.model_validate_json] raises on its content, or the
    content is validated into a record.  The argument of the first two is
    [str(e)]. *)
Inductive StructuredOutcome : Type :=
| ChatRaises (e : string)
| ValidationRaises (e : string)
| Validated (assessment : RiskAssessment).

Definition not_onboarded_msg : string :=
  "Please complete the initial assessment form first.".

Definition no_conversation_report_msg : string :=
  "Please have a conversation first before generating a report.".

Definition fallback_severity : Z := 6.

Definition fallback_indicators : list string :=
  ["sleep disturbances"; "behavioral changes"; "anxiety"].

Definition assessment_prompt (c : ChildInfo) : string :=
  Py.join Py.nl [
    "Based on our conversation about " +:+ name c +:+ ", a "
      +:+ Py.str_of_int (age c) +:+ "-year-old " +:+ gender c +:+ " from "
      +:+ location c
      +:+ ", generate a comprehensive trauma risk assessment report. ";
    "";
    "Include:";
    "- Parent observations summary from our conversation";
    "- AI analysis of trauma indicators";
    "- Severity score (1-10 scale)";
    "- List of risk indicators identified";
    "- Cultural context considering the child's location and circumstances";
    "";
    "Consider the conversation history and any cultural factors relevant to "
      +:+ location c +:+ "."
  ].

Definition bullet (indicator : string) : string := "• " +:+ indicator.

Definition risk_level (severity : Z) : string :=
  if (severity <? 7)%Z then "🟡 Moderate Risk"
  else "🔴 High Risk - Urgent Intervention Recommended".

Definition clinical_priority (severity : Z) : string :=
  if (severity <? 7)%Z then "Standard referral appropriate"
  else "Expedited professional evaluation needed".

Definition severity_line (severity : Z) : string :=
  "**Severity Score:** " +:+ Py.str_of_int severity +:+ "/10  ".

Definition report_lines (r : ReportData) (now : ReportClock) : list string :=
  let c := child_info r in
  let a := assessment_data r in
  let m := media_attachments r in
  let severity := severity_score a in
  [
    "# 🔍 COMPREHENSIVE TRAUMA ASSESSMENT REPORT";
    "";
    "**Generated:** " +:+ generated_at now +:+ "  ";
    "**Assessment ID:** " +:+ Py.take 8 (mobile_app_id r) +:+ "  ";
    "**Confidentiality Level:** Protected Health Information";
    "**Platform:** Child Trauma Assessment AI";
    "";
    "---";
    "";
    "## 👤 CHILD INFORMATION";
    "";
    "**Name:** " +:+ name c +:+ "  ";
    "**Age:** " +:+ Py.str_of_int (age c) +:+ " years old  ";
    "**Gender:** " +:+ Py.title (gender c) +:+ "  ";
    "**Location:** " +:+ location c +:+ "  ";
    "**Assessment Date:** " +:+ assessment_date now;
    "";
    "---";
    "";
    "## 👥 PARENT OBSERVATIONS";
    "";
    parent_observations a;
    "";
    "**Session Details:**";
    "- **Duration:** " +:+ Py.str_of_len (length (conversation_history r)) +:+ " message exchanges";
    "- **Media Provided:** " +:+ Py.str_of_len (length (drawings m)) +:+ " drawings, " +:+ Py.str_of_len (length (photos m)) +:+ " photographs";
    "";
    "---";
    "";
    "## 🧠 AI ANALYSIS";
    "";
    ai_analysis a;
    "";
    "**Behavioral Patterns Identified:**";
    Py.join Py.nl (map bullet (risk_indicators a));
    "";
    "---";
    "";
    "## ⚠️ SEVERITY ASSESSMENT";
    "";
    severity_line severity;
    "**Risk Level:** " +:+ risk_level severity +:+ "  ";
    "**Clinical Priority:** " +:+ clinical_priority severity;
    "";
    "---";
    "";
    "## 🌍 CULTURAL CONTEXT";
    "";
    cultural_context a;
    "";
    "This assessment considers the cultural and environmental factors specific to " +:+ location c +:+ ", including region-specific trauma expressions, family dynamics, and community support systems.";
    "";
    "---";
    "";
    "## 📋 CLINICAL RECOMMENDATIONS";
    "";
    "**Immediate Actions:**";
    "1. Schedule comprehensive evaluation with licensed child trauma specialist";
    "2. Ensure stable, predictable environment for " +:+ name c;
    "3. Implement safety planning and crisis contact protocols";
    "";
    "**Therapeutic Interventions:**";
    "1. Begin trauma-focused cognitive behavioral therapy (TF-CBT)";
    "2. Consider family therapy to strengthen support systems";
    "3. Monitor sleep, appetite, and behavioral patterns daily";
    "";
    "**Cultural Considerations:**";
    "1. Engage culturally competent mental health services";
    "2. Incorporate traditional coping mechanisms where appropriate";
    "3. Consider community-based support resources";
    "";
    "**Follow-up:**";
    "- Initial professional evaluation within 1-2 weeks";
    "- Regular monitoring and assessment as recommended by treating clinician";
    "";
    "---";
    "";
    "## ⚖️ IMPORTANT DISCLAIMERS";
    "";
    "- **Preliminary Screening Tool:** This AI-generated assessment is for screening purposes only and does NOT constitute a clinical diagnosis";
    "- **Professional Validation Required:** All findings must be validated by licensed mental health professionals";
    "- **Emergency Protocol:** For immediate safety concerns, contact emergency services immediately";
    "- **Clinical Judgment:** AI analysis should supplement, not replace, professional clinical assessment";
    "";
    "**Report Generated:** " +:+ generated_iso now +:+ "  ";
    "**Next Review Recommended:** " +:+ next_review now +:+ " (2 weeks)";
    ""
  ].

(** The f-string returned by [generate_comprehensive_report]. *)
Definition render_report (r : ReportData) (now : ReportClock) : string :=
  Py.join Py.nl (report_lines r now).

Definition progress (progress_callback : bool) (msg : string) : list Event :=
  if progress_callback then [EvProgress msg] else [].

Definition apply_assessment (x : RiskAssessment) (a : AssessmentData)
    : AssessmentData :=
  set_cultural_context (ra_cultural_context x)
    (set_risk_indicators (ra_risk_indicators x)
       (set_severity_score (ra_severity_score x)
          (set_ai_analysis (ra_ai_analysis x)
             (set_parent_observations (ra_parent_observations x) a)))).

Definition apply_fallback (a : AssessmentData) : AssessmentData :=
  set_risk_indicators fallback_indicators
    (set_severity_score fallback_severity a).

Definition fallback_events (progress_callback : bool) (e : string)
    : list Event :=
  [EvPrint ("Ollama structured output error: " +:+ e)]
  ++ progress progress_callback "⚠️ Using fallback assessment...".

(** [progress_callback] tells whether a callback was passed; the callback
    itself only records the milestone. *)
Definition generate_comprehensive_report (s : App) (now : ReportClock)
    (progress_callback : bool) (llm : StructuredOutcome)
    : string * App * list Event :=
  if negb (is_onboarded s) then (not_onboarded_msg, s, [])
  else match ollama_conversation s with
  | [] => (no_conversation_report_msg, s, [])
  | _ :: _ =>
      let before :=
        progress progress_callback "🤖 Analyzing conversation with AI..."
        ++ progress progress_callback "🧠 AI is generating structured assessment..."
        ++ [EvChat (assessment_prompt (child_info (report_data s)))] in
      let '(s', out) :=
        match llm with
        | ChatRaises e =>
            (with_report_data (with_assessment_data apply_fallback) s,
             before ++ fallback_events progress_callback e)
        | ValidationRaises e =>
            (with_report_data (with_assessment_data apply_fallback) s,
             before
             ++ progress progress_callback "📊 Processing assessment data..."
             ++ fallback_events progress_callback e)
        | Validated x =>
            (with_report_data (with_assessment_data (apply_assessment x)) s,
             before
             ++ progress progress_callback "📊 Processing assessment data..."
             ++ progress progress_callback "📋 Formatting final report...")
        end in
      (render_report (report_data s') now, s', out)
  end.

(** ** [start_response_polling] *)

(** Starting the thread is the event [EvThreadStart]; the thread's body is
    [_poll_for_response] below. *)
Definition start_response_polling (s : App) : App * list Event :=
  match supabase s with
  | None =>
      (s, [EvPrint "⚠️ Cannot start polling: Missing Supabase connection or report ID"])
  | Some _ =>
      if negb (Py.truthy (submitted_report_id s)) then
        (s, [EvPrint "⚠️ Cannot start polling: Missing Supabase connection or report ID"])
      else if polling_active s then
        (s, [EvPrint "ℹ️ Polling already active"])
      else
        (set_polling_active true s,
         [EvPrint ("🔄 Starting background polling for report ID: "
                   +:+ Py.str (submitted_report_id s));
          EvThreadStart])
  end.

(** ** [push_report_to_care_bridge] *)

(** An exception raised inside the [try] block, by the first [except]
    clause that catches it, with its [str()]. *)
Inductive ExnClass : Type :=
| ConnectionError
| Timeout
| RequestException
| OtherException.

Record Exn : Type := mkExn {
  exn_class : ExnClass;
  exn_str : string
}.

(** [response.json()] followed by [.get]: decoding raises, or yields a dict,
    or yields a value without a [get] method (an [AttributeError], whose
    text is the argument). *)
Inductive JsonResult : Type :=
| JsonRaises (e : Exn)
| JsonDict (d : gmap string Py.value)
| JsonNotDict (attribute_error : string).

Record Response : Type := mkResponse {
  status_code : Z;
  response_text : string;
  json : JsonResult
}.

Inductive PostOutcome : Type :=
| PostRaises (e : Exn)
| PostReturns (r : Response).

Definition no_conversation_push_msg : string :=
  "Please have a conversation first before pushing a report.".

Definition default_base_url : string :=
  "https://care-bridge-platform-7vs1.vercel.app".

Definition push_except (e : Exn) : bool * string :=
  match exn_class e with
  | ConnectionError =>
      (false, "❌ Could not connect to Care Bridge Platform. Please check if the platform is running.")
  | Timeout => (false, "❌ Request timed out. Please try again.")
  | RequestException => (false, "❌ Network error: " +:+ exn_str e)
  | OtherException => (false, "❌ Unexpected error: " +:+ exn_str e)
  end.

Definition push_success_msg (report_id : Py.value) : string :=
  "✅ Report successfully pushed to Care Bridge Platform!" +:+ Py.nl
  +:+ "📋 Report ID: " +:+ Py.str report_id +:+ Py.nl
  +:+ "🔄 Now monitoring for specialist response...".

Definition api_error_msg (r : Response) : string :=
  "❌ API Error: " +:+ Py.str_of_int (status_code r) +:+ " - "
  +:+ response_text r.

Definition api_data_of (r : ReportData) : ApiData :=
  mkApiData (age (child_info r)) (Py.lower (gender (child_info r)))
            (location (child_info r)) (assessment_data r)
            (media_attachments r) (mobile_app_id r).

(** [result.get('id', 'Unknown')] *)
Definition get_id (result : gmap string Py.value) : Py.value :=
  default (Py.PyStr "Unknown") (result !! "id").

(** [http] is what the POST meets, if it is issued. *)
Definition push_report_to_care_bridge (s : App) (base_url : string)
    (http : PostOutcome) : (bool * string) * App * list Event :=
  if negb (is_onboarded s) then ((false, not_onboarded_msg), s, [])
  else match conversation_history (report_data s) with
  | [] => ((false, no_conversation_push_msg), s, [])
  | _ :: _ =>
      let api_data := api_data_of (report_data s) in
      let url := base_url +:+ "/api/reports" in
      let post := EvPost url api_data 10 in
      match http with
      | PostRaises e => (push_except e, s, [post])
      | PostReturns response =>
          if (status_code response =? 201)%Z then
            match json response with
            | JsonRaises e => (push_except e, s, [post])
            | JsonNotDict msg =>
                (push_except (mkExn OtherException msg), s, [post])
            | JsonDict result =>
                let report_id := get_id result in
                let s1 := set_submitted_report_id report_id s in
                let '(s2, out) := start_response_polling s1 in
                ((true, push_success_msg report_id), s2, post :: out)
            end
          else ((false, api_error_msg response), s, [post])
      end
  end.

(** ** [get_specialist_response] *)

Definition urgency_color : gmap string string :=
  <["low" := "🟢"]> (<["medium" := "🟡"]> (<["high" := "🟠"]>
    (<["critical" := "🔴"]> ∅))).

Definition no_response_msg : string :=
  "No specialist response available yet. Still monitoring...".

Definition response_header (response : SpecialistResponse) : string :=
  let urgency_emoji :=
    default "⚪" (urgency_color !! urgency_level response) in
  Py.join Py.nl ([
    "";
    "# 👨‍⚕️ SPECIALIST RESPONSE RECEIVED";
    "";
    "**Response Date:** " +:+ Py.replace "T"%char " "%char (Py.take 19 (response_date response)) +:+ "  ";
    "**Specialist ID:** " +:+ psychologist_id response +:+ "  ";
    "**Urgency Level:** " +:+ urgency_emoji +:+ " " +:+ Py.upper (urgency_level response);
    "";
    "---";
    "";
    "## 📝 PSYCHOLOGIST NOTES";
    "";
    psychologist_notes response;
    "";
    "---";
    "";
    "## 💡 RECOMMENDATIONS";
    "";
    ""
  ]).

(** One pass of the loop over the mapping's items.  [Py.title] changes the
    case of ASCII letters only, so this is Python's line for keys that are
    ASCII ([ascii_reply] below); likewise [Py.take] and [Py.upper] in the
    header. *)
Definition recommendation_line (item : string * string) : string :=
  "**" +:+ Py.title (Py.replace "_"%char " "%char (fst item)) +:+ ":** "
  +:+ snd item +:+ Py.nl +:+ Py.nl.

Definition format_response (response : SpecialistResponse) : string :=
  match recommendations response with
  | RecDict items =>
      fold_left (fun formatted_response item =>
                   formatted_response +:+ recommendation_line item)
                items (response_header response)
  | RecFlat shown => response_header response +:+ shown
  end.

(** [str(e)] of the [KeyError] that [response[key]] raises. *)
Definition key_error (key : string) : string := "'" +:+ key +:+ "'".

(** [str()] of a column that is present. *)
Definition cell_shown (c : Cell) : string :=
  match c with
  | Missing => ""
  | TextCell s => s
  | NotText shown _ _ => shown
  end.

(** The reads of the row's columns, in the order in which lines 476-501
    evaluate them: [urgency_level] as a dict key, then inside the f-string
    [response_date] sliced, [psychologist_id], [urgency_level] upper-cased,
    [psychologist_notes], and at last [recommendations].  The first read
    that fails raises and ends the call. *)
Definition read_row (row : Row) : Outcome SpecialistResponse :=
  match row_urgency_level row with
  | Missing => Raises (key_error "urgency_level")
  | NotText _ misuse false => Raises misuse
  | urgency_cell =>
      match row_response_date row with
      | Missing => Raises (key_error "response_date")
      | NotText _ misuse _ => Raises misuse
      | TextCell date =>
          match row_psychologist_id row with
          | Missing => Raises (key_error "psychologist_id")
          | id_cell =>
              match urgency_cell with
              | Missing => Raises (key_error "urgency_level")
              | NotText _ misuse _ => Raises misuse
              | TextCell level =>
                  match row_psychologist_notes row with
                  | Missing => Raises (key_error "psychologist_notes")
                  | notes_cell =>
                      match row_recommendations row with
                      | None => Raises (key_error "recommendations")
                      | Some recs =>
                          Returns (mkSpecialistResponse
                                     date (cell_shown id_cell) level
                                     (cell_shown notes_cell) recs)
                      end
                  end
              end
          end
      end
  end.

Definition get_specialist_response (s : App) : Outcome (bool * string) :=
  match specialist_response s with
  | Some row =>
      match read_row row with
      | Returns response => Returns (true, format_response response)
      | Raises e => Raises e
      end
  | None => Returns (false, no_response_msg)
  end.

(** ** [_poll_for_response] *)

Definition max_polls : nat := 120.

(** What one [execute()] meets: it raises, or it returns rows.  A [data]
    that is [None] or empty is the empty list. *)
Inductive QueryOutcome : Type :=
| QueryRaises (e : string)
| QueryReturns (data : list Row).

Inductive LoopState : Type :=
| Looping (poll_count : nat)
| Returned.

(** The statement after the [while] loop. *)
Definition after_loop (s : App) (poll_count : nat) : App :=
  if (max_polls <=? poll_count)%nat then set_polling_active false s else s.

(** One evaluation of the loop condition and, when it holds, one run of the
    loop body against the outcome [q] of the query. *)
Definition poll_iteration (s : App) (poll_count : nat) (q : QueryOutcome)
    : App * LoopState * list Event :=
  if polling_active s && (poll_count <? max_polls)%nat then
    let asked := [EvPrint "Polling for response...";
                  EvQuery (submitted_report_id s)] in
    match q with
    | QueryReturns (specialist_response :: _) =>
        let s1 := set_specialist_response specialist_response s in
        match get_specialist_response s1 with
        | Returns _ =>
            let s2 := set_polling_active false s1 in
            (after_loop s2 poll_count, Returned, asked)
        | Raises e =>
            (s1, Looping (S poll_count),
             asked ++ [EvPrint ("Error polling for response: " +:+ e);
                       EvSleep 5])
        end
    | QueryReturns [] =>
        (s, Looping (S poll_count), asked ++ [EvSleep 5])
    | QueryRaises e =>
        (s, Looping (S poll_count),
         asked ++ [EvPrint ("Error polling for response: " +:+ e); EvSleep 5])
    end
  else (after_loop s poll_count, Returned, []).

(** The loop, by fuel; [oracle k] is the outcome of the query made while
    [poll_count] is [k].  [None] means the fuel ran out. *)
Fixpoint poll_loop (fuel : nat) (oracle : nat -> QueryOutcome) (s : App)
    (poll_count : nat) : option (App * list Event) :=
  match fuel with
  | O => None
  | S fuel' =>
      match poll_iteration s poll_count (oracle poll_count) with
      | (s', Returned, out) => Some (s', out)
      | (s', Looping poll_count', out) =>
          match poll_loop fuel' oracle s' poll_count' with
          | Some (s'', out') => Some (s'', out ++ out')
          | None => None
          end
      end
  end.

Definition _poll_for_response (fuel : nat) (oracle : nat -> QueryOutcome)
    (s : App) : option (App * list Event) :=
  match poll_loop fuel oracle s 0 with
  | Some (s', out) => Some (s', EvPrint "Starting polling for response..." :: out)
  | None => None
  end.

(** The events of an attempt that finds nothing. *)
Definition empty_attempt (report_id : Py.value) (q : QueryOutcome)
    : list Event :=
  [EvPrint "Polling for response..."; EvQuery report_id]
  ++ match q with
     | QueryRaises e =>
         [EvPrint ("Error polling for response: " +:+ e); EvSleep 5]
     | QueryReturns _ => [EvSleep 5]
     end.

Definition finds_nothing (q : QueryOutcome) : Prop :=
  match q with
  | QueryRaises _ => True
  | QueryReturns data => data = []
  end.

Definition queries (out : list Event) : nat :=
  length (List.filter (fun e => match e with EvQuery _ => true | _ => false end) out).

Definition sleeps (out : list Event) : list Z :=
  flat_map (fun e => match e with EvSleep n => [n] | _ => [] end) out.

(** ** The session with its polling threads *)

(** The app object together with the polling threads that are alive, each
    with its own [poll_count].  A thread advances by one [poll_iteration]
    at a time, interleaved with the calls of the main flow. *)
Record System : Type := mkSystem {
  app : App;
  loops : list nat
}.

Inductive Action : Type :=
| ActOnboard (child_name : string) (child_age : option Q)
             (child_gender child_location : string)
| ActAddMessage (now : nat -> string) (history : list Turn) (message : Message)
| ActClear
| ActGenerate (now : ReportClock) (progress_callback : bool)
              (llm : StructuredOutcome)
| ActPush (base_url : string) (http : PostOutcome)
| ActStartPolling
| ActGetReply
| ActPoll (i : nat) (q : QueryOutcome)
| ActBotResponse (history : list Turn) (llm : ChatOutcome).

Definition launched (out : list Event) : nat :=
  length (List.filter
            (fun e => match e with EvThreadStart => true | _ => false end) out).

Definition spawn (out : list Event) (ls : list nat) : list nat :=
  ls ++ repeat 0%nat (launched out).

Definition step (sys : System) (a : Action) : System :=
  match a with
  | ActOnboard n x g l =>
      mkSystem (snd (complete_onboarding (app sys) n x g l)) (loops sys)
  | ActAddMessage now history message =>
      let '(_, s', _) := add_message (app sys) now history message in
      mkSystem s' (loops sys)
  | ActClear => mkSystem (snd (clear_conversation (app sys))) (loops sys)
  | ActGenerate now cb llm =>
      let '(_, s', _) := generate_comprehensive_report (app sys) now cb llm in
      mkSystem s' (loops sys)
  | ActPush base_url http =>
      let '(_, s', out) := push_report_to_care_bridge (app sys) base_url http in
      mkSystem s' (spawn out (loops sys))
  | ActStartPolling =>
      let '(s', out) := start_response_polling (app sys) in
      mkSystem s' (spawn out (loops sys))
  | ActGetReply => sys
  | ActPoll i q =>
      match loops sys !! i with
      | None => sys
      | Some poll_count =>
          match poll_iteration (app sys) poll_count q with
          | (s', Looping poll_count', _) =>
              mkSystem s' (<[i := poll_count']> (loops sys))
          | (s', Returned, _) => mkSystem s' (delete i (loops sys))
          end
      end
  | ActBotResponse history llm =>
      let '(_, s', _) := bot_response (app sys) history llm in
      mkSystem s' (loops sys)
  end.

Definition run (sys : System) (actions : list Action) : System :=
  fold_left step actions sys.

Definition start (uuid started : string) (client : option SupabaseClient)
    : System :=
  mkSystem (init uuid started client) [].

(** The identifier that a push would store, when it stores one. *)
Definition stored_id (a : Action) : option Py.value :=
  match a with
  | ActPush _ (PostReturns r) =>
      if (status_code r =? 201)%Z then
        match json r with
        | JsonDict d => Some (get_id d)
        | _ => None
        end
      else None
  | _ => None
  end.

Definition keeps_id (a : Action) : bool :=
  match stored_id a with
  | Some v => Py.truthy v
  | None => true
  end.

(** No push that is made while polling is active receives an identifier
    that is falsy. *)
Fixpoint ids_kept (sys : System) (actions : list Action) : Prop :=
  match actions with
  | [] => True
  | a :: rest =>
      (polling_active (app sys) = true -> keeps_id a = true)
      /\ ids_kept (step sys a) rest
  end.

(** ** Sequences of chat turns *)

(** The arguments of one call of [add_message]. *)
Record TurnInput : Type := mkTurnInput {
  turn_now : nat -> string;
  turn_history : list Turn;
  turn_message : Message
}.

Definition submit_turn (s : App) (t : TurnInput) : App :=
  snd (fst (add_message s (turn_now t) (turn_history t) (turn_message t))).

Definition submit_turns (s : App) (ts : list TurnInput) : App :=
  fold_left submit_turn ts s.

Definition observations (s : App) : string :=
  parent_observations (assessment_data (report_data s)).

Definition text_turn (txt : string) : TurnInput :=
  mkTurnInput (fun _ => "") [] (mkMessage [] txt).

(** Lines 122-136 of [add_message] alone, for a sequence of turns: the
    handling of the text, without the onboarding gate before it. *)
Definition add_texts (s : App) (ts : list TurnInput) : App :=
  fold_left (fun s t => snd (add_text (text (turn_message t))
                                      (turn_history t) s)) ts s.

(** The new value of the observations, from the old one and the text. *)
Definition appended (current_obs txt : string) : string :=
  if Py.nonempty txt
  then if Py.nonempty current_obs then current_obs +:+ " " +:+ txt else txt
  else current_obs.

Definition turn_texts (ts : list TurnInput) : list string :=
  map (fun t => text (turn_message t)) ts.

(** ** Outcomes, as the properties below name them *)

(** The structured-output call fails: [chat] raises, or its content does not
    validate. *)
Definition llm_fails (llm : StructuredOutcome) : Prop :=
  match llm with
  | ChatRaises _ | ValidationRaises _ => True
  | Validated _ => False
  end.

(** The POST fails, or the server answers with a status other than 201. *)
Definition post_fails (http : PostOutcome) : Prop :=
  match http with
  | PostRaises _ => True
  | PostReturns r => status_code r <> 201%Z
  end.

Definition failure_msg (http : PostOutcome) : string :=
  match http with
  | PostRaises e => snd (push_except e)
  | PostReturns r => api_error_msg r
  end.

Definition posts (out : list Event) : nat :=
  length (List.filter
            (fun e => match e with EvPost _ _ _ => true | _ => false end) out).

(** The calls of the model among the events, in order. *)
Definition chats (out : list Event) : list Event :=
  List.filter
    (fun e => match e with
              | EvChat _ | EvChatTurns _ | EvChatImage _ _ => true
              | _ => false
              end) out.

(** The action is an iteration of a polling thread whose query returns
    rows. *)
Definition stores_reply (a : Action) : bool :=
  match a with
  | ActPoll _ (QueryReturns (_ :: _)) => true
  | _ => false
  end.

(** The events of the attempts made while [poll_count] runs through [n]
    values from [from], when none of them finds a row. *)
Definition attempts_from (oracle : nat -> QueryOutcome) (report_id : Py.value)
    (from n : nat) : list Event :=
  flat_map (fun k => empty_attempt report_id (oracle k)) (seq from n).

(** ** Invariants of the coordinator *)

(** The fields of the coordinator are the same in both states. *)
Definition same_coordination (s s' : App) : Prop :=
  supabase s' = supabase s
  /\ polling_active s' = polling_active s
  /\ submitted_report_id s' = submitted_report_id s
  /\ specialist_response s' = specialist_response s.

(** [polling_active] is set exactly while one polling thread is alive, and
    then the lookup-store client is configured. *)
Definition coordinated (sys : System) : Prop :=
  (polling_active (app sys) = true ->
   supabase (app sys) <> None /\ exists poll_count, loops sys = [poll_count])
  /\ (polling_active (app sys) = false -> loops sys = []).

(** No polling thread has counted past [max_polls]. *)
Definition bounded (sys : System) : Prop :=
  Forall (fun poll_count => (poll_count <= max_polls)%nat) (loops sys).

(** While [polling_active] is set, the stored identifier is truthy. *)
Definition identified (sys : System) : Prop :=
  polling_active (app sys) = true ->
  Py.truthy (submitted_report_id (app sys)) = true.

(** ** [check_for_response] *)

(** The markup [<div class="cls">body</div>] of a status line. *)
Definition status_div (cls body : string) : string :=
  "<div class=" +:+ String (ascii_of_nat 34) cls
  +:+ String (ascii_of_nat 34) ">" +:+ body +:+ "</div>".

Definition received_status : string :=
  status_div "status-success" "✅ Specialist response received!".

Definition monitoring_status : string :=
  status_div "status-info" "🔄 Still monitoring for specialist response...".

Definition stopped_status : string :=
  status_div "status-warning"
    "⏸️ Monitoring stopped. No response received within time limit.".

Definition not_submitted_status : string :=
  status_div "status-warning" "ℹ️ Submit a report first to check for responses.".

(** The handler of the "Check for Specialist Response" button: the text
    shown and the status line. *)
Definition check_for_response (s : App) : Outcome (string * string) :=
  match get_specialist_response s with
  | Raises e => Raises e
  | Returns (has_response, response_content) =>
      Returns
        (if has_response then (response_content, received_status)
         else if polling_active s then ("", monitoring_status)
         else if Py.truthy (submitted_report_id s) then ("", stopped_status)
         else ("", not_submitted_status))
  end.

(** ** [save_report_with_data] *)

(** What the two writes meet: both succeed, or opening or writing the
    report file raises, or the report is written and the data file
    raises.  The argument is [str(e)]. *)
Inductive SaveOutcome : Type :=
| SaveSucceeds
| ReportFileRaises (e : string)
| DataFileRaises (e : string).

(** The files that have been written: the report text, and the JSON dump
    of [report_data]. *)
Inductive FileEvent : Type :=
| WroteReport (filename content : string)
| DumpedData (filename : string) (data : ReportData).

Definition no_report_to_save_msg : string := "❌ No report available to save.".

Definition report_filename (s : App) (timestamp : string) : string :=
  "trauma_report_" +:+ name (child_info (report_data s)) +:+ "_"
  +:+ timestamp +:+ ".md".

Definition data_filename (s : App) (timestamp : string) : string :=
  "assessment_data_" +:+ name (child_info (report_data s)) +:+ "_"
  +:+ timestamp +:+ ".json".

(** [timestamp] is [datetime.now().strftime("%Y%m%d_%H%M%S")]. *)
Definition save_report_with_data (s : App) (timestamp : string)
    (io : SaveOutcome) (report_content : string) : string * list FileEvent :=
  if negb (Py.nonempty report_content)
     || Py.contains "Please complete" report_content
  then (no_report_to_save_msg, [])
  else
    let wrote := WroteReport (report_filename s timestamp) report_content in
    let dumped := DumpedData (data_filename s timestamp) (report_data s) in
    match io with
    | ReportFileRaises e => ("❌ Error saving files: " +:+ e, [])
    | DataFileRaises e => ("❌ Error saving files: " +:+ e, [wrote])
    | SaveSucceeds =>
        ("✅ Report saved as: **" +:+ report_filename s timestamp
         +:+ "**<br>📊 Data saved as: **" +:+ data_filename s timestamp
         +:+ "**",
         [wrote; dumped])
    end.

(** ** Notions used by the further properties *)

(** The last of the four texts of [generate_cultural_context]. *)
Definition generic_context (loc : string) : string :=
  "Assessment conducted with consideration for local cultural context in "
  +:+ loc.

Definition is_image (file : string) : bool :=
  match classify_file_type file with
  | Image => true
  | Other => false
  end.

(** The turns that [add_message] appends for a message. *)
Definition message_turns (message : Message) : list Turn :=
  map (fun file => mkTurn User (FilePath file)) (files message)
  ++ (if Py.nonempty (text message)
      then [mkTurn User (Text (text message))] else []).

(** The text holds ASCII characters only: for such a text the bytes of
    the model are the characters of the Python [str], and [lower], [upper]
    and [title] of the model are those of Python. *)
Definition ascii_text (s : string) : Prop :=
  forallb (fun c => (nat_of_ascii c <? 128)%nat) (list_ascii_of_string s)
  = true.

(** The filename heuristic of [add_message] for an image. *)
Definition is_drawing (file : string) : bool :=
  Py.contains "draw" (Py.lower file).

(** The parts of the session that only onboarding can write: the child
    information and the gate; and those that nothing writes after the
    session starts. *)
Definition same_session (s s' : App) : Prop :=
  child_info (report_data s') = child_info (report_data s)
  /\ is_onboarded s' = is_onboarded s
  /\ mobile_app_id (report_data s') = mobile_app_id (report_data s)
  /\ session_start (report_data s') = session_start (report_data s)
  /\ supabase s' = supabase s
  /\ audio_recordings (media_attachments (report_data s'))
     = audio_recordings (media_attachments (report_data s)).

(** A session without lookup-store client in which nothing polls and no
    reply is stored. *)
Definition idle_without_client (sys : System) : Prop :=
  supabase (app sys) = None
  /\ polling_active (app sys) = false
  /\ loops sys = []
  /\ specialist_response (app sys) = None.

(** A row whose five columns are present and hold the texts of [r]. *)
Definition row_of (r : SpecialistResponse) : Row :=
  mkRow (TextCell (response_date r)) (TextCell (psychologist_id r))
        (TextCell (urgency_level r)) (TextCell (psychologist_notes r))
        (Some (recommendations r)).

(** The texts whose letter case or length the template changes are ASCII:
    the date, which is cut at 19 characters, the urgency level, which is
    upper-cased, and the keys of the recommendations, which are
    title-cased.  [Py.take], [Py.upper] and [Py.title] work on bytes and
    agree with Python's on such texts. *)
Definition ascii_reply (r : SpecialistResponse) : Prop :=
  ascii_text (response_date r)
  /\ ascii_text (urgency_level r)
  /\ match recommendations r with
     | RecDict items => Forall (fun item => ascii_text (fst item)) items
     | RecFlat _ => True
     end.

(** [l1] is an initial segment of [l2]. *)
Definition extends {A : Type} (l1 l2 : list A) : Prop :=
  exists added, l2 = l1 ++ added.

(** The first of [oracle 0], [oracle 1], ... below [k] that returns rows,
    none of the earlier ones doing so. *)
Definition first_reply_at (oracle : nat -> QueryOutcome) (k : nat)
    (reply : Row) : Prop :=
  (forall j, (j < k)%nat -> finds_nothing (oracle j))
  /\ exists later, oracle k = QueryReturns (reply :: later).

(** * Properties *)

(** ** Strings *)

Section Strings.

Lemma append_cons (x : ascii) (a b : string) :
  String x a +:+ b = String x (a +:+ b).
Proof. reflexivity. Qed.

Lemma append_empty_l (b : string) : "" +:+ b = b.
Proof. reflexivity. Qed.

Lemma append_empty_r (a : string) : a +:+ "" = a.
Proof.
  induction a as [|x a IH]; [reflexivity|].
  now rewrite append_cons, IH.
Qed.

Lemma append_assoc (a b c : string) : (a +:+ b) +:+ c = a +:+ (b +:+ c).
Proof.
  induction a as [|x a IH]; [reflexivity|].
  now rewrite !append_cons, IH.
Qed.

Lemma nonempty_true (s : string) : s <> "" -> Py.nonempty s = true.
Proof. destruct s; [congruence | reflexivity]. Qed.

Lemma nonempty_false (s : string) : Py.nonempty s = false -> s = "".
Proof. destruct s; [reflexivity | discriminate]. Qed.

Lemma nonempty_append_l (a b : string) :
  Py.nonempty a = true -> Py.nonempty (a +:+ b) = true.
Proof. destruct a; [discriminate | reflexivity]. Qed.

Lemma length_append (a b : string) :
  String.length (a +:+ b) = (String.length a + String.length b)%nat.
Proof.
  induction a as [|x a IH]; [reflexivity|].
  rewrite append_cons. simpl. now rewrite IH.
Qed.

(** An element of a joined list occurs in the joined text. *)
Lemma join_In (sep x : string) (parts : list string) :
  In x parts -> exists p q, Py.join sep parts = p +:+ x +:+ q.
Proof.
  unfold Py.join.
  induction parts as [|y parts IH]; intros Hin; [destruct Hin|].
  destruct Hin as [-> | Hin].
  - destruct parts as [|z parts].
    + exists "", "". now rewrite append_empty_l, append_empty_r.
    + exists "", (sep +:+ String.concat sep (z :: parts)). reflexivity.
  - destruct (IH Hin) as (p & q & E).
    destruct parts as [|z parts]; [destruct Hin|].
    exists (y +:+ sep +:+ p), q.
    change (String.concat sep (y :: z :: parts))
      with (y +:+ sep +:+ String.concat sep (z :: parts)).
    rewrite E. now rewrite !append_assoc.
Qed.

End Strings.

(** ** Session report store *)

Section SessionStore.

Lemma with_report_data_eta (s : App) :
  with_report_data
    (set_media_attachments (media_attachments (report_data s))) s = s.
Proof. destruct s as [[] ? ? ? ? ? ?]; reflexivity. Qed.

(** The loop over the files only rewrites [media_attachments]. *)
Lemma add_files_shape (fs : list string) :
  forall k now history s out,
  exists m,
    snd (fst (add_files fs k now history s out))
    = with_report_data (set_media_attachments m) s.
Proof.
  induction fs as [|file rest IH]; intros k now history s out; simpl.
  - exists (media_attachments (report_data s)).
    symmetry; apply with_report_data_eta.
  - destruct (classify_file_type file).
    + edestruct IH as [m ->]. eexists. reflexivity.
    + apply IH.
Qed.

Lemma add_text_observations (txt : string) (history : list Turn) (s : App) :
  observations (snd (add_text txt history s)) = appended (observations s) txt.
Proof.
  unfold add_text, observations, appended.
  destruct (Py.nonempty txt); [|reflexivity].
  cbn. destruct (Py.nonempty _); reflexivity.
Qed.

Lemma add_text_onboarded (txt : string) (history : list Turn) (s : App) :
  is_onboarded (snd (add_text txt history s)) = is_onboarded s.
Proof. unfold add_text. destruct (Py.nonempty txt); reflexivity. Qed.

Lemma submit_turn_onboarded (s : App) (t : TurnInput) :
  is_onboarded (submit_turn s t) = is_onboarded s.
Proof.
  unfold submit_turn, add_message.
  destruct (is_onboarded s) eqn:Hon; simpl; [|exact Hon].
  destruct (add_files_shape (files (turn_message t)) 0 (turn_now t)
              (turn_history t) s []) as [m Hm].
  destruct (add_files _ _ _ _ _ _) as [[h1 s1] out]; simpl in Hm; subst s1.
  pose proof (add_text_onboarded (text (turn_message t)) h1
                (with_report_data (set_media_attachments m) s)) as Ht.
  destruct (add_text _ _ _) as [h2 s2]; simpl in *.
  now rewrite Ht.
Qed.

(** One accepted turn: the text goes to the end of the observations,
    after one space when there were observations already. *)
Lemma submit_turn_observations (s : App) (t : TurnInput) :
  is_onboarded s = true ->
  observations (submit_turn s t)
  = appended (observations s) (text (turn_message t)).
Proof.
  intros Hon. unfold submit_turn, add_message. rewrite Hon; simpl.
  destruct (add_files_shape (files (turn_message t)) 0 (turn_now t)
              (turn_history t) s []) as [m Hm].
  destruct (add_files _ _ _ _ _ _) as [[h1 s1] out]; simpl in Hm; subst s1.
  pose proof (add_text_observations (text (turn_message t)) h1
                (with_report_data (set_media_attachments m) s)) as Ht.
  destruct (add_text _ _ _) as [h2 s2]; simpl in *.
  exact Ht.
Qed.

Lemma join_absorb (a b : string) (rest : list string) :
  Py.join " " ((a +:+ " " +:+ b) :: rest) = Py.join " " (a :: b :: rest).
Proof.
  unfold Py.join. destruct rest as [|c rest].
  - reflexivity.
  - change (String.concat " " (a :: b :: c :: rest))
      with (a +:+ " " +:+ b +:+ " " +:+ String.concat " " (c :: rest)).
    change (String.concat " " ((a +:+ " " +:+ b) :: c :: rest))
      with ((a +:+ " " +:+ b) +:+ " " +:+ String.concat " " (c :: rest)).
    now rewrite !append_assoc.
Qed.

(** Appending the texts one by one joins the non-empty ones by a space. *)
Lemma fold_appended (texts : list string) :
  forall obs,
  fold_left appended texts obs
  = Py.join " " (List.filter Py.nonempty (obs :: texts)).
Proof.
  induction texts as [|txt texts IH]; intros obs.
  - simpl. destruct (Py.nonempty obs) eqn:E; simpl;
      [reflexivity | now apply nonempty_false].
  - cbn [fold_left]. rewrite IH. unfold appended. simpl List.filter.
    destruct (Py.nonempty txt) eqn:Et;
      destruct (Py.nonempty obs) eqn:Eo; try reflexivity.
    + rewrite nonempty_append_l by exact Eo. apply join_absorb.
    + now rewrite Et.
Qed.

Lemma submit_turns_observations (ts : list TurnInput) :
  forall s,
  is_onboarded s = true ->
  observations (submit_turns s ts)
  = fold_left appended (turn_texts ts) (observations s).
Proof.
  induction ts as [|t ts IH]; intros s Hon; [reflexivity|].
  change (submit_turns s (t :: ts)) with (submit_turns (submit_turn s t) ts).
  rewrite IH by (now rewrite submit_turn_onboarded).
  now rewrite (submit_turn_observations s t Hon).
Qed.

Lemma add_texts_observations (ts : list TurnInput) :
  forall s,
  observations (add_texts s ts)
  = fold_left appended (turn_texts ts) (observations s).
Proof.
  induction ts as [|t ts IH]; intros s; [reflexivity|].
  unfold add_texts in *. cbn [fold_left]. rewrite IH.
  now rewrite add_text_observations.
Qed.

End SessionStore.

Section SessionStoreClaims.

(** C7.  [clear_conversation] empties the transcript, the observations and
    the three attachment sequences of any session, and leaves the child
    information and the session identifier [mobile_app_id] as they
    were. *)
Theorem clear_conversation_resets_and_preserves (s : App) :
  let s' := snd (clear_conversation s) in
  conversation_history (report_data s') = []
  /\ observations s' = ""
  /\ drawings (media_attachments (report_data s')) = []
  /\ audio_recordings (media_attachments (report_data s')) = []
  /\ photos (media_attachments (report_data s')) = []
  /\ child_info (report_data s') = child_info (report_data s)
  /\ mobile_app_id (report_data s') = mobile_app_id (report_data s).
Proof. repeat split. Qed.

(** C8.  Starting from empty observations, the observations after a
    sequence of text turns are the texts of the turns, in the order of
    submission, joined by one space: so for the handling of the text
    itself, and so for [add_message] in a session that accepts turns
    (onboarding is complete).  The texts "A" then "B" give "A B", not
    "B A" and not "AB". *)
Theorem observations_follow_submission_order (s : App) (ts : list TurnInput) :
  observations s = "" ->
  let said := Py.join " " (List.filter Py.nonempty (turn_texts ts)) in
  observations (add_texts s ts) = said
  /\ (is_onboarded s = true -> observations (submit_turns s ts) = said)
  /\ (turn_texts ts = ["A"; "B"] ->
      said = "A B" /\ said <> "B A" /\ said <> "AB").
Proof.
  intros Hobs said.
  assert (E : fold_left appended (turn_texts ts) (observations s) = said).
  { rewrite fold_appended, Hobs. reflexivity. }
  split; [now rewrite add_texts_observations|].
  split; [intros Hon; now rewrite submit_turns_observations|].
  intros Hts. subst said. rewrite Hts. repeat split; discriminate.
Qed.

Lemma observations_follow_submission_order_witness :
  let s := snd (complete_onboarding (init "0f8fad5b" "2025-06-01T09:00:00" None)
                  "Sam" (Some (8 # 1)%Q) "Female" "Gaza") in
  let ts := [text_turn "A"; text_turn "B"] in
  is_onboarded s = true
  /\ observations s = ""
  /\ observations (submit_turns s ts) = "A B"
  /\ observations (submit_turns s ts) <> "B A"
  /\ observations (submit_turns s ts) <> "AB".
Proof.
  intros s ts.
  assert (Hon : is_onboarded s = true) by reflexivity.
  assert (Hobs : observations s = "") by reflexivity.
  destruct (observations_follow_submission_order s ts Hobs)
    as (_ & Hsub & Hab).
  destruct (Hab eq_refl) as (Heq & Hne1 & Hne2).
  rewrite (Hsub Hon).
  exact (conj Hon (conj Hobs (conj Heq (conj Hne1 Hne2)))).
Defined.

Lemma number_truthy_nonzero (x : Q) : ~ (x == 0)%Q -> Py.number_truthy x = true.
Proof.
  intros Hx. unfold Py.number_truthy.
  destruct (Qeq_bool x 0) eqn:E; [|reflexivity].
  apply Qeq_bool_eq in E. contradiction.
Qed.

(** C9.  [complete_onboarding] checks no age range: with a non-empty name,
    gender and location and any number other than zero as the age, it
    succeeds, stores [int(age)] with the other three values as the child
    information, and opens the onboarding gate. *)
Theorem complete_onboarding_accepts_any_nonzero_age
    (s : App) (child_name : string) (child_age : Q)
    (child_gender child_location : string) :
  child_name <> "" ->
  ~ (child_age == 0)%Q ->
  child_gender <> "" ->
  child_location <> "" ->
  let r := complete_onboarding s child_name (Some child_age)
             child_gender child_location in
  fst r = (true, welcome_msg child_name)
  /\ child_info (report_data (snd r))
     = mkChildInfo child_name (Py.int_of_number child_age)
                   child_gender child_location
  /\ is_onboarded (snd r) = true.
Proof.
  intros Hn Ha Hg Hl. unfold complete_onboarding.
  rewrite (nonempty_true _ Hn), (nonempty_true _ Hg), (nonempty_true _ Hl),
    (number_truthy_nonzero _ Ha).
  repeat split.
Qed.

Lemma complete_onboarding_accepts_any_nonzero_age_witness :
  let s := init "0f8fad5b" "2025-06-01T09:00:00" None in
  let stored x :=
    age (child_info (report_data
           (snd (complete_onboarding s "Sam" (Some x) "Female" "Gaza")))) in
  let gate x :=
    is_onboarded (snd (complete_onboarding s "Sam" (Some x) "Female" "Gaza")) in
  (stored (1 # 1)%Q = 1%Z /\ gate (1 # 1)%Q = true)
  /\ (stored (100 # 1)%Q = 100%Z /\ gate (100 # 1)%Q = true)
  /\ (stored (-7 # 2)%Q = (-3)%Z /\ gate (-7 # 2)%Q = true).
Proof.
  intros s stored gate. unfold stored, gate.
  assert (H : forall x : Q, ~ (x == 0)%Q ->
            age (child_info (report_data
              (snd (complete_onboarding s "Sam" (Some x) "Female" "Gaza"))))
            = Py.int_of_number x
            /\ is_onboarded
                 (snd (complete_onboarding s "Sam" (Some x) "Female" "Gaza"))
               = true).
  { intros x Hx.
    destruct (complete_onboarding_accepts_any_nonzero_age
                s "Sam" x "Female" "Gaza"
                ltac:(discriminate) Hx ltac:(discriminate)
                ltac:(discriminate)) as (_ & Hinfo & Hgate).
    split; [now rewrite Hinfo | exact Hgate]. }
  split; [|split]; apply H; discriminate.
Defined.

End SessionStoreClaims.

(** ** Report synthesizer *)

Section Synthesizer.

Lemma generate_cultural_context_nonempty (loc : string) :
  generate_cultural_context loc <> "".
Proof.
  unfold generate_cultural_context.
  repeat match goal with
         | |- context [if ?b then _ else _] => destruct b
         end; discriminate.
Qed.

(** What the failure branch does, when both preconditions hold. *)
Lemma generate_on_failure (s : App) (now : ReportClock) (cb : bool)
    (llm : StructuredOutcome) :
  is_onboarded s = true ->
  ollama_conversation s <> [] ->
  llm_fails llm ->
  let s' := with_report_data (with_assessment_data apply_fallback) s in
  fst (generate_comprehensive_report s now cb llm)
  = (render_report (report_data s') now, s').
Proof.
  intros Hon Hconv Hfail. unfold generate_comprehensive_report.
  rewrite Hon; simpl negb; cbv iota.
  destruct (ollama_conversation s) as [|t ts]; [congruence|].
  destruct llm as [e|e|x]; [reflexivity | reflexivity | destruct Hfail].
Qed.

Lemma report_has_line (r : ReportData) (now : ReportClock) (line : string) :
  In line (report_lines r now) ->
  exists p q, render_report r now = p +:+ line +:+ q.
Proof. apply join_In. Qed.

End Synthesizer.

Section SynthesizerClaims.

(** C4, as stated, fails: the fallback does not blank the cultural
    context.  After onboarding with location "Gaza" and one text turn, a
    synthesis whose model call raises leaves the context written at
    onboarding in place. *)
Lemma fallback_blanks_context_counterexample :
  let s0 := init "0f8fad5b" "2025-06-01T09:00:00" None in
  let s1 := snd (complete_onboarding s0 "Sam" (Some (8 # 1)%Q) "Female" "Gaza") in
  let s2 := submit_turn s1 (text_turn "She wakes up screaming") in
  let now := mkReportClock "June 01, 2025 at 09:30" "June 01, 2025"
               "2025-06-01T09:30:00" "June 01, 2025" in
  let s3 := snd (fst (generate_comprehensive_report s2 now false
                        (ChatRaises "connection refused"))) in
  is_onboarded s2 = true
  /\ ollama_conversation s2 <> []
  /\ cultural_context (assessment_data (report_data s3))
     = "Assessment conducted considering ongoing conflict exposure and displacement trauma"
  /\ cultural_context (assessment_data (report_data s3)) <> "".
Proof. repeat split; discriminate. Qed.

(** C4, amended.  When the structured-output call fails in a synthesis
    that passed both preconditions, the severity score becomes 6 and the
    risk indicators become the three fallback strings; the observations,
    the analysis and the cultural context stay as they were; and the
    report is still rendered from the record and returned, with the score
    line "6/10" and the three indicators as bullets in it. *)
Theorem fallback_record_and_report (s : App) (now : ReportClock) (cb : bool)
    (llm : StructuredOutcome) :
  is_onboarded s = true ->
  ollama_conversation s <> [] ->
  llm_fails llm ->
  let r := generate_comprehensive_report s now cb llm in
  let report := fst (fst r) in
  let a := assessment_data (report_data s) in
  let a' := assessment_data (report_data (snd (fst r))) in
  severity_score a' = 6%Z
  /\ risk_indicators a'
     = ["sleep disturbances"; "behavioral changes"; "anxiety"]
  /\ parent_observations a' = parent_observations a
  /\ ai_analysis a' = ai_analysis a
  /\ cultural_context a' = cultural_context a
  /\ report = render_report (report_data (snd (fst r))) now
  /\ (exists p q, report = p +:+ "**Severity Score:** 6/10" +:+ q)
  /\ (exists p q,
        report = p +:+ ("• sleep disturbances" +:+ Py.nl
                        +:+ "• behavioral changes" +:+ Py.nl
                        +:+ "• anxiety") +:+ q).
Proof.
  intros Hon Hconv Hfail r report a a'.
  pose proof (generate_on_failure s now cb llm Hon Hconv Hfail) as E.
  cbv zeta in E. fold r in E.
  unfold report, a'. rewrite E. cbn [fst snd].
  repeat (split; [reflexivity|]).
  split.
  - destruct (report_has_line
                (report_data
                   (with_report_data (with_assessment_data apply_fallback) s))
                now "**Severity Score:** 6/10  ") as (p & q & Hpq).
    { unfold report_lines.
      repeat (first [apply in_eq | apply in_cons]). }
    exists p, ("  " +:+ q). rewrite Hpq.
    change "**Severity Score:** 6/10  " with ("**Severity Score:** 6/10" +:+ "  ").
    now rewrite append_assoc.
  - apply report_has_line. unfold report_lines.
    repeat (first [apply in_eq | apply in_cons]).
Qed.

Lemma fallback_record_and_report_witness :
  let s0 := init "0f8fad5b" "2025-06-01T09:00:00" None in
  let s1 := snd (complete_onboarding s0 "Sam" (Some (8 # 1)%Q) "Female" "Gaza") in
  let s2 := submit_turn s1 (text_turn "She wakes up screaming") in
  let now := mkReportClock "June 01, 2025 at 09:30" "June 01, 2025"
               "2025-06-01T09:30:00" "June 01, 2025" in
  let r := generate_comprehensive_report s2 now true
             (ValidationRaises "1 validation error for RiskAssessment") in
  is_onboarded s2 = true
  /\ ollama_conversation s2 <> []
  /\ severity_score (assessment_data (report_data (snd (fst r)))) = 6%Z
  /\ risk_indicators (assessment_data (report_data (snd (fst r))))
     = ["sleep disturbances"; "behavioral changes"; "anxiety"].
Proof.
  intros s0 s1 s2 now r.
  assert (Hon : is_onboarded s2 = true) by reflexivity.
  assert (Hconv : ollama_conversation s2 <> []) by discriminate.
  destruct (fallback_record_and_report s2 now true
              (ValidationRaises "1 validation error for RiskAssessment")
              Hon Hconv I) as (Hsev & Hind & _).
  exact (conj Hon (conj Hconv (conj Hsev Hind))).
Defined.

End SynthesizerClaims.

(** ** Submission *)

Section Submission.

(** [start_response_polling] launches at most one thread, and launches
    one exactly when it switches [polling_active] on. *)
Lemma start_response_polling_cases (s : App) :
  (fst (start_response_polling s) = s
   /\ launched (snd (start_response_polling s)) = 0%nat)
  \/ (polling_active s = false
      /\ supabase s <> None
      /\ Py.truthy (submitted_report_id s) = true
      /\ fst (start_response_polling s) = set_polling_active true s
      /\ launched (snd (start_response_polling s)) = 1%nat).
Proof.
  unfold start_response_polling.
  destruct (supabase s) eqn:Hc; [|left; split; reflexivity].
  destruct (Py.truthy (submitted_report_id s)) eqn:Hid;
    [|left; split; reflexivity].
  destruct (polling_active s) eqn:Hp; [left; split; reflexivity|].
  right. repeat split. discriminate.
Qed.

(** A push that does not reach the success branch returns the state it
    was given and launches nothing. *)
Lemma push_rejected (s : App) (base_url : string) (http : PostOutcome) :
  is_onboarded s = false \/ conversation_history (report_data s) = [] ->
  push_report_to_care_bridge s base_url http
  = ((false,
      if is_onboarded s then no_conversation_push_msg else not_onboarded_msg),
     s, []).
Proof.
  unfold push_report_to_care_bridge.
  destruct (is_onboarded s); simpl; [|reflexivity].
  intros [H | H]; [discriminate|]. now rewrite H.
Qed.

Lemma push_accepted (s : App) (base_url : string) (http : PostOutcome) :
  is_onboarded s = true ->
  conversation_history (report_data s) <> [] ->
  push_report_to_care_bridge s base_url http
  = let post := EvPost (base_url +:+ "/api/reports")
                  (api_data_of (report_data s)) 10 in
    match http with
    | PostRaises e => (push_except e, s, [post])
    | PostReturns response =>
        if (status_code response =? 201)%Z then
          match json response with
          | JsonRaises e => (push_except e, s, [post])
          | JsonNotDict msg =>
              (push_except (mkExn OtherException msg), s, [post])
          | JsonDict result =>
              let s1 := set_submitted_report_id (get_id result) s in
              ((true, push_success_msg (get_id result)),
               fst (start_response_polling s1),
               post :: snd (start_response_polling s1))
          end
        else ((false, api_error_msg response), s, [post])
    end.
Proof.
  intros Hon Hh. unfold push_report_to_care_bridge. rewrite Hon; simpl negb.
  cbv iota. destruct (conversation_history (report_data s)); [congruence|].
  destruct http as [e|r]; [reflexivity|].
  destruct (status_code r =? 201)%Z; [|reflexivity].
  destruct (json r); try reflexivity.
  cbv zeta. now destruct (start_response_polling _).
Qed.

Lemma push_except_fails (e : Exn) : fst (push_except e) = false.
Proof. unfold push_except. now destruct (exn_class e). Qed.

Lemma preconditions_dec (s : App) :
  (is_onboarded s = false \/ conversation_history (report_data s) = [])
  \/ (is_onboarded s = true /\ conversation_history (report_data s) <> []).
Proof.
  destruct (is_onboarded s); [|left; now left].
  destruct (conversation_history (report_data s));
    [left; now right | right; split; [reflexivity | discriminate]].
Qed.

End Submission.

Section SubmissionClaims.

(** C3, as stated, fails in its last part: a 201 response whose body has
    no [id] also stores an identifier, the text "Unknown", and starts
    polling for it. *)
Lemma push_without_id_counterexample :
  let s0 := init "0f8fad5b" "2025-06-01T09:00:00"
              (Some (mkSupabaseClient "https://db.example" "anon")) in
  let s1 := snd (complete_onboarding s0 "Sam" (Some (8 # 1)%Q) "Female" "Gaza") in
  let s2 := submit_turn s1 (text_turn "She wakes up screaming") in
  let body : gmap string Py.value := ∅ in
  let r := push_report_to_care_bridge s2 default_base_url
             (PostReturns (mkResponse 201 "{}" (JsonDict body))) in
  body !! "id" = None
  /\ fst (fst (fst r)) = true
  /\ submitted_report_id (snd (fst r)) = Py.PyStr "Unknown"
  /\ polling_active (snd (fst r)) = true
  /\ launched (snd r) = 1%nat.
Proof. repeat split. Qed.

(** C3, amended.  When the POST raises or the server answers with a
    status other than 201, [push_report_to_care_bridge] returns a failure
    flag, returns the state it was given (no identifier stored, polling
    flag untouched) and launches no thread; it issues at most one POST,
    and when the preconditions hold exactly one, with the message of the
    exception clause or, for a status other than 201, "API Error" with the
    status code and the body.  The state changes, a thread is launched, or
    success is reported only for a 201 response whose body decodes to a
    dict; the identifier stored is then the dict's [id], or "Unknown" when
    it has none. *)
Theorem push_failure_changes_nothing (s : App) (base_url : string)
    (http : PostOutcome) :
  let r := push_report_to_care_bridge s base_url http in
  let res := fst (fst r) in
  let s' := snd (fst r) in
  let out := snd r in
  (post_fails http ->
     fst res = false
     /\ s' = s
     /\ launched out = 0%nat
     /\ (posts out <= 1)%nat
     /\ (is_onboarded s = true ->
         conversation_history (report_data s) <> [] ->
         out = [EvPost (base_url +:+ "/api/reports")
                  (api_data_of (report_data s)) 10]
         /\ snd res = failure_msg http))
  /\ (s' <> s \/ launched out <> 0%nat \/ fst res = true ->
      exists response result,
        http = PostReturns response
        /\ status_code response = 201%Z
        /\ json response = JsonDict result
        /\ submitted_report_id s' = get_id result
        /\ fst res = true).
Proof.
  intros r res s' out. subst res s' out.
  destruct (preconditions_dec s) as [Hrej | [Hon Hh]].
  - subst r. rewrite (push_rejected s base_url http Hrej). cbn [fst snd].
    split.
    + intros _.
      split; [reflexivity|]. split; [reflexivity|]. split; [reflexivity|].
      split; [apply Nat.le_0_l|].
      intros Hon Hh; destruct Hrej; congruence.
    + intros [H | [H | H]]; [congruence | now elim H | discriminate].
  - subst r. rewrite (push_accepted s base_url http Hon Hh). cbv zeta.
    destruct http as [e | response].
    + cbn [fst snd]. split.
      * intros _. pose proof (push_except_fails e).
        repeat split; auto.
      * intros [H | [H | H]]; [congruence | now elim H |].
        now rewrite push_except_fails in H.
    + destruct (status_code response =? 201)%Z eqn:Hst.
      * apply Z.eqb_eq in Hst. split; [intros Hne; now elim Hne|].
        destruct (json response) as [e | result | msg] eqn:Hj; cbn [fst snd].
        -- intros [H | [H | H]]; [congruence | now elim H |].
           now rewrite push_except_fails in H.
        -- intros _. exists response, result.
           repeat split; auto.
           destruct (start_response_polling_cases
                       (set_submitted_report_id (get_id result) s))
             as [[-> _] | (_ & _ & _ & -> & _)]; reflexivity.
        -- intros [H | [H | H]]; [congruence | now elim H |].
           now rewrite push_except_fails in H.
      * cbn [fst snd]. split.
        -- intros _. repeat split; auto.
        -- intros [H | [H | H]]; [congruence | now elim H | discriminate].
Qed.

Lemma push_failure_changes_nothing_witness :
  let s0 := init "0f8fad5b" "2025-06-01T09:00:00"
              (Some (mkSupabaseClient "https://db.example" "anon")) in
  let s1 := snd (complete_onboarding s0 "Sam" (Some (8 # 1)%Q) "Female" "Gaza") in
  let s2 := submit_turn s1 (text_turn "She wakes up screaming") in
  let http := PostReturns (mkResponse 500 "Internal Server Error"
                             (JsonRaises (mkExn RequestException
                                "Expecting value: line 1 column 1 (char 0)"))) in
  let r := push_report_to_care_bridge s2 default_base_url http in
  post_fails http
  /\ fst (fst r) = (false, "❌ API Error: 500 - Internal Server Error")
  /\ snd (fst r) = s2
  /\ launched (snd r) = 0%nat.
Proof.
  intros s0 s1 s2 http r.
  assert (Hf : post_fails http) by (simpl; lia).
  destruct (push_failure_changes_nothing s2 default_base_url http)
    as [H _].
  destruct (H Hf) as (Hflag & Hs & Hl & _ & Hmsg).
  destruct Hmsg as [_ Hmsg]; [reflexivity | discriminate |].
  split; [exact Hf|]. split; [|split; [exact Hs | exact Hl]].
  fold r in Hflag, Hmsg. destruct (fst (fst r)) as [flag msg].
  simpl in Hflag, Hmsg. now subst.
Defined.

(** C6, as stated, fails for a session that has not been onboarded: its
    transcript is empty, and the failure message asks for the assessment
    form, not for a conversation. *)
Lemma push_before_onboarding_counterexample :
  let s := init "0f8fad5b" "2025-06-01T09:00:00" None in
  let r := push_report_to_care_bridge s default_base_url
             (PostReturns (mkResponse 201 "{}" (JsonDict ∅))) in
  conversation_history (report_data s) = []
  /\ fst (fst r) = (false, "Please complete the initial assessment form first.")
  /\ snd (fst (fst r)) <> no_conversation_push_msg
  /\ Py.contains "conversation" (snd (fst (fst r))) = false.
Proof. repeat split. discriminate. Qed.

(** C6, amended.  For every session whose transcript is empty, the push
    fails, leaves the state as it was and issues no HTTP request; the
    message says that a conversation is required when the session has
    been onboarded, and asks for the assessment form otherwise. *)
Theorem push_with_empty_transcript (s : App) (base_url : string)
    (http : PostOutcome) :
  conversation_history (report_data s) = [] ->
  push_report_to_care_bridge s base_url http
  = ((false,
      if is_onboarded s
      then "Please have a conversation first before pushing a report."
      else "Please complete the initial assessment form first."),
     s, [])
  /\ posts (snd (push_report_to_care_bridge s base_url http)) = 0%nat.
Proof.
  intros Hh.
  rewrite (push_rejected s base_url http (or_intror Hh)).
  split; reflexivity.
Qed.

Lemma push_with_empty_transcript_witness :
  let s0 := init "0f8fad5b" "2025-06-01T09:00:00" None in
  let s1 := snd (complete_onboarding s0 "Sam" (Some (8 # 1)%Q) "Female" "Gaza") in
  conversation_history (report_data s1) = []
  /\ push_report_to_care_bridge s1 default_base_url
       (PostReturns (mkResponse 201 "{}" (JsonDict ∅)))
     = ((false, "Please have a conversation first before pushing a report."),
        s1, []).
Proof.
  intros s0 s1. split; [reflexivity|].
  apply (push_with_empty_transcript s1 default_base_url
           (PostReturns (mkResponse 201 "{}" (JsonDict ∅)))).
  reflexivity.
Defined.

End SubmissionClaims.

(** ** Reset and the two conversation gates *)

Section Reset.

(** A synthesis that passes both preconditions calls the model and
    returns the report rendered from the record it leaves. *)
Lemma generate_proceeds (s : App) (now : ReportClock) (cb : bool)
    (llm : StructuredOutcome) :
  is_onboarded s = true ->
  ollama_conversation s <> [] ->
  let g := generate_comprehensive_report s now cb llm in
  fst (fst g) = render_report (report_data (snd (fst g))) now
  /\ In (EvChat (assessment_prompt (child_info (report_data s)))) (snd g).
Proof.
  intros Hon Hconv g. subst g. unfold generate_comprehensive_report.
  rewrite Hon; simpl negb; cbv iota.
  destruct (ollama_conversation s) as [|t ts]; [congruence|].
  destruct llm, cb; cbn [fst snd progress app]; split;
    try reflexivity; simpl; tauto.
Qed.

(** What a synthesis that passes both preconditions leaves and emits does
    not depend on what the turns of the buffer are. *)
Lemma generate_ignores_turns (s : App) (now : ReportClock) (cb : bool)
    (llm : StructuredOutcome) (turns : list Turn) :
  is_onboarded s = true ->
  ollama_conversation s <> [] ->
  turns <> [] ->
  let g := generate_comprehensive_report s now cb llm in
  let g' :=
    generate_comprehensive_report (set_ollama_conversation turns s) now cb
      llm in
  fst (fst g') = fst (fst g)
  /\ snd g' = snd g
  /\ snd (fst g') = set_ollama_conversation turns (snd (fst g)).
Proof.
  intros Hon Hconv Hturns g g'. subst g g'.
  unfold generate_comprehensive_report.
  cbn [is_onboarded set_ollama_conversation ollama_conversation report_data].
  rewrite Hon; simpl negb; cbv iota.
  destruct (ollama_conversation s) as [|t ts]; [congruence|].
  destruct turns as [|t' ts']; [congruence|].
  destruct llm; cbn [fst snd]; split; try reflexivity; split; reflexivity.
Qed.

Lemma generate_chats (s : App) (now : ReportClock) (cb : bool)
    (llm : StructuredOutcome) :
  is_onboarded s = true ->
  ollama_conversation s <> [] ->
  chats (snd (generate_comprehensive_report s now cb llm))
  = [EvChat (assessment_prompt (child_info (report_data s)))].
Proof.
  intros Hon Hconv. unfold generate_comprehensive_report.
  rewrite Hon; simpl negb; cbv iota.
  destruct (ollama_conversation s) as [|t ts]; [congruence|].
  destruct llm, cb; reflexivity.
Qed.

(** C10, as stated, fails in its parenthesis: the synthesis after a reset
    is not made from the turns that the reset kept.  Two sessions of the
    same child whose kept turns differ send the model the same single
    prompt, in which the turn does not occur, and get the same report. *)
Lemma synthesis_ignores_kept_turns_counterexample :
  let s0 := init "0f8fad5b" "2025-06-01T09:00:00" None in
  let s1 := snd (complete_onboarding s0 "Sam" (Some (8 # 1)%Q) "Female" "Gaza") in
  let a := snd (clear_conversation
                  (submit_turn s1 (text_turn "She wakes up screaming"))) in
  let b := snd (clear_conversation
                  (submit_turn s1 (text_turn "He will not eat"))) in
  let now := mkReportClock "June 01, 2025 at 09:30" "June 01, 2025"
               "2025-06-01T09:30:00" "June 01, 2025" in
  let llm := Validated (mkRiskAssessment "Nightmares." "Hyperarousal." 7
                          ["nightmares"] "Displacement.") in
  let ga := generate_comprehensive_report a now false llm in
  let gb := generate_comprehensive_report b now false llm in
  ollama_conversation a = [mkTurn User (Text "She wakes up screaming")]
  /\ ollama_conversation b = [mkTurn User (Text "He will not eat")]
  /\ chats (snd ga) = [EvChat (assessment_prompt (child_info (report_data a)))]
  /\ Py.contains "She wakes up screaming"
       (assessment_prompt (child_info (report_data a))) = false
  /\ fst (fst ga) <> no_conversation_report_msg
  /\ fst (fst ga) = fst (fst gb)
  /\ snd ga = snd gb.
Proof.
  intros s0 s1 a b now llm ga gb.
  split; [reflexivity|]. split; [reflexivity|]. split; [reflexivity|].
  split; [vm_compute; reflexivity|]. split; [discriminate|].
  split; vm_compute; reflexivity.
Qed.

(** C10, amended.  [clear_conversation] leaves [ollama_conversation] as it
    was.  After a reset of an onboarded session that has turns in that
    buffer, report generation still passes its conversation gate, while
    the push is rejected for an empty transcript without any HTTP request:
    the first gate reads [ollama_conversation], the second the cleared
    [conversation_history].  The kept turns do no more than open the
    gate: the one call of the model is given the prompt built from the
    child information alone, and the report, the events and the record
    left are the same whatever turns the buffer holds. *)
Theorem reset_clears_one_gate_only (s : App) (now : ReportClock) (cb : bool)
    (llm : StructuredOutcome) (base_url : string) (http : PostOutcome) :
  is_onboarded s = true ->
  ollama_conversation s <> [] ->
  let s' := snd (clear_conversation s) in
  let g := generate_comprehensive_report s' now cb llm in
  ollama_conversation s' = ollama_conversation s
  /\ conversation_history (report_data s') = []
  /\ fst (fst g) = render_report (report_data (snd (fst g))) now
  /\ chats (snd g) = [EvChat (assessment_prompt (child_info (report_data s)))]
  /\ (forall turns,
        turns <> [] ->
        let g' :=
          generate_comprehensive_report (set_ollama_conversation turns s')
            now cb llm in
        fst (fst g') = fst (fst g)
        /\ snd g' = snd g
        /\ snd (fst g') = set_ollama_conversation turns (snd (fst g)))
  /\ push_report_to_care_bridge s' base_url http
     = ((false, "Please have a conversation first before pushing a report."),
        s', []).
Proof.
  intros Hon Hconv s' g.
  split; [reflexivity|]. split; [reflexivity|].
  destruct (generate_proceeds s' now cb llm Hon Hconv) as [Hr _].
  split; [exact Hr|].
  split; [exact (generate_chats s' now cb llm Hon Hconv)|].
  split; [intros turns Hturns;
          exact (generate_ignores_turns s' now cb llm turns Hon Hconv Hturns)|].
  rewrite (push_rejected s' base_url http (or_intror eq_refl)).
  change (is_onboarded s') with (is_onboarded s). now rewrite Hon.
Qed.

Lemma reset_clears_one_gate_only_witness :
  let s0 := init "0f8fad5b" "2025-06-01T09:00:00" None in
  let s1 := snd (complete_onboarding s0 "Sam" (Some (8 # 1)%Q) "Female" "Gaza") in
  let s2 := submit_turn s1 (text_turn "She wakes up screaming") in
  let s3 := snd (clear_conversation s2) in
  let now := mkReportClock "June 01, 2025 at 09:30" "June 01, 2025"
               "2025-06-01T09:30:00" "June 01, 2025" in
  let http := PostReturns (mkResponse 201 "{}" (JsonDict ∅)) in
  let other := [mkTurn User (Text "He will not eat")] in
  is_onboarded s2 = true
  /\ ollama_conversation s2 <> []
  /\ ollama_conversation s3 = [mkTurn User (Text "She wakes up screaming")]
  /\ conversation_history (report_data s3) = []
  /\ fst (fst (generate_comprehensive_report s3 now false (ChatRaises "down")))
     <> no_conversation_report_msg
  /\ fst (fst (generate_comprehensive_report
                 (set_ollama_conversation other s3) now false
                 (ChatRaises "down")))
     = fst (fst (generate_comprehensive_report s3 now false
                   (ChatRaises "down")))
  /\ fst (fst (push_report_to_care_bridge s3 default_base_url http))
     = (false, no_conversation_push_msg).
Proof.
  intros s0 s1 s2 s3 now http other.
  assert (Hon : is_onboarded s2 = true) by reflexivity.
  assert (Hconv : ollama_conversation s2 <> []) by discriminate.
  destruct (reset_clears_one_gate_only s2 now false (ChatRaises "down")
              default_base_url http Hon Hconv)
    as (Hkeep & Hhist & Hrep & _ & Hsame & Hpush).
  destruct (Hsame other ltac:(discriminate)) as (Htext & _ & _).
  split; [exact Hon|]. split; [exact Hconv|].
  split; [exact Hkeep|]. split; [exact Hhist|].
  split; [|split; [exact Htext|fold s3 in Hpush; now rewrite Hpush]].
  fold s3 in Hrep. rewrite Hrep. discriminate.
Defined.

End Reset.

(** ** Polling loop *)

Section PollingLoop.

Variable oracle : nat -> QueryOutcome.

Lemma poll_iteration_nothing (s : App) (poll_count : nat) (q : QueryOutcome) :
  polling_active s = true ->
  (poll_count < max_polls)%nat ->
  finds_nothing q ->
  poll_iteration s poll_count q
  = (s, Looping (S poll_count), empty_attempt (submitted_report_id s) q).
Proof.
  intros Hp Hlt Hq. unfold poll_iteration.
  rewrite Hp, (proj2 (Nat.ltb_lt _ _) Hlt). cbn [andb].
  destruct q as [e | data]; [reflexivity|].
  simpl in Hq; subst data. reflexivity.
Qed.

Lemma poll_iteration_exhausted (s : App) (poll_count : nat) (q : QueryOutcome) :
  (max_polls <= poll_count)%nat ->
  poll_iteration s poll_count q = (set_polling_active false s, Returned, []).
Proof.
  intros Hge. unfold poll_iteration, after_loop.
  rewrite (proj2 (Nat.ltb_ge _ _) Hge), (proj2 (Nat.leb_le _ _) Hge).
  now rewrite andb_false_r.
Qed.

Lemma poll_iteration_inactive (s : App) (poll_count : nat) (q : QueryOutcome) :
  polling_active s = false ->
  (poll_count < max_polls)%nat ->
  poll_iteration s poll_count q = (s, Returned, []).
Proof.
  intros Hp Hlt. unfold poll_iteration, after_loop.
  rewrite Hp, (proj2 (Nat.leb_gt _ _) Hlt). reflexivity.
Qed.

(** Every iteration either returns or adds one to [poll_count], which it
    does only below [max_polls]. *)
Lemma poll_iteration_progress (s : App) (poll_count : nat) (q : QueryOutcome) :
  forall s' poll_count' out,
  poll_iteration s poll_count q = (s', Looping poll_count', out) ->
  poll_count' = S poll_count /\ (poll_count < max_polls)%nat.
Proof.
  intros s' pc' out. unfold poll_iteration.
  destruct (polling_active s); cbn [andb]; [|discriminate].
  destruct (poll_count <? max_polls)%nat eqn:Hlt; [|discriminate].
  apply Nat.ltb_lt in Hlt. cbv zeta.
  destruct q as [e | [|r data]];
    [| | destruct (get_specialist_response _)]; intros [= <- <- <-]; auto.
Qed.

(** The loop returns for every behaviour of the lookup store, once the
    fuel exceeds the attempts that are left. *)
Lemma poll_loop_terminates (fuel : nat) :
  forall s poll_count,
  (max_polls - poll_count < fuel)%nat ->
  exists r, poll_loop fuel oracle s poll_count = Some r.
Proof.
  induction fuel as [|fuel IH]; intros s pc Hfuel; [lia|].
  cbn [poll_loop].
  destruct (poll_iteration s pc (oracle pc)) as [[s' [pc'|]] out] eqn:E.
  - apply poll_iteration_progress in E as [-> Hlt].
    destruct (IH s' (S pc)) as [[s'' out'] ->]; [lia|]. eauto.
  - eauto.
Qed.

Hypothesis nothing_found : forall k, finds_nothing (oracle k).

Lemma poll_loop_exhausts (fuel : nat) :
  forall s poll_count,
  polling_active s = true ->
  (poll_count <= max_polls)%nat ->
  (max_polls - poll_count < fuel)%nat ->
  poll_loop fuel oracle s poll_count
  = Some (set_polling_active false s,
          attempts_from oracle (submitted_report_id s) poll_count
            (max_polls - poll_count)).
Proof.
  induction fuel as [|fuel IH]; intros s pc Hp Hle Hfuel; [lia|].
  cbn [poll_loop].
  destruct (Nat.eq_dec pc max_polls) as [-> | Hne].
  - rewrite poll_iteration_exhausted by lia.
    now rewrite Nat.sub_diag.
  - rewrite poll_iteration_nothing by (auto; lia).
    rewrite IH by (auto; lia).
    replace (max_polls - pc)%nat with (S (max_polls - S pc)) by lia.
    reflexivity.
Qed.

Lemma queries_app (a b : list Event) :
  queries (a ++ b) = (queries a + queries b)%nat.
Proof. unfold queries. now rewrite List.filter_app, List.length_app. Qed.

Lemma sleeps_app (a b : list Event) : sleeps (a ++ b) = sleeps a ++ sleeps b.
Proof. unfold sleeps. apply List.flat_map_app. Qed.

Lemma attempts_from_counts (report_id : Py.value) (n : nat) :
  forall from,
  queries (attempts_from oracle report_id from n) = n
  /\ sleeps (attempts_from oracle report_id from n) = repeat 5%Z n.
Proof.
  unfold attempts_from.
  induction n as [|n IH]; intros from; [split; reflexivity|].
  cbn [seq flat_map]. rewrite queries_app, sleeps_app.
  destruct (IH (S from)) as [-> ->].
  destruct (oracle from); split; reflexivity.
Qed.

End PollingLoop.

Section PollingLoopClaims.

Lemma set_polling_active_same (s : App) :
  set_polling_active (polling_active s) s = s.
Proof. now destruct s. Qed.

(** C1.  When no query ever returns a row, whether it returns nothing or
    raises, the polling loop returns, given fuel for [max_polls] + 1
    evaluations of its condition.  Started with [polling_active] set, it
    makes exactly 120 attempts, each a query followed by a sleep of 5,
    the raising ones logged and counted like the empty ones; started with
    the flag clear it makes none.  In both cases it ends with
    [polling_active] false and the rest of the state untouched, and has
    no way to raise. *)
Theorem polling_gives_up_after_max_polls (oracle : nat -> QueryOutcome)
    (s : App) (fuel : nat) :
  (forall k, finds_nothing (oracle k)) ->
  (max_polls < fuel)%nat ->
  let n := if polling_active s then 120%nat else 0%nat in
  let out := EvPrint "Starting polling for response..."
             :: attempts_from oracle (submitted_report_id s) 0 n in
  _poll_for_response fuel oracle s = Some (set_polling_active false s, out)
  /\ queries out = n
  /\ sleeps out = repeat 5%Z n
  /\ (n <= 120)%nat
  /\ polling_active (set_polling_active false s) = false.
Proof.
  intros Hnothing Hfuel n out.
  destruct (attempts_from_counts oracle (submitted_report_id s) n 0)
    as [Hq Hs].
  split; [|split; [exact Hq | split; [exact Hs | split; [|reflexivity]]]].
  - unfold _poll_for_response. subst out n.
    destruct (polling_active s) eqn:Hp.
    + rewrite (poll_loop_exhausts oracle Hnothing fuel s 0 Hp) by lia.
      reflexivity.
    + destruct fuel as [|fuel]; [lia|]. cbn [poll_loop].
      rewrite poll_iteration_inactive by (auto; unfold max_polls; lia).
      replace (set_polling_active false s) with s; [reflexivity|].
      rewrite <- Hp. symmetry. apply set_polling_active_same.
  - subst n. destruct (polling_active s); lia.
Qed.

Lemma polling_gives_up_after_max_polls_witness :
  let s0 := init "0f8fad5b" "2025-06-01T09:00:00"
              (Some (mkSupabaseClient "https://db.example" "anon")) in
  let s1 := snd (complete_onboarding s0 "Sam" (Some (8 # 1)%Q) "Female" "Gaza") in
  let s2 := submit_turn s1 (text_turn "She wakes up screaming") in
  let s3 := snd (fst (push_report_to_care_bridge s2 default_base_url
              (PostReturns (mkResponse 201 "{}"
                 (JsonDict (<["id" := Py.PyStr "r-17"]> ∅)))))) in
  let oracle k := if Nat.even k then QueryRaises "connection reset"
                  else QueryReturns [] in
  polling_active s3 = true
  /\ (forall k, finds_nothing (oracle k))
  /\ (exists out,
        _poll_for_response 121 oracle s3
        = Some (set_polling_active false s3, out)
        /\ queries out = 120%nat
        /\ sleeps out = repeat 5%Z 120).
Proof.
  intros s0 s1 s2 s3 oracle.
  assert (Hn : forall k, finds_nothing (oracle k)).
  { intros k. unfold oracle. destruct (Nat.even k); simpl; auto. }
  assert (Hf : (max_polls < 121)%nat) by (unfold max_polls; lia).
  destruct (polling_gives_up_after_max_polls oracle s3 121 Hn Hf)
    as (Hrun & Hq & Hs & _).
  split; [reflexivity|]. split; [exact Hn|].
  eexists. split; [exact Hrun|]. split; [exact Hq | exact Hs].
Defined.

End PollingLoopClaims.

(** ** Coordinator: the session with its polling threads *)

Section Coordinator.

Lemma same_coordination_refl (s : App) : same_coordination s s.
Proof. repeat split. Qed.

Lemma complete_onboarding_frame (s : App) n x g l :
  same_coordination s (snd (complete_onboarding s n x g l)).
Proof.
  unfold complete_onboarding.
  destruct x as [x|]; [|apply same_coordination_refl].
  destruct (_ && _); [repeat split | apply same_coordination_refl].
Qed.

Lemma add_message_frame (s : App) now history message :
  same_coordination s (snd (fst (add_message s now history message))).
Proof.
  unfold add_message.
  destruct (is_onboarded s); simpl; [|apply same_coordination_refl].
  destruct (add_files_shape (files message) 0 now history s []) as [m Hm].
  destruct (add_files _ _ _ _ _ _) as [[h1 s1] out]; simpl in Hm; subst s1.
  unfold add_text. destruct (Py.nonempty (text message)); repeat split.
Qed.

Lemma bot_response_frame (s : App) history llm :
  same_coordination s (snd (fst (bot_response s history llm))).
Proof.
  unfold bot_response.
  destruct history; [apply same_coordination_refl|].
  destruct (is_onboarded s); simpl; [|apply same_coordination_refl].
  destruct (match latest_user_content _ with Some _ => _ | None => _ end);
    destruct llm; repeat split.
Qed.

Lemma generate_frame (s : App) now cb llm :
  same_coordination s (snd (fst (generate_comprehensive_report s now cb llm))).
Proof.
  unfold generate_comprehensive_report.
  destruct (is_onboarded s); simpl; [|apply same_coordination_refl].
  destruct (ollama_conversation s); [apply same_coordination_refl|].
  destruct llm; repeat split.
Qed.

(** A push either changes nothing and launches nothing, or stores the
    identifier of the response and calls [start_response_polling]. *)
Lemma push_cases (s : App) (base_url : string) (http : PostOutcome) :
  let r := push_report_to_care_bridge s base_url http in
  (snd (fst r) = s /\ launched (snd r) = 0%nat)
  \/ (exists v,
        stored_id (ActPush base_url http) = Some v
        /\ snd (fst r)
           = fst (start_response_polling (set_submitted_report_id v s))
        /\ launched (snd r)
           = launched (snd (start_response_polling
                              (set_submitted_report_id v s)))).
Proof.
  intros r. subst r.
  destruct (preconditions_dec s) as [Hrej | [Hon Hh]].
  - rewrite (push_rejected s base_url http Hrej). left. split; reflexivity.
  - rewrite (push_accepted s base_url http Hon Hh). cbv zeta.
    destruct http as [e | response]; [left; split; reflexivity|].
    unfold stored_id.
    destruct (status_code response =? 201)%Z; [|left; split; reflexivity].
    destruct (json response) as [e | result | msg];
      [left; split; reflexivity | | left; split; reflexivity].
    right. exists (get_id result). repeat split.
Qed.

Lemma poll_iteration_frame (s : App) (poll_count : nat) (q : QueryOutcome) :
  let s' := fst (fst (poll_iteration s poll_count q)) in
  supabase s' = supabase s
  /\ submitted_report_id s' = submitted_report_id s
  /\ (stores_reply (ActPoll 0 q) = false ->
      specialist_response s' = specialist_response s).
Proof.
  unfold poll_iteration, after_loop.
  destruct (polling_active s && (poll_count <? max_polls)%nat).
  - destruct q as [e | [|r data]]; cbn [fst snd stores_reply];
      try (repeat split; fail).
    cbv zeta. destruct (get_specialist_response _); cbn [fst snd].
    + destruct (max_polls <=? poll_count)%nat;
        (split; [reflexivity | split; [reflexivity | discriminate]]).
    + split; [reflexivity | split; [reflexivity | discriminate]].
  - destruct (max_polls <=? poll_count)%nat; repeat split.
Qed.

Lemma spawn_none (out : list Event) (ls : list nat) :
  launched out = 0%nat -> spawn out ls = ls.
Proof. unfold spawn. intros ->. apply app_nil_r. Qed.

Lemma coordinated_frame (s s' : App) (ls : list nat) :
  same_coordination s s' ->
  coordinated (mkSystem s ls) -> coordinated (mkSystem s' ls).
Proof.
  intros (Hc & Hp & _ & _). unfold coordinated; simpl.
  now rewrite Hc, Hp.
Qed.

Lemma identified_frame (s s' : App) (ls : list nat) :
  same_coordination s s' ->
  identified (mkSystem s ls) -> identified (mkSystem s' ls).
Proof.
  intros (_ & Hp & Hi & _). unfold identified; simpl.
  now rewrite Hp, Hi.
Qed.

Lemma start_coordinated (s : App) (ls : list nat) :
  coordinated (mkSystem s ls) ->
  coordinated (mkSystem (fst (start_response_polling s))
                        (spawn (snd (start_response_polling s)) ls)).
Proof.
  intros Hinv.
  destruct (start_response_polling_cases s)
    as [[-> Hl] | (Hp & Hc & _ & -> & Hl)].
  - now rewrite spawn_none.
  - destruct Hinv as [_ Hidle]. simpl in Hidle.
    unfold spawn. rewrite Hl, (Hidle Hp).
    split; simpl; [|discriminate]. intros _. split; [exact Hc | now exists 0%nat].
Qed.

Lemma start_identified (s : App) (ls : list nat) :
  identified (mkSystem s ls) ->
  identified (mkSystem (fst (start_response_polling s))
                       (spawn (snd (start_response_polling s)) ls)).
Proof.
  intros Hinv.
  destruct (start_response_polling_cases s)
    as [[-> _] | (_ & _ & Hid & -> & _)]; [exact Hinv|].
  intros _. exact Hid.
Qed.

End Coordinator.

Section CoordinatorSteps.

Lemma step_poll_coordinated (sys : System) (i : nat) (q : QueryOutcome) :
  coordinated sys -> coordinated (step sys (ActPoll i q)).
Proof.
  destruct sys as [s ls]. intros Hinv. cbn [step app loops].
  destruct (ls !! i) as [pc|] eqn:Hi; [|exact Hinv].
  destruct Hinv as [Hact Hidle]. cbn [app loops] in *.
  destruct (polling_active s) eqn:Hp;
    [|rewrite (Hidle eq_refl) in Hi; discriminate].
  destruct (Hact eq_refl) as [Hc [pc0 ->]].
  destruct i as [|i]; [|destruct i; discriminate].
  injection Hi as <-.
  unfold poll_iteration, after_loop. rewrite Hp. cbn [andb].
  destruct (pc0 <? max_polls)%nat eqn:Hlt.
  - destruct q as [e | [|r data]].
    + split; cbn; [intros _; split; [exact Hc | eauto] | congruence].
    + split; cbn; [intros _; split; [exact Hc | eauto] | congruence].
    + cbv zeta. destruct (get_specialist_response _).
      * destruct (max_polls <=? pc0)%nat; split; cbn; auto; discriminate.
      * split; cbn; [intros _; split; [exact Hc | eauto] | congruence].
  - apply Nat.ltb_ge in Hlt. rewrite (proj2 (Nat.leb_le _ _) Hlt).
    split; cbn; auto; discriminate.
Qed.

Lemma step_poll_identified (sys : System) (i : nat) (q : QueryOutcome) :
  identified sys -> identified (step sys (ActPoll i q)).
Proof.
  destruct sys as [s ls]. intros Hinv. cbn [step app loops].
  destruct (ls !! i) as [pc|]; [|exact Hinv].
  unfold identified in *. cbn [app] in *.
  pose proof (poll_iteration_frame s pc q) as (_ & Hid & _).
  assert (Hp : polling_active (fst (fst (poll_iteration s pc q))) = true ->
               polling_active s = true).
  { unfold poll_iteration, after_loop.
    destruct (polling_active s) eqn:Hs; [reflexivity|]. cbn [andb].
    destruct (max_polls <=? pc)%nat; cbn [fst polling_active set_polling_active];
      congruence. }
  destruct (poll_iteration s pc q) as [[s' [pc'|]] out];
    cbn [app fst] in *; intros H; rewrite Hid; auto.
Qed.

Lemma step_coordinated (sys : System) (a : Action) :
  coordinated sys -> coordinated (step sys a).
Proof.
  destruct a as [n x g l | now h m | | now cb llm | base http | | | i q
                 | h llm];
    [| | | | | | | apply step_poll_coordinated |];
    destruct sys as [s ls]; intros Hinv; cbn [step app loops].
  - exact (coordinated_frame _ _ _ (complete_onboarding_frame s n x g l) Hinv).
  - pose proof (add_message_frame s now h m) as Hf.
    destruct (add_message s now h m) as [[h' s'] out].
    exact (coordinated_frame _ _ _ Hf Hinv).
  - exact (coordinated_frame s _ ls (ltac:(repeat split)) Hinv).
  - pose proof (generate_frame s now cb llm) as Hf.
    destruct (generate_comprehensive_report s now cb llm) as [[t s'] out].
    exact (coordinated_frame _ _ _ Hf Hinv).
  - pose proof (push_cases s base http) as Hc. cbv zeta in Hc.
    destruct (push_report_to_care_bridge s base http) as [[res s'] out].
    cbn [fst snd] in Hc.
    destruct Hc as [[-> Hl] | (v & _ & -> & Hl)].
    + now rewrite spawn_none.
    + unfold spawn. rewrite Hl.
      apply (start_coordinated (set_submitted_report_id v s) ls).
      exact Hinv.
  - pose proof (start_coordinated s ls Hinv) as H.
    now destruct (start_response_polling s).
  - exact Hinv.
  - pose proof (bot_response_frame s h llm) as Hf.
    destruct (bot_response s h llm) as [[y s'] out].
    exact (coordinated_frame _ _ _ Hf Hinv).
Qed.

Lemma step_identified (sys : System) (a : Action) :
  (polling_active (app sys) = true -> keeps_id a = true) ->
  identified sys -> identified (step sys a).
Proof.
  destruct a as [n x g l | now h m | | now cb llm | base http | | | i q
                 | h llm];
    [| | | | | | | intros _; apply step_poll_identified |];
    destruct sys as [s ls]; intros Hkeep Hinv; cbn [step app loops] in *.
  - exact (identified_frame _ _ _ (complete_onboarding_frame s n x g l) Hinv).
  - pose proof (add_message_frame s now h m) as Hf.
    destruct (add_message s now h m) as [[h' s'] out].
    exact (identified_frame _ _ _ Hf Hinv).
  - exact (identified_frame s _ ls (ltac:(repeat split)) Hinv).
  - pose proof (generate_frame s now cb llm) as Hf.
    destruct (generate_comprehensive_report s now cb llm) as [[t s'] out].
    exact (identified_frame _ _ _ Hf Hinv).
  - pose proof (push_cases s base http) as Hc. cbv zeta in Hc.
    destruct (push_report_to_care_bridge s base http) as [[res s'] out].
    cbn [fst snd] in Hc.
    destruct Hc as [[-> Hl] | (v & Hv & -> & Hl)].
    + exact Hinv.
    + unfold spawn. rewrite Hl.
      apply (start_identified (set_submitted_report_id v s) ls).
      unfold identified, keeps_id in *. rewrite Hv in Hkeep.
      exact Hkeep.
  - pose proof (start_identified s ls Hinv) as H.
    now destruct (start_response_polling s).
  - exact Hinv.
  - pose proof (bot_response_frame s h llm) as Hf.
    destruct (bot_response s h llm) as [[y s'] out].
    exact (identified_frame _ _ _ Hf Hinv).
Qed.

Lemma run_coordinated (actions : list Action) :
  forall sys, coordinated sys -> coordinated (run sys actions).
Proof.
  induction actions as [|a actions IH]; intros sys Hinv; [exact Hinv|].
  apply IH, step_coordinated, Hinv.
Qed.

Lemma run_identified (actions : list Action) :
  forall sys,
  ids_kept sys actions -> identified sys -> identified (run sys actions).
Proof.
  induction actions as [|a actions IH]; intros sys Hkept Hinv; [exact Hinv|].
  destruct Hkept as [Ha Hrest].
  apply IH; [exact Hrest | now apply step_identified].
Qed.

Lemma spawn_bounded (out : list Event) (ls : list nat) :
  Forall (fun poll_count => (poll_count <= max_polls)%nat) ls ->
  Forall (fun poll_count => (poll_count <= max_polls)%nat) (spawn out ls).
Proof.
  intros H. unfold spawn. apply Forall_app. split; [exact H|].
  induction (launched out); simpl; constructor; [lia | assumption].
Qed.

(** Also when the iterations of a thread are interleaved with the calls of
    the main flow, its [poll_count] stays within [max_polls]: an iteration
    that queries and finds nothing adds one, and none queries at
    [max_polls]. *)
Lemma step_bounded (sys : System) (a : Action) :
  bounded sys -> bounded (step sys a).
Proof.
  unfold bounded. destruct sys as [s ls].
  destruct a as [n x g l | now h m | | now cb llm | base http | | | i q
                 | h llm];
    intros Hb; cbn [step app loops] in *.
  - exact Hb.
  - now destruct (add_message s now h m) as [[h' s'] out].
  - exact Hb.
  - now destruct (generate_comprehensive_report s now cb llm) as [[t s'] out].
  - destruct (push_report_to_care_bridge s base http) as [[res s'] out].
    now apply spawn_bounded.
  - destruct (start_response_polling s) as [s' out].
    now apply spawn_bounded.
  - exact Hb.
  - destruct (ls !! i) as [pc|] eqn:Hi; [|exact Hb].
    destruct (poll_iteration s pc q) as [[s' [pc'|]] out] eqn:E;
      cbn [loops].
    + apply poll_iteration_progress in E as [-> Hlt].
      apply Forall_insert; [exact Hb | lia].
    + now apply Forall_delete.
  - now destruct (bot_response s h llm) as [[y s'] out].
Qed.

Lemma run_bounded (actions : list Action) :
  forall sys, bounded sys -> bounded (run sys actions).
Proof.
  induction actions as [|a actions IH]; intros sys Hb; [exact Hb|].
  apply IH, step_bounded, Hb.
Qed.

Lemma start_coordinated_identified uuid started client :
  coordinated (start uuid started client)
  /\ identified (start uuid started client).
Proof. repeat split; discriminate. Qed.

End CoordinatorSteps.

Section CoordinatorClaims.

(** C2, as stated, fails: the stored identifier can be lost while polling
    is active.  A first push receives the identifier "r-17" and starts
    polling; a second push, accepted with a 201 response whose [id] is
    null, overwrites the stored identifier with [None], and the loop goes
    on. *)
Lemma identifier_lost_while_polling_counterexample :
  let client := mkSupabaseClient "https://db.example" "anon" in
  let created (v : Py.value) :=
    PostReturns (mkResponse 201 "" (JsonDict (<["id" := v]> ∅))) in
  let sys :=
    run (start "0f8fad5b" "2025-06-01T09:00:00" (Some client))
      [ActOnboard "Sam" (Some (8 # 1)%Q) "Female" "Gaza";
       ActAddMessage (fun _ => "") [] (mkMessage [] "She wakes up screaming");
       ActPush default_base_url (created (Py.PyStr "r-17"));
       ActPush default_base_url (created Py.PyNone)] in
  polling_active (app sys) = true
  /\ submitted_report_id (app sys) = Py.PyNone
  /\ Py.truthy (submitted_report_id (app sys)) = false
  /\ loops sys = [0%nat].
Proof. repeat split. Qed.

(** C2, amended.  In every state that the session reaches,
    [polling_active] is set only if the lookup-store client is configured,
    and exactly while one polling thread is alive, so that at most one is
    alive at any time; [start_response_polling] called while
    [polling_active] is set changes nothing and launches nothing; and
    while [polling_active] is set the stored identifier is truthy,
    provided that no push made during polling received a falsy
    identifier. *)
Theorem coordinator_invariant (uuid started : string)
    (client : option SupabaseClient) (actions : list Action) :
  let sys := run (start uuid started client) actions in
  (polling_active (app sys) = true ->
     supabase (app sys) <> None /\ length (loops sys) = 1%nat)
  /\ (polling_active (app sys) = false -> loops sys = [])
  /\ (length (loops sys) <= 1)%nat
  /\ (polling_active (app sys) = true ->
        fst (start_response_polling (app sys)) = app sys
        /\ launched (snd (start_response_polling (app sys))) = 0%nat
        /\ step sys ActStartPolling = sys)
  /\ (ids_kept (start uuid started client) actions ->
        polling_active (app sys) = true ->
        Py.truthy (submitted_report_id (app sys)) = true).
Proof.
  intros sys.
  destruct (start_coordinated_identified uuid started client) as [Hc0 Hi0].
  pose proof (run_coordinated actions _ Hc0) as [Hact Hidle].
  fold sys in Hact, Hidle.
  split; [|split; [exact Hidle | split; [|split]]].
  - intros Hp. destruct (Hact Hp) as [Hc [pc ->]]. now split.
  - destruct (polling_active (app sys)) eqn:Hp.
    + destruct (Hact eq_refl) as [_ [pc ->]]. simpl; lia.
    + rewrite (Hidle eq_refl). simpl; lia.
  - intros Hp.
    destruct (start_response_polling_cases (app sys))
      as [[Hs Hl] | (Hoff & _)]; [|congruence].
    split; [exact Hs|]. split; [exact Hl|].
    destruct sys as [s ls]. cbn [step app loops] in *.
    destruct (start_response_polling s) as [s' out]. cbn [fst snd] in *.
    now rewrite spawn_none, Hs.
  - intros Hkept. exact (run_identified actions _ Hkept Hi0).
Qed.

Lemma coordinator_invariant_witness :
  let client := mkSupabaseClient "https://db.example" "anon" in
  let created (v : Py.value) :=
    PostReturns (mkResponse 201 "" (JsonDict (<["id" := v]> ∅))) in
  let actions :=
    [ActOnboard "Sam" (Some (8 # 1)%Q) "Female" "Gaza";
     ActAddMessage (fun _ => "") [] (mkMessage [] "She wakes up screaming");
     ActPush default_base_url (created (Py.PyStr "r-17"));
     ActPoll 0 (QueryReturns []);
     ActStartPolling;
     ActPush default_base_url (created (Py.PyStr "r-18"))] in
  let sys := run (start "0f8fad5b" "2025-06-01T09:00:00" (Some client))
               actions in
  ids_kept (start "0f8fad5b" "2025-06-01T09:00:00" (Some client)) actions
  /\ polling_active (app sys) = true
  /\ loops sys = [1%nat]
  /\ Py.truthy (submitted_report_id (app sys)) = true.
Proof.
  intros client created actions sys.
  assert (Hkept : ids_kept (start "0f8fad5b" "2025-06-01T09:00:00"
                              (Some client)) actions).
  { repeat (split; [intros _; reflexivity|]). exact I. }
  assert (Hp : polling_active (app sys) = true) by reflexivity.
  destruct (coordinator_invariant "0f8fad5b" "2025-06-01T09:00:00"
              (Some client) actions) as (_ & _ & _ & _ & Hid).
  split; [exact Hkept|]. split; [exact Hp|]. split; [reflexivity|].
  exact (Hid Hkept Hp).
Defined.

End CoordinatorClaims.

(** ** Specialist reply *)

Section Reply.




Lemma concat_cons (x : string) (l : list string) :
  String.concat "" (x :: l) = x +:+ String.concat "" l.
Proof.
  destruct l as [|y l]; [cbn; now rewrite append_empty_r | reflexivity].
Qed.

Lemma fold_recommendation_lines (items : list (string * string)) :
  forall formatted_response,
  fold_left (fun formatted_response item =>
               formatted_response +:+ recommendation_line item)
            items formatted_response
  = formatted_response
    +:+ String.concat "" (map recommendation_line items).
Proof.
  induction items as [|item items IH]; intros acc; cbn [fold_left map].
  - cbn. now rewrite append_empty_r.
  - rewrite IH, concat_cons. now rewrite append_assoc.
Qed.

(** The rendering is the header followed by what the recommendations
    give. *)
Lemma format_response_parts (r : SpecialistResponse) :
  format_response r
  = response_header r
    +:+ match recommendations r with
        | RecDict items => String.concat "" (map recommendation_line items)
        | RecFlat shown => shown
        end.
Proof.
  unfold format_response. destruct (recommendations r) as [items | shown];
    [apply fold_recommendation_lines | reflexivity].
Qed.

Lemma read_row_of (r : SpecialistResponse) : read_row (row_of r) = Returns r.
Proof. now destruct r. Qed.

End Reply.

Section ReplyClaims.




End ReplyClaims.

(** * Further properties of the program *)

(** ** Letter case *)

Section LetterCase.

Lemma to_lower_to_upper (c : ascii) : Py.to_lower (Py.to_upper c) = Py.to_lower c.
Proof. destruct c as [[] [] [] [] [] [] [] []]; reflexivity. Qed.

Lemma to_lower_to_lower (c : ascii) : Py.to_lower (Py.to_lower c) = Py.to_lower c.
Proof. destruct c as [[] [] [] [] [] [] [] []]; reflexivity. Qed.

Lemma lower_upper (s : string) : Py.lower (Py.upper s) = Py.lower s.
Proof.
  induction s as [|c s IH]; [reflexivity|].
  cbn [Py.upper Py.lower]. now rewrite to_lower_to_upper, IH.
Qed.

Lemma lower_lower (s : string) : Py.lower (Py.lower s) = Py.lower s.
Proof.
  induction s as [|c s IH]; [reflexivity|].
  cbn [Py.lower]. now rewrite to_lower_to_lower, IH.
Qed.

(** X1.  The kind of a file does not depend on the letter case of its path:
    [classify_file_type] looks at the lowered path only.  (Stated for ASCII
    paths, where the model's case mapping is Python's.) *)
Theorem classify_file_type_ignores_case (a b : string) :
  ascii_text a -> ascii_text b ->
  Py.lower a = Py.lower b ->
  classify_file_type a = classify_file_type b
  /\ classify_file_type (Py.upper a) = classify_file_type a
  /\ classify_file_type (Py.lower a) = classify_file_type a.
Proof.
  intros _ _ E. unfold classify_file_type.
  rewrite lower_upper, lower_lower, E. repeat split.
Qed.

Lemma classify_file_type_ignores_case_witness :
  Py.lower "Scan.JPG" = Py.lower "scan.jpg"
  /\ classify_file_type "Scan.JPG" = classify_file_type "scan.jpg"
  /\ classify_file_type "Scan.JPG" = Image.
Proof.
  assert (E : Py.lower "Scan.JPG" = Py.lower "scan.jpg") by reflexivity.
  assert (Ha : ascii_text "Scan.JPG")
    by reflexivity.
  assert (Hb : ascii_text "scan.jpg")
    by reflexivity.
  destruct (classify_file_type_ignores_case "Scan.JPG" "scan.jpg" Ha Hb E)
    as (H & _ & _).
  split; [exact E|]. split; [exact H|]. rewrite H. reflexivity.
Defined.

(** X2.  The cultural context is never empty, and which of the four texts is
    chosen depends on the location only up to letter case: two locations
    that lower to the same text get the same regional text, or each gets
    the generic text ending in the location as it was typed.  (Stated for
    ASCII locations, where the model's case mapping is Python's.) *)
Theorem cultural_context_by_lowered_location (a b : string) :
  ascii_text a -> ascii_text b ->
  Py.lower a = Py.lower b ->
  generate_cultural_context a <> ""
  /\ (generate_cultural_context a = generate_cultural_context b
      \/ (generate_cultural_context a = generic_context a
          /\ generate_cultural_context b = generic_context b)).
Proof.
  intros _ _ E. split; [apply generate_cultural_context_nonempty|].
  unfold generate_cultural_context. rewrite E.
  repeat match goal with
         | |- context [if ?c then _ else _] => destruct c
         end; auto.
Qed.

Lemma cultural_context_by_lowered_location_witness :
  Py.lower "KHARKIV oblast" = Py.lower "Kharkiv Oblast"
  /\ generate_cultural_context "KHARKIV oblast"
     = "Assessment considering war-related trauma and displacement from conflict zones"
  /\ generate_cultural_context "Kharkiv Oblast"
     = generate_cultural_context "KHARKIV oblast".
Proof.
  assert (E : Py.lower "KHARKIV oblast" = Py.lower "Kharkiv Oblast")
    by reflexivity.
  assert (Ha : ascii_text "KHARKIV oblast")
    by reflexivity.
  assert (Hb : ascii_text "Kharkiv Oblast")
    by reflexivity.
  destruct (cultural_context_by_lowered_location
              "KHARKIV oblast" "Kharkiv Oblast" Ha Hb E) as [_ [H | [H _]]].
  - split; [exact E|]. split; [reflexivity | now rewrite H].
  - discriminate H.
Defined.

End LetterCase.

(** ** Onboarding *)

Section Onboarding.

(** X3.  A form with any field missing (an empty name, gender or location, an
    empty or zero age) is refused with the fixed message, and the session
    stays as it was: the gate does not open and nothing is stored. *)
Theorem onboarding_refuses_missing_field (s : App) (child_name : string)
    (child_age : option Q) (child_gender child_location : string) :
  child_name = "" \/ age_truthy child_age = false
  \/ child_gender = "" \/ child_location = "" ->
  complete_onboarding s child_name child_age child_gender child_location
  = ((false, "Please fill in all required information about your child."), s).
Proof.
  intros H. unfold complete_onboarding.
  destruct child_age as [x|]; [|reflexivity].
  destruct H as [-> | [H | [-> | ->]]].
  - reflexivity.
  - simpl in H. rewrite H. now rewrite andb_false_r.
  - now rewrite andb_false_r.
  - now rewrite andb_false_r.
Qed.

Lemma onboarding_refuses_missing_field_witness :
  let s := init "0f8fad5b" "2025-06-01T09:00:00" None in
  complete_onboarding s "Sam" (Some (0 # 1)%Q) "Female" "Gaza"
  = ((false, onboarding_incomplete_msg), s)
  /\ complete_onboarding s "Sam" None "Female" "Gaza"
     = ((false, onboarding_incomplete_msg), s)
  /\ complete_onboarding s "Sam" (Some (8 # 1)%Q) "Female" ""
     = ((false, onboarding_incomplete_msg), s).
Proof.
  intros s. split; [|split].
  - apply onboarding_refuses_missing_field. right; left; reflexivity.
  - apply onboarding_refuses_missing_field. right; left; reflexivity.
  - apply onboarding_refuses_missing_field. right; right; right; reflexivity.
Defined.

Lemma int_of_number_fraction (x : Q) :
  (-1 < x)%Q -> (x < 1)%Q -> Py.int_of_number x = 0%Z.
Proof.
  intros Hlo Hhi. unfold Py.int_of_number.
  destruct (Qle_bool 0 x) eqn:E.
  - apply Qle_bool_iff in E.
    pose proof (Qfloor_le x) as Hf. pose proof (Qlt_floor x) as Hc.
    assert (H1 : (Qfloor x < 1)%Z).
    { rewrite Zlt_Qlt. eapply Qle_lt_trans; [exact Hf | exact Hhi]. }
    assert (H2 : (0 < Qfloor x + 1)%Z).
    { rewrite Zlt_Qlt. eapply Qle_lt_trans; [exact E | exact Hc]. }
    lia.
  - assert (Hneg : (x < 0)%Q).
    { apply Qnot_le_lt. intros H. apply Qle_bool_iff in H. congruence. }
    pose proof (Qle_ceiling x) as Hc. pose proof (Qceiling_lt x) as Hf.
    assert (H1 : (-1 < Qceiling x)%Z).
    { rewrite Zlt_Qlt. eapply Qlt_le_trans; [exact Hlo | exact Hc]. }
    assert (H2 : (Qceiling x - 1 < 0)%Z).
    { rewrite Zlt_Qlt. eapply Qlt_trans; [exact Hf | exact Hneg]. }
    lia.
Qed.

(** X4.  The check on the age is made before [int()] is applied: an age
    strictly between -1 and 1 other than zero passes the check, and the age
    stored is 0, the one value that the check refuses as an input. *)
Theorem onboarding_stores_zero_for_fraction (s : App) (child_name : string)
    (child_age : Q) (child_gender child_location : string) :
  child_name <> "" -> child_gender <> "" -> child_location <> "" ->
  ~ (child_age == 0)%Q ->
  (-1 < child_age)%Q -> (child_age < 1)%Q ->
  let r := complete_onboarding s child_name (Some child_age)
             child_gender child_location in
  fst (fst r) = true
  /\ is_onboarded (snd r) = true
  /\ age (child_info (report_data (snd r))) = 0%Z.
Proof.
  intros Hn Hg Hl Hx Hlo Hhi. unfold complete_onboarding.
  rewrite (nonempty_true _ Hn), (nonempty_true _ Hg), (nonempty_true _ Hl),
    (number_truthy_nonzero _ Hx).
  cbn. split; [reflexivity|]. split; [reflexivity|].
  now apply int_of_number_fraction.
Qed.

Lemma onboarding_stores_zero_for_fraction_witness :
  let s := init "0f8fad5b" "2025-06-01T09:00:00" None in
  let r := complete_onboarding s "Sam" (Some (1 # 2)%Q) "Female" "Gaza" in
  fst (fst r) = true
  /\ is_onboarded (snd r) = true
  /\ age (child_info (report_data (snd r))) = 0%Z.
Proof.
  intros s.
  apply (onboarding_stores_zero_for_fraction s "Sam" (1 # 2)%Q "Female" "Gaza");
    try discriminate; reflexivity.
Defined.

(** X5.  The form can be submitted again at any time.  Whatever the state and
    the outcome, [complete_onboarding] leaves the transcript, the
    observations, the analysis, the score, the indicators, the attachments,
    the model buffer, the session identifier and the submission state as
    they were, and never closes an open gate; on success the cultural
    context is the one generated for the new location, replacing also one
    that a synthesis wrote. *)
Theorem onboarding_again_keeps_conversation (s : App) (child_name : string)
    (child_age : option Q) (child_gender child_location : string) :
  let r := complete_onboarding s child_name child_age
             child_gender child_location in
  let d := report_data s in
  let d' := report_data (snd r) in
  conversation_history d' = conversation_history d
  /\ parent_observations (assessment_data d')
     = parent_observations (assessment_data d)
  /\ ai_analysis (assessment_data d') = ai_analysis (assessment_data d)
  /\ severity_score (assessment_data d') = severity_score (assessment_data d)
  /\ risk_indicators (assessment_data d')
     = risk_indicators (assessment_data d)
  /\ media_attachments d' = media_attachments d
  /\ mobile_app_id d' = mobile_app_id d
  /\ session_start d' = session_start d
  /\ ollama_conversation (snd r) = ollama_conversation s
  /\ same_coordination s (snd r)
  /\ (is_onboarded s = true -> is_onboarded (snd r) = true)
  /\ (fst (fst r) = true ->
      cultural_context (assessment_data d')
      = generate_cultural_context child_location
      /\ location (child_info d') = child_location).
Proof.
  unfold complete_onboarding.
  destruct child_age as [x|].
  - destruct (_ && _); cbn; repeat split; auto; discriminate.
  - cbn; repeat split; auto; discriminate.
Qed.

Lemma onboarding_again_keeps_conversation_witness :
  let s0 := init "0f8fad5b" "2025-06-01T09:00:00" None in
  let s1 := snd (complete_onboarding s0 "Sam" (Some (8 # 1)%Q) "Female" "Gaza") in
  let s2 := submit_turn s1 (text_turn "She wakes up screaming") in
  let r := complete_onboarding s2 "Sam" (Some (9 # 1)%Q) "Female" "Kyiv" in
  fst (fst r) = true
  /\ observations (snd r) = "She wakes up screaming"
  /\ cultural_context (assessment_data (report_data (snd r)))
     = "Assessment considering war-related trauma and displacement from conflict zones".
Proof.
  intros s0 s1 s2 r.
  destruct (onboarding_again_keeps_conversation s2 "Sam" (Some (9 # 1)%Q)
              "Female" "Kyiv")
    as (_ & Hobs & _ & _ & _ & _ & _ & _ & _ & _ & _ & Hctx).
  assert (Hok : fst (fst r) = true) by reflexivity.
  destruct (Hctx Hok) as [Hc _].
  split; [exact Hok|]. split.
  - unfold observations. fold r in Hobs. rewrite Hobs. reflexivity.
  - fold r in Hc. rewrite Hc. reflexivity.
Defined.

End Onboarding.

(** ** Chat turns *)

Section ChatTurns.

(** X6.  While the gate is closed, no operation of the conversation, the
    synthesis or the submission does anything: the state is returned as it
    was, nothing is sent to the model or to the platform, and the refusals
    carry the message that asks for the assessment form. *)
Theorem closed_gate_blocks_operations (s : App) :
  is_onboarded s = false ->
  (forall now history message,
     add_message s now history message = (history, s, []))
  /\ (forall history llm, bot_response s history llm = ([], s, []))
  /\ (forall now cb llm,
        generate_comprehensive_report s now cb llm
        = ("Please complete the initial assessment form first.", s, []))
  /\ (forall base_url http,
        push_report_to_care_bridge s base_url http
        = ((false, "Please complete the initial assessment form first."),
           s, [])).
Proof.
  intros Hoff. repeat split; intros.
  - unfold add_message. now rewrite Hoff.
  - unfold bot_response. rewrite Hoff. now destruct history.
  - unfold generate_comprehensive_report. now rewrite Hoff.
  - unfold push_report_to_care_bridge. now rewrite Hoff.
Qed.

Lemma closed_gate_blocks_operations_witness :
  let s := init "0f8fad5b" "2025-06-01T09:00:00" None in
  add_message s (fun _ => "") [] (mkMessage ["a.png"] "hello") = ([], s, [])
  /\ push_report_to_care_bridge s default_base_url
       (PostReturns (mkResponse 201 "{}" (JsonDict ∅)))
     = ((false, not_onboarded_msg), s, []).
Proof.
  intros s.
  destruct (closed_gate_blocks_operations s eq_refl) as (Ha & _ & _ & Hp).
  split; [apply Ha | apply Hp].
Defined.

Lemma add_files_history (fs : list string) :
  forall k now history s out,
  fst (fst (add_files fs k now history s out))
  = history ++ map (fun file => mkTurn User (FilePath file)) fs.
Proof.
  induction fs as [|file rest IH]; intros k now history s out; cbn [add_files map].
  - now rewrite app_nil_r.
  - destruct (classify_file_type file); rewrite IH, <- app_assoc; reflexivity.
Qed.

Lemma add_files_paths (fs : list string) :
  forall k now history s out,
  let m := media_attachments (report_data s) in
  let m' := media_attachments
              (report_data (snd (fst (add_files fs k now history s out)))) in
  map path (drawings m')
  = map path (drawings m)
    ++ List.filter (fun f => is_image f && is_drawing f) fs
  /\ map path (photos m')
     = map path (photos m)
       ++ List.filter (fun f => is_image f && negb (is_drawing f)) fs
  /\ audio_recordings m' = audio_recordings m.
Proof.
  induction fs as [|file rest IH]; intros k now history s out;
    cbn [add_files List.filter].
  - now rewrite !app_nil_r.
  - destruct (classify_file_type file) eqn:Hc.
    + assert (Hi : is_image file = true) by (unfold is_image; now rewrite Hc).
      rewrite Hi. cbn [andb].
      match goal with
      | |- context [add_files rest ?k' now ?h' ?s' ?o'] =>
          destruct (IH k' now h' s' o') as (Hd & Hp & Ha)
      end.
      cbv zeta. rewrite Hd, Hp, Ha.
      cbn [report_data with_report_data media_attachments
           set_media_attachments].
      unfold append_attachment. fold (is_drawing file).
      destruct (is_drawing file);
        cbn [drawings photos audio_recordings negb];
        rewrite ?map_app; cbn [map path]; rewrite <- ?app_assoc;
        repeat split.
    + assert (Hi : is_image file = false) by (unfold is_image; now rewrite Hc).
      rewrite Hi. cbn [andb]. apply IH.
Qed.

(** X7.  An accepted message goes to the end of the transcript: the history
    returned is the history passed in followed by one turn for each file,
    in order and whatever its kind, and then by the text if there is one;
    the same list is stored as the transcript of the session, and of these
    turns only the text enters the model buffer. *)
Theorem add_message_appends_turns (s : App) (now : nat -> string)
    (history : list Turn) (message : Message) :
  is_onboarded s = true ->
  let r := add_message s now history message in
  fst (fst r) = history ++ message_turns message
  /\ conversation_history (report_data (snd (fst r))) = fst (fst r)
  /\ ollama_conversation (snd (fst r))
     = ollama_conversation s
       ++ (if Py.nonempty (text message)
           then [mkTurn User (Text (text message))] else []).
Proof.
  intros Hon. unfold add_message, message_turns. rewrite Hon. cbn [negb].
  pose proof (add_files_history (files message) 0 now history s []) as Hh.
  destruct (add_files_shape (files message) 0 now history s []) as [m Hm].
  destruct (add_files _ _ _ _ _ _) as [[h1 s1] out].
  cbn [fst snd] in Hh, Hm. subst h1 s1.
  unfold add_text. destruct (Py.nonempty (text message)); cbn.
  - now rewrite <- app_assoc.
  - now rewrite !app_nil_r.
Qed.

Lemma add_message_appends_turns_witness :
  let s0 := init "0f8fad5b" "2025-06-01T09:00:00" None in
  let s1 := snd (complete_onboarding s0 "Sam" (Some (8 # 1)%Q) "Female" "Gaza") in
  let r := add_message s1 (fun _ => "2025-06-01T09:05:00")
             [mkTurn User (Text "Hello")]
             (mkMessage ["notes.pdf"; "Drawing.PNG"] "She drew this") in
  is_onboarded s1 = true
  /\ conversation_history (report_data (snd (fst r)))
     = [mkTurn User (Text "Hello"); mkTurn User (FilePath "notes.pdf");
        mkTurn User (FilePath "Drawing.PNG");
        mkTurn User (Text "She drew this")].
Proof.
  intros s0 s1 r.
  assert (Hon : is_onboarded s1 = true) by reflexivity.
  destruct (add_message_appends_turns s1 (fun _ => "2025-06-01T09:05:00")
              [mkTurn User (Text "Hello")]
              (mkMessage ["notes.pdf"; "Drawing.PNG"] "She drew this") Hon)
    as (Hh & Hc & _).
  split; [exact Hon|]. fold r in Hh, Hc. rewrite Hc, Hh. reflexivity.
Defined.

(** X8.  Of the files of an accepted message, the images and only the images
    are recorded as attachments, in order, at the end of the list that the
    filename heuristic picks: those with "draw" in the lowered path under
    drawings, the others under photos.  Nothing is ever recorded under
    audio recordings. *)
Theorem add_message_records_images (s : App) (now : nat -> string)
    (history : list Turn) (message : Message) :
  is_onboarded s = true ->
  let m := media_attachments (report_data s) in
  let m' := media_attachments
              (report_data (snd (fst (add_message s now history message)))) in
  map path (drawings m')
  = map path (drawings m)
    ++ List.filter (fun f => is_image f && is_drawing f) (files message)
  /\ map path (photos m')
     = map path (photos m)
       ++ List.filter (fun f => is_image f && negb (is_drawing f))
            (files message)
  /\ audio_recordings m' = audio_recordings m.
Proof.
  intros Hon. unfold add_message. rewrite Hon. cbn [negb].
  pose proof (add_files_paths (files message) 0 now history s []) as Hp.
  destruct (add_files _ _ _ _ _ _) as [[h1 s1] out].
  cbn [fst snd] in Hp. cbv zeta in Hp.
  unfold add_text. destruct (Py.nonempty (text message)); cbn; exact Hp.
Qed.

Lemma add_message_records_images_witness :
  let s0 := init "0f8fad5b" "2025-06-01T09:00:00" None in
  let s1 := snd (complete_onboarding s0 "Sam" (Some (8 # 1)%Q) "Female" "Gaza") in
  let m' := media_attachments (report_data (snd (fst
              (add_message s1 (fun _ => "2025-06-01T09:05:00") []
                 (mkMessage ["notes.pdf"; "My_Drawing.PNG"; "garden.jpeg";
                             "drawing.txt"] ""))))) in
  is_onboarded s1 = true
  /\ map path (drawings m') = ["My_Drawing.PNG"]
  /\ map path (photos m') = ["garden.jpeg"]
  /\ audio_recordings m' = [].
Proof.
  intros s0 s1 m'.
  assert (Hon : is_onboarded s1 = true) by reflexivity.
  destruct (add_message_records_images s1 (fun _ => "2025-06-01T09:05:00") []
              (mkMessage ["notes.pdf"; "My_Drawing.PNG"; "garden.jpeg";
                          "drawing.txt"] "") Hon) as (Hd & Hp & Ha).
  split; [exact Hon|]. fold m' in Hd, Hp, Ha.
  rewrite Hd, Hp, Ha. repeat split.
Defined.

End ChatTurns.

(** ** Assistant replies *)

Section AssistantReplies.

Lemma take_all (s : string) : Py.take (String.length s) s = s.
Proof.
  unfold Py.take. induction s as [|c s IH]; [reflexivity|].
  cbn [String.length String.substring]. now rewrite IH.
Qed.

Lemma prefix_take (n : nat) :
  forall s, String.prefix (Py.take n s) s = true.
Proof.
  unfold Py.take. induction n as [|n IH]; intros s.
  - destruct s; reflexivity.
  - destruct s as [|c s]; [reflexivity|].
    cbn [String.substring String.prefix].
    destruct (ascii_dec c c); [apply IH | congruence].
Qed.

Lemma streamed_length (history : list Turn) (reply : string) :
  length (streamed history reply) = String.length reply.
Proof. unfold streamed. now rewrite List.length_map, List.length_seq. Qed.

Lemma streamed_last (history : list Turn) (reply : string) :
  reply <> "" ->
  List.last (streamed history reply) []
  = history ++ [mkTurn Assistant (Text reply)].
Proof.
  intros Hne. unfold streamed.
  destruct (String.length reply) as [|n] eqn:Hlen.
  - destruct reply; [congruence | discriminate].
  - rewrite List.seq_S, List.map_app. cbn [map].
    rewrite List.last_last. cbn [Nat.add].
    now rewrite <- Hlen, take_all.
Qed.

Lemma streamed_prefixes (history : list Turn) (reply : string) :
  Forall (fun shown =>
            exists pre,
              shown = history ++ [mkTurn Assistant (Text pre)]
              /\ String.prefix pre reply = true)
         (streamed history reply).
Proof.
  unfold streamed. apply List.Forall_forall. intros shown Hin.
  apply List.in_map_iff in Hin as (k & <- & _).
  exists (Py.take k reply). split; [reflexivity | apply prefix_take].
Qed.

(** The text that [bot_response] settles on. *)
Lemma bot_response_shape (s : App) (history : list Turn) (llm : ChatOutcome) :
  is_onboarded s = true ->
  history <> [] ->
  exists response_text out,
    bot_response s history llm
    = (streamed history response_text,
       set_ollama_conversation
         (ollama_conversation s ++ [mkTurn Assistant (Text response_text)]) s,
       out)
    /\ match llm with
       | ChatReplies reply => response_text = reply
       | ChatFails _ =>
           response_text = text_fallback (name (child_info (report_data s)))
           \/ response_text
              = image_fallback (name (child_info (report_data s)))
       end.
Proof.
  intros Hon Hh. unfold bot_response.
  destruct history as [|t history]; [congruence|].
  rewrite Hon. cbn [negb].
  destruct (match latest_user_content _ with Some _ => _ | None => _ end);
    destruct llm; eexists; eexists; (split; [reflexivity|]); auto.
Qed.

(** X9.  A reply of the model is revealed one character at a time: the
    generator yields as many histories as the reply has characters, each
    the history passed in followed by one assistant turn holding a prefix
    of the reply, and the last one holding all of it.  One assistant turn
    with the whole reply is added to the model buffer, and the report data
    is not touched.  (Stated for ASCII replies, where the bytes of the
    model are the characters.) *)
Theorem bot_response_reveals_reply (s : App) (history : list Turn)
    (reply : string) :
  is_onboarded s = true ->
  history <> [] ->
  ascii_text reply ->
  let r := bot_response s history (ChatReplies reply) in
  length (fst (fst r)) = String.length reply
  /\ Forall (fun shown =>
               exists pre,
                 shown = history ++ [mkTurn Assistant (Text pre)]
                 /\ String.prefix pre reply = true)
            (fst (fst r))
  /\ (reply <> "" ->
      List.last (fst (fst r)) []
      = history ++ [mkTurn Assistant (Text reply)])
  /\ ollama_conversation (snd (fst r))
     = ollama_conversation s ++ [mkTurn Assistant (Text reply)]
  /\ report_data (snd (fst r)) = report_data s.
Proof.
  intros Hon Hh _ r.
  destruct (bot_response_shape s history (ChatReplies reply) Hon Hh)
    as (txt & out & E & ->).
  subst r. rewrite E. cbn [fst snd].
  split; [apply streamed_length|].
  split; [apply streamed_prefixes|].
  split; [apply streamed_last|].
  split; reflexivity.
Qed.

Lemma bot_response_reveals_reply_witness :
  let s0 := init "0f8fad5b" "2025-06-01T09:00:00" None in
  let s1 := snd (complete_onboarding s0 "Sam" (Some (8 # 1)%Q) "Female" "Gaza") in
  let history := [mkTurn User (Text "Hello")] in
  let r := bot_response s1 history (ChatReplies "Hi.") in
  is_onboarded s1 = true
  /\ ascii_text "Hi."
  /\ length (fst (fst r)) = 3%nat
  /\ List.last (fst (fst r)) []
     = [mkTurn User (Text "Hello"); mkTurn Assistant (Text "Hi.")].
Proof.
  intros s0 s1 history r.
  assert (Hon : is_onboarded s1 = true) by reflexivity.
  assert (Hh : history <> []) by discriminate.
  assert (Ha : ascii_text "Hi.")
    by reflexivity.
  destruct (bot_response_reveals_reply s1 history "Hi." Hon Hh Ha)
    as (Hlen & _ & Hlast & _).
  split; [exact Hon|]. split; [exact Ha|]. split; [exact Hlen|].
  apply Hlast. discriminate.
Defined.

(** X10.  When the model call of a reply raises, the failure is not shown: what
    is revealed and what is added to the model buffer is one of the two
    fixed sentences naming the child, the same whatever the error was. *)
Theorem bot_response_masks_failure (s : App) (history : list Turn)
    (e1 e2 : string) :
  is_onboarded s = true ->
  history <> [] ->
  fst (bot_response s history (ChatFails e1))
  = fst (bot_response s history (ChatFails e2))
  /\ exists response_text,
       (response_text = text_fallback (name (child_info (report_data s)))
        \/ response_text = image_fallback (name (child_info (report_data s))))
       /\ ollama_conversation (snd (fst (bot_response s history (ChatFails e1))))
          = ollama_conversation s ++ [mkTurn Assistant (Text response_text)].
Proof.
  intros Hon Hh. split.
  - unfold bot_response. destruct history as [|t history]; [congruence|].
    rewrite Hon. cbn [negb].
    destruct (match latest_user_content _ with Some _ => _ | None => _ end);
      reflexivity.
  - destruct (bot_response_shape s history (ChatFails e1) Hon Hh)
      as (txt & out & E & Hllm).
    exists txt. rewrite E. repeat split; auto.
Qed.

Lemma bot_response_masks_failure_witness :
  let s0 := init "0f8fad5b" "2025-06-01T09:00:00" None in
  let s1 := snd (complete_onboarding s0 "Sam" (Some (8 # 1)%Q) "Female" "Gaza") in
  let history := [mkTurn User (FilePath "drawing.png")] in
  is_onboarded s1 = true
  /\ fst (bot_response s1 history (ChatFails "connection refused"))
     = fst (bot_response s1 history (ChatFails "model not found")).
Proof.
  intros s0 s1 history.
  assert (Hon : is_onboarded s1 = true) by reflexivity.
  assert (Hh : history <> []) by discriminate.
  split; [exact Hon|].
  apply (bot_response_masks_failure s1 history "connection refused"
           "model not found" Hon Hh).
Defined.

End AssistantReplies.

(** ** Report synthesis: the success path and the gates *)

Section SynthesisSuccess.

Lemma generate_on_success (s : App) (now : ReportClock) (cb : bool)
    (x : RiskAssessment) :
  is_onboarded s = true ->
  ollama_conversation s <> [] ->
  let s' := with_report_data (with_assessment_data (apply_assessment x)) s in
  fst (generate_comprehensive_report s now cb (Validated x))
  = (render_report (report_data s') now, s').
Proof.
  intros Hon Hconv. unfold generate_comprehensive_report.
  rewrite Hon; simpl negb; cbv iota.
  destruct (ollama_conversation s) as [|t ts]; [congruence | reflexivity].
Qed.

(** X11.  A synthesis whose model call validates replaces the whole assessment
    record by the model's, the observations gathered from the turns
    included, renders the report from it, and touches nothing else; a text
    turn submitted afterwards is appended to the model's summary. *)
Theorem synthesis_replaces_record (s : App) (now : ReportClock) (cb : bool)
    (x : RiskAssessment) (t : TurnInput) :
  is_onboarded s = true ->
  ollama_conversation s <> [] ->
  let r := generate_comprehensive_report s now cb (Validated x) in
  let s' := snd (fst r) in
  assessment_data (report_data s')
  = mkAssessmentData (ra_parent_observations x) (ra_ai_analysis x)
      (ra_severity_score x) (ra_risk_indicators x) (ra_cultural_context x)
  /\ fst (fst r) = render_report (report_data s') now
  /\ child_info (report_data s') = child_info (report_data s)
  /\ media_attachments (report_data s') = media_attachments (report_data s)
  /\ conversation_history (report_data s')
     = conversation_history (report_data s)
  /\ ollama_conversation s' = ollama_conversation s
  /\ same_coordination s s'
  /\ observations (submit_turn s' t)
     = appended (ra_parent_observations x) (text (turn_message t)).
Proof.
  intros Hon Hconv r s'.
  pose proof (generate_on_success s now cb x Hon Hconv) as E.
  cbv zeta in E. fold r in E. subst s'. rewrite E. cbn [fst snd].
  repeat (split; [reflexivity|]).
  split; [repeat split|].
  rewrite submit_turn_observations by exact Hon. reflexivity.
Qed.

Lemma synthesis_replaces_record_witness :
  let s0 := init "0f8fad5b" "2025-06-01T09:00:00" None in
  let s1 := snd (complete_onboarding s0 "Sam" (Some (8 # 1)%Q) "Female" "Gaza") in
  let s2 := submit_turn s1 (text_turn "She wakes up screaming") in
  let now := mkReportClock "June 01, 2025 at 09:30" "June 01, 2025"
               "2025-06-01T09:30:00" "June 01, 2025" in
  let x := mkRiskAssessment "Night terrors." "Hyperarousal." 8
             ["nightmares"] "Displacement." in
  let s3 := snd (fst (generate_comprehensive_report s2 now false (Validated x))) in
  is_onboarded s2 = true
  /\ observations s2 = "She wakes up screaming"
  /\ observations s3 = "Night terrors."
  /\ observations (submit_turn s3 (text_turn "and hides"))
     = "Night terrors. and hides".
Proof.
  intros s0 s1 s2 now x s3.
  assert (Hon : is_onboarded s2 = true) by reflexivity.
  assert (Hconv : ollama_conversation s2 <> []) by discriminate.
  destruct (synthesis_replaces_record s2 now false x (text_turn "and hides")
              Hon Hconv) as (Ha & _ & _ & _ & _ & _ & _ & Hobs).
  split; [exact Hon|]. split; [reflexivity|]. split.
  - unfold observations. fold s3 in Ha. now rewrite Ha.
  - fold s3 in Hobs. rewrite Hobs. reflexivity.
Defined.

(** X12.  The severity score of the model is not checked against the 1-10 scale
    that the prompt asks for: whatever integer it is, the report shows it
    over 10, with the moderate banner below 7 and the high-risk banner from
    7 on. *)
Theorem severity_shown_unchecked (s : App) (now : ReportClock) (cb : bool)
    (x : RiskAssessment) :
  is_onboarded s = true ->
  ollama_conversation s <> [] ->
  let report := fst (fst (generate_comprehensive_report s now cb (Validated x))) in
  let z := ra_severity_score x in
  (exists p q,
     report = p +:+ ("**Severity Score:** " +:+ Py.str_of_int z +:+ "/10  ")
                +:+ q)
  /\ (exists p q,
        report
        = p +:+ ("**Risk Level:** "
                 +:+ (if (z <? 7)%Z then "🟡 Moderate Risk"
                      else "🔴 High Risk - Urgent Intervention Recommended")
                 +:+ "  ") +:+ q)
  /\ (exists p q,
        report
        = p +:+ ("**Clinical Priority:** "
                 +:+ (if (z <? 7)%Z then "Standard referral appropriate"
                      else "Expedited professional evaluation needed"))
            +:+ q).
Proof.
  intros Hon Hconv report z.
  pose proof (generate_on_success s now cb x Hon Hconv) as E.
  cbv zeta in E. subst report. rewrite E. cbn [fst].
  split; [|split]; apply report_has_line; unfold report_lines;
    repeat (first [apply in_eq | apply in_cons]).
Qed.

Lemma severity_shown_unchecked_witness :
  let s0 := init "0f8fad5b" "2025-06-01T09:00:00" None in
  let s1 := snd (complete_onboarding s0 "Sam" (Some (8 # 1)%Q) "Female" "Gaza") in
  let s2 := submit_turn s1 (text_turn "She wakes up screaming") in
  let now := mkReportClock "June 01, 2025 at 09:30" "June 01, 2025"
               "2025-06-01T09:30:00" "June 01, 2025" in
  let x := mkRiskAssessment "Night terrors." "Hyperarousal." 250
             ["nightmares"] "Displacement." in
  let report := fst (fst (generate_comprehensive_report s2 now false
                            (Validated x))) in
  is_onboarded s2 = true
  /\ exists p q, report = p +:+ "**Severity Score:** 250/10  " +:+ q.
Proof.
  intros s0 s1 s2 now x report.
  assert (Hon : is_onboarded s2 = true) by reflexivity.
  assert (Hconv : ollama_conversation s2 <> []) by discriminate.
  destruct (severity_shown_unchecked s2 now false x Hon Hconv) as (H & _).
  split; [exact Hon | exact H].
Defined.

Lemma start_response_polling_posts (s : App) :
  posts (snd (start_response_polling s)) = 0%nat.
Proof.
  unfold start_response_polling.
  destruct (supabase s); [|reflexivity].
  destruct (Py.truthy _); [|reflexivity].
  destruct (polling_active s); reflexivity.
Qed.

(** A push that passes both preconditions issues exactly one POST,
    whatever the answer. *)
Lemma push_posts_once (s : App) (base_url : string) (http : PostOutcome) :
  is_onboarded s = true ->
  conversation_history (report_data s) <> [] ->
  posts (snd (push_report_to_care_bridge s base_url http)) = 1%nat.
Proof.
  intros Hon Hh. rewrite (push_accepted s base_url http Hon Hh). cbv zeta.
  destruct http as [e | response]; [reflexivity|].
  destruct (status_code response =? 201)%Z; [|reflexivity].
  destruct (json response); try reflexivity.
  cbn [snd]. unfold posts. cbn [List.filter length].
  fold (posts (snd (start_response_polling
                      (set_submitted_report_id (get_id d) s)))).
  now rewrite start_response_polling_posts.
Qed.

(** X13.  The converse of the two gates after a reset: when the conversation so
    far consists of files only, with no text and no reply yet, the
    transcript is not empty and the model buffer is.  Report generation is
    then refused for want of a conversation, without calling the model,
    while a push is let through and posts the report. *)
Theorem files_only_conversation_splits_gates (s : App) (now : nat -> string)
    (history : list Turn) (message : Message) (clock : ReportClock)
    (cb : bool) (llm : StructuredOutcome) (base_url : string)
    (http : PostOutcome) :
  is_onboarded s = true ->
  ollama_conversation s = [] ->
  files message <> [] ->
  text message = "" ->
  let s' := snd (fst (add_message s now history message)) in
  generate_comprehensive_report s' clock cb llm
  = ("Please have a conversation first before generating a report.", s', [])
  /\ posts (snd (push_report_to_care_bridge s' base_url http)) = 1%nat.
Proof.
  intros Hon Hconv Hfiles Htext s'.
  assert (Hc : conversation_history (report_data s')
               = history ++ message_turns message
               /\ ollama_conversation s' = []).
  { subst s'. unfold add_message, message_turns. rewrite Hon. cbn [negb].
    pose proof (add_files_history (files message) 0 now history s []) as Hh.
    destruct (add_files_shape (files message) 0 now history s []) as [m Hm].
    destruct (add_files _ _ _ _ _ _) as [[h1 s1] out].
    cbn [fst snd] in Hh, Hm. subst h1 s1.
    unfold add_text. rewrite Htext. cbn. now rewrite app_nil_r. }
  destruct Hc as [Hc Ho].
  assert (Hon' : is_onboarded s' = true).
  { subst s'. change (is_onboarded (submit_turn s (mkTurnInput now history message)) = true).
    now rewrite submit_turn_onboarded. }
  split.
  - unfold generate_comprehensive_report. rewrite Hon', Ho. reflexivity.
  - apply push_posts_once; [exact Hon'|].
    rewrite Hc. unfold message_turns.
    destruct (files message) as [|f fs]; [congruence|]. cbn [map].
    intros H. apply app_eq_nil in H as [_ H]. discriminate.
Qed.

Lemma files_only_conversation_splits_gates_witness :
  let s0 := init "0f8fad5b" "2025-06-01T09:00:00" None in
  let s1 := snd (complete_onboarding s0 "Sam" (Some (8 # 1)%Q) "Female" "Gaza") in
  let message := mkMessage ["drawing.png"] "" in
  let s2 := snd (fst (add_message s1 (fun _ => "2025-06-01T09:05:00") []
                        message)) in
  let clock := mkReportClock "June 01, 2025 at 09:30" "June 01, 2025"
                 "2025-06-01T09:30:00" "June 01, 2025" in
  is_onboarded s1 = true
  /\ ollama_conversation s1 = []
  /\ fst (fst (generate_comprehensive_report s2 clock false (ChatRaises "down")))
     = no_conversation_report_msg
  /\ posts (snd (push_report_to_care_bridge s2 default_base_url
                   (PostRaises (mkExn Timeout "timed out")))) = 1%nat.
Proof.
  intros s0 s1 message s2 clock.
  assert (Hon : is_onboarded s1 = true) by reflexivity.
  assert (Hconv : ollama_conversation s1 = []) by reflexivity.
  destruct (files_only_conversation_splits_gates s1
              (fun _ => "2025-06-01T09:05:00") [] message clock false
              (ChatRaises "down") default_base_url
              (PostRaises (mkExn Timeout "timed out")) Hon Hconv
              ltac:(discriminate) eq_refl) as [Hg Hp].
  split; [exact Hon|]. split; [exact Hconv|]. split; [|exact Hp].
  fold s2 in Hg. now rewrite Hg.
Defined.

End SynthesisSuccess.

(** ** Polling loop: a reply arrives, and any behaviour of the store *)

Section PollingOutcomes.

Variable oracle : nat -> QueryOutcome.

Lemma get_specialist_response_stored (s : App) (row : Row) :
  get_specialist_response (set_specialist_response row s)
  = match read_row row with
    | Returns r => Returns (true, format_response r)
    | Raises e => Raises e
    end.
Proof. reflexivity. Qed.

Lemma poll_iteration_found (s : App) (poll_count : nat)
    (reply : Row) (later : list Row) (r : SpecialistResponse) :
  polling_active s = true ->
  (poll_count < max_polls)%nat ->
  read_row reply = Returns r ->
  poll_iteration s poll_count (QueryReturns (reply :: later))
  = (set_polling_active false (set_specialist_response reply s), Returned,
     [EvPrint "Polling for response..."; EvQuery (submitted_report_id s)]).
Proof.
  intros Hp Hlt Hr. unfold poll_iteration, after_loop.
  rewrite Hp, (proj2 (Nat.ltb_lt _ _) Hlt), (proj2 (Nat.leb_gt _ _) Hlt).
  cbv zeta. rewrite get_specialist_response_stored, Hr. reflexivity.
Qed.


Lemma poll_loop_finds (fuel : nat) :
  forall s poll_count k reply later r,
  polling_active s = true ->
  (poll_count <= k)%nat -> (k < max_polls)%nat ->
  (forall j, (poll_count <= j < k)%nat -> finds_nothing (oracle j)) ->
  oracle k = QueryReturns (reply :: later) ->
  read_row reply = Returns r ->
  (k - poll_count < fuel)%nat ->
  poll_loop fuel oracle s poll_count
  = Some (set_polling_active false (set_specialist_response reply s),
          attempts_from oracle (submitted_report_id s) poll_count
            (k - poll_count)
          ++ [EvPrint "Polling for response...";
              EvQuery (submitted_report_id s)]).
Proof.
  induction fuel as [|fuel IH];
    intros s pc k reply later r Hp Hle Hk Hnone Hfound Hr Hfuel; [lia|].
  cbn [poll_loop].
  destruct (Nat.eq_dec pc k) as [-> | Hne].
  - rewrite Hfound, (poll_iteration_found s k reply later r) by auto.
    now rewrite Nat.sub_diag.
  - rewrite poll_iteration_nothing by (auto; try lia; apply Hnone; lia).
    rewrite (IH s (S pc) k reply later r)
      by (auto; try lia; intros; apply Hnone; lia).
    replace (k - pc)%nat with (S (k - S pc)) by lia.
    unfold attempts_from. cbn [seq flat_map].
    now rewrite <- app_assoc.
Qed.

(** What any iteration can do: return with [polling_active] false after at
    most one query, or go on with one more on [poll_count] after exactly
    one query. *)
Lemma poll_iteration_cases (s : App) (poll_count : nat) (q : QueryOutcome) :
  let r := poll_iteration s poll_count q in
  match snd (fst r) with
  | Returned =>
      polling_active (fst (fst r)) = false /\ (queries (snd r) <= 1)%nat
      /\ (queries (snd r) = 1%nat -> (poll_count < max_polls)%nat)
  | Looping poll_count' =>
      poll_count' = S poll_count /\ (poll_count < max_polls)%nat
      /\ queries (snd r) = 1%nat
  end.
Proof.
  unfold poll_iteration, after_loop.
  destruct (polling_active s) eqn:Hp; cbn [andb].
  - destruct (poll_count <? max_polls)%nat eqn:Hlt.
    + apply Nat.ltb_lt in Hlt.
      destruct q as [e | [|reply later]]; cbn [fst snd]; auto.
      cbv zeta. destruct (get_specialist_response _); cbn [fst snd]; auto.
      destruct (max_polls <=? poll_count)%nat; cbn; auto.
    + apply Nat.ltb_ge in Hlt. rewrite (proj2 (Nat.leb_le _ _) Hlt).
      cbn. repeat split; auto. discriminate.
  - destruct (max_polls <=? poll_count)%nat; cbn; repeat split; auto;
      discriminate.
Qed.

Lemma poll_loop_stops (fuel : nat) :
  forall s poll_count,
  (max_polls - poll_count < fuel)%nat ->
  exists s' out,
    poll_loop fuel oracle s poll_count = Some (s', out)
    /\ polling_active s' = false
    /\ (queries out <= max_polls - poll_count)%nat.
Proof.
  induction fuel as [|fuel IH]; intros s pc Hfuel; [lia|].
  cbn [poll_loop].
  pose proof (poll_iteration_cases s pc (oracle pc)) as Hc. cbv zeta in Hc.
  destruct (poll_iteration s pc (oracle pc)) as [[s1 [pc'|]] out1].
  - cbn [fst snd] in Hc. destruct Hc as (-> & Hlt & Hq).
    destruct (IH s1 (S pc)) as (s' & out & -> & Hp & Hb); [lia|].
    exists s', (out1 ++ out). split; [reflexivity|]. split; [exact Hp|].
    rewrite queries_app. lia.
  - cbn [fst snd] in Hc. destruct Hc as (Hp & Hq & Hlt).
    exists s1, out1. split; [reflexivity|]. split; [exact Hp|].
    destruct (queries out1) as [|[|n]] eqn:E; [lia | | lia].
    specialize (Hlt eq_refl). lia.
Qed.


End PollingOutcomes.

Section PollingOutcomeProperties.

(** X14.  When the first rows arrive at the query made with [poll_count] k,
    below 120, and every column that the template reads of the first row
    is there (the date and the urgency level as texts), the loop started
    with [polling_active] set stops there: it has made k + 1 queries and
    slept k times for 5, it stores the first row as the reply and clears
    [polling_active], and from then on [get_specialist_response] returns
    the true flag with a text that [check_for_response] shows with the
    "received" status; the text is the rendering of the row (for a row
    whose date, level and keys are ASCII). *)
Theorem polling_stops_at_first_reply (oracle : nat -> QueryOutcome) (s : App)
    (k fuel : nat) (row : Row) (reply : SpecialistResponse) :
  polling_active s = true ->
  (k < max_polls)%nat ->
  first_reply_at oracle k row ->
  read_row row = Returns reply ->
  (k < fuel)%nat ->
  exists s' out,
    _poll_for_response fuel oracle s = Some (s', out)
    /\ s' = set_polling_active false (set_specialist_response row s)
    /\ queries out = S k
    /\ sleeps out = repeat 5%Z k
    /\ exists t,
         get_specialist_response s' = Returns (true, t)
         /\ check_for_response s' = Returns (t, received_status)
         /\ (ascii_reply reply -> t = format_response reply).
Proof.
  intros Hp Hk [Hnone [later Hfound]] Hread Hfuel.
  unfold _poll_for_response.
  rewrite (poll_loop_finds oracle fuel s 0 k row later reply)
    by (auto; try lia; intros; apply Hnone; lia).
  eexists. eexists. split; [reflexivity|]. split; [reflexivity|].
  rewrite Nat.sub_0_r.
  assert (Hget : get_specialist_response
                   (set_polling_active false (set_specialist_response row s))
                 = Returns (true, format_response reply)).
  { unfold get_specialist_response. cbn [specialist_response
      set_polling_active set_specialist_response]. now rewrite Hread. }
  assert (Hcount : forall from,
            (forall j, (from <= j < from + k)%nat -> finds_nothing (oracle j)) ->
            queries (attempts_from oracle (submitted_report_id s) from k) = k
            /\ sleeps (attempts_from oracle (submitted_report_id s) from k)
               = repeat 5%Z k).
  { clear. unfold attempts_from. induction k as [|k IH]; intros from Hn;
      [split; reflexivity|].
    cbn [seq flat_map]. rewrite queries_app, sleeps_app.
    destruct (IH (S from)) as [-> ->]; [intros; apply Hn; lia|].
    destruct (oracle from); split; reflexivity. }
  destruct (Hcount 0%nat) as [Hq Hs]; [intros; apply Hnone; lia|].
  split; [|split].
  3:{ exists (format_response reply). split; [exact Hget|].
      split; [|reflexivity]. unfold check_for_response. now rewrite Hget. }
  - change (queries (EvPrint "Starting polling for response..."
                       :: attempts_from oracle (submitted_report_id s) 0 k
                          ++ [EvPrint "Polling for response...";
                              EvQuery (submitted_report_id s)]))
      with (queries (attempts_from oracle (submitted_report_id s) 0 k
                     ++ [EvPrint "Polling for response...";
                         EvQuery (submitted_report_id s)])).
    rewrite queries_app, Hq. cbn. lia.
  - change (sleeps (EvPrint "Starting polling for response..."
                      :: attempts_from oracle (submitted_report_id s) 0 k
                         ++ [EvPrint "Polling for response...";
                             EvQuery (submitted_report_id s)]))
      with (sleeps (attempts_from oracle (submitted_report_id s) 0 k
                    ++ [EvPrint "Polling for response...";
                        EvQuery (submitted_report_id s)])).
    rewrite sleeps_app, Hs. cbn. now rewrite app_nil_r.
Qed.

Lemma polling_stops_at_first_reply_witness :
  let s0 := init "0f8fad5b" "2025-06-01T09:00:00"
              (Some (mkSupabaseClient "https://db.example" "anon")) in
  let s1 := snd (complete_onboarding s0 "Sam" (Some (8 # 1)%Q) "Female" "Gaza") in
  let s2 := submit_turn s1 (text_turn "She wakes up screaming") in
  let s3 := snd (fst (push_report_to_care_bridge s2 default_base_url
              (PostReturns (mkResponse 201 "{}"
                 (JsonDict (<["id" := Py.PyStr "r-17"]> ∅)))))) in
  let reply := mkSpecialistResponse "2025-06-02T14:03:27.512+00:00" "psy-4"
                 "high" "Start weekly sessions." (RecFlat "Rest.") in
  let row := mkRow (TextCell "2025-06-02T14:03:27.512+00:00")
               (TextCell "psy-4") (TextCell "high")
               (TextCell "Start weekly sessions.") (Some (RecFlat "Rest.")) in
  let oracle k := match k with
                  | 0 => QueryReturns []
                  | 1 => QueryRaises "connection reset"
                  | _ => QueryReturns [row]
                  end%nat in
  polling_active s3 = true
  /\ first_reply_at oracle 2 row
  /\ read_row row = Returns reply
  /\ ascii_reply reply
  /\ exists s' out,
       _poll_for_response 3 oracle s3 = Some (s', out)
       /\ queries out = 3%nat
       /\ sleeps out = [5%Z; 5%Z]
       /\ polling_active s' = false
       /\ check_for_response s'
          = Returns (format_response reply, received_status).
Proof.
  intros s0 s1 s2 s3 reply row oracle.
  assert (Hp : polling_active s3 = true) by (vm_compute; reflexivity).
  assert (Hf : first_reply_at oracle 2 row).
  { split.
    - intros [|[|j]] Hj; simpl; auto. lia.
    - exists []. reflexivity. }
  assert (Hr : read_row row = Returns reply) by reflexivity.
  assert (Ha : ascii_reply reply).
  { split; [reflexivity|]. split; [reflexivity | exact I]. }
  destruct (polling_stops_at_first_reply oracle s3 2 3 row reply Hp
              ltac:(unfold max_polls; lia) Hf Hr ltac:(lia))
    as (s' & out & Hrun & Hs & Hq & Hsl & t & _ & Hcheck & Ht).
  split; [exact Hp|]. split; [exact Hf|]. split; [exact Hr|].
  split; [exact Ha|].
  exists s', out. split; [exact Hrun|]. split; [exact Hq|].
  split; [exact Hsl|]. split; [now rewrite Hs|].
  rewrite <- (Ht Ha). exact Hcheck.
Defined.



(** X15.  Whatever the lookup store does (rows at any time, none, errors in any
    mix), the loop returns once the fuel exceeds [max_polls], after at most
    120 queries, and leaves [polling_active] false. *)
Theorem polling_always_stops (oracle : nat -> QueryOutcome) (s : App)
    (fuel : nat) :
  (max_polls < fuel)%nat ->
  exists s' out,
    _poll_for_response fuel oracle s = Some (s', out)
    /\ polling_active s' = false
    /\ (queries out <= 120)%nat.
Proof.
  intros Hfuel. unfold _poll_for_response.
  destruct (poll_loop_stops oracle fuel s 0) as (s' & out & -> & Hp & Hq);
    [lia|].
  exists s', (EvPrint "Starting polling for response..." :: out).
  split; [reflexivity|]. split; [exact Hp|].
  change (queries (EvPrint "Starting polling for response..." :: out))
    with (queries out).
  unfold max_polls in Hq. lia.
Qed.

Lemma polling_always_stops_witness :
  let s := set_polling_active true
             (init "0f8fad5b" "2025-06-01T09:00:00" None) in
  let oracle (k : nat) := QueryRaises "no route to host" in
  exists s' out,
    _poll_for_response 121 oracle s = Some (s', out)
    /\ polling_active s' = false
    /\ (queries out <= 120)%nat.
Proof.
  intros s oracle.
  apply (polling_always_stops oracle s 121). unfold max_polls. lia.
Defined.

(** X16.  Also when the iterations of a polling thread are interleaved with any
    calls of the main flow, no thread counts past 120 attempts: in every
    state that a session reaches, the [poll_count] of each live thread is
    at most [max_polls]. *)
Theorem poll_counts_stay_bounded (uuid started : string)
    (client : option SupabaseClient) (actions : list Action) :
  Forall (fun poll_count => (poll_count <= 120)%nat)
         (loops (run (start uuid started client) actions)).
Proof.
  apply (run_bounded actions (start uuid started client)).
  constructor.
Qed.

End PollingOutcomeProperties.

(** ** What stays fixed during a session *)

Section SessionInvariants.

Lemma same_session_refl (s : App) : same_session s s.
Proof. repeat split. Qed.

Lemma same_session_trans (s1 s2 s3 : App) :
  same_session s1 s2 -> same_session s2 s3 -> same_session s1 s3.
Proof.
  unfold same_session. intros (A1 & A2 & A3 & A4 & A5 & A6)
    (B1 & B2 & B3 & B4 & B5 & B6).
  repeat split; congruence.
Qed.

Lemma add_message_session (s : App) now history message :
  same_session s (snd (fst (add_message s now history message))).
Proof.
  unfold add_message.
  destruct (is_onboarded s) eqn:Hon; cbn [negb]; [|apply same_session_refl].
  pose proof (add_files_paths (files message) 0 now history s []) as Hp.
  destruct (add_files_shape (files message) 0 now history s []) as [m Hm].
  destruct (add_files _ _ _ _ _ _) as [[h1 s1] out].
  cbn [fst snd] in Hp, Hm. cbv zeta in Hp. destruct Hp as (_ & _ & Ha).
  subst s1. unfold add_text.
  destruct (Py.nonempty (text message)); cbn in *; repeat split; auto.
Qed.

Lemma bot_response_session (s : App) history llm :
  same_session s (snd (fst (bot_response s history llm))).
Proof.
  unfold bot_response.
  destruct history; [apply same_session_refl|].
  destruct (is_onboarded s) eqn:Hon; cbn [negb]; [|apply same_session_refl].
  destruct (match latest_user_content _ with Some _ => _ | None => _ end);
    destruct llm; cbn; repeat split; auto.
Qed.

Lemma generate_session (s : App) now cb llm :
  same_session s (snd (fst (generate_comprehensive_report s now cb llm))).
Proof.
  unfold generate_comprehensive_report.
  destruct (is_onboarded s) eqn:Hon; cbn [negb]; [|apply same_session_refl].
  destruct (ollama_conversation s); [apply same_session_refl|].
  destruct llm; cbn; repeat split; auto.
Qed.

Lemma start_response_polling_session (s : App) :
  same_session s (fst (start_response_polling s)).
Proof.
  destruct (start_response_polling_cases s)
    as [[-> _] | (_ & _ & _ & -> & _)]; repeat split.
Qed.

Lemma push_session (s : App) base_url http :
  same_session s (snd (fst (push_report_to_care_bridge s base_url http))).
Proof.
  pose proof (push_cases s base_url http) as Hc. cbv zeta in Hc.
  destruct Hc as [[-> _] | (v & _ & -> & _)]; [apply same_session_refl|].
  apply (same_session_trans s (set_submitted_report_id v s));
    [repeat split | apply start_response_polling_session].
Qed.

Lemma poll_iteration_session (s : App) (poll_count : nat) (q : QueryOutcome) :
  same_session s (fst (fst (poll_iteration s poll_count q))).
Proof.
  unfold poll_iteration, after_loop.
  destruct (polling_active s && (poll_count <? max_polls)%nat).
  - destruct q as [e | [|r data]]; cbn [fst]; try apply same_session_refl.
    cbv zeta. destruct (get_specialist_response _); cbn [fst];
      [|repeat split].
    destruct (max_polls <=? poll_count)%nat; repeat split.
  - destruct (max_polls <=? poll_count)%nat; repeat split.
Qed.

(** Every action other than the onboarding form and the reset leaves the
    child information, the gate, the session identity, the client and the
    audio list alone. *)
Lemma step_session (sys : System) (a : Action) :
  (forall n x g l, a <> ActOnboard n x g l) ->
  a <> ActClear ->
  same_session (app sys) (app (step sys a)).
Proof.
  destruct sys as [s ls].
  destruct a as [n x g l | now h m | | now cb llm | base http | | | i q
                 | h llm];
    intros Hno Hnc; cbn [step app loops].
  - now elim (Hno n x g l).
  - pose proof (add_message_session s now h m) as Hf.
    now destruct (add_message s now h m) as [[h' s'] out].
  - now elim Hnc.
  - pose proof (generate_session s now cb llm) as Hf.
    now destruct (generate_comprehensive_report s now cb llm) as [[t s'] out].
  - pose proof (push_session s base http) as Hf.
    now destruct (push_report_to_care_bridge s base http) as [[res s'] out].
  - pose proof (start_response_polling_session s) as Hf.
    now destruct (start_response_polling s) as [s' out].
  - apply same_session_refl.
  - destruct (ls !! i) as [pc|]; [|apply same_session_refl].
    pose proof (poll_iteration_session s pc q) as Hf.
    now destruct (poll_iteration s pc q) as [[s' [pc'|]] out].
  - pose proof (bot_response_session s h llm) as Hf.
    now destruct (bot_response s h llm) as [[y s'] out].
Qed.

(** What the onboarding form does to the same parts. *)
Lemma onboard_session (s : App) n x g l :
  let s' := snd (complete_onboarding s n x g l) in
  mobile_app_id (report_data s') = mobile_app_id (report_data s)
  /\ session_start (report_data s') = session_start (report_data s)
  /\ supabase s' = supabase s
  /\ audio_recordings (media_attachments (report_data s'))
     = audio_recordings (media_attachments (report_data s))
  /\ (s' = s
      \/ (is_onboarded s' = true
          /\ name (child_info (report_data s')) <> ""
          /\ gender (child_info (report_data s')) <> ""
          /\ location (child_info (report_data s')) <> "")).
Proof.
  unfold complete_onboarding.
  destruct x as [x|]; [|cbn; repeat split; auto].
  destruct (Py.nonempty n) eqn:Hn; [|cbn; repeat split; auto].
  destruct (Py.number_truthy x); [|cbn; repeat split; auto].
  destruct (Py.nonempty g) eqn:Hg; [|cbn; repeat split; auto].
  destruct (Py.nonempty l) eqn:Hl; [|cbn; repeat split; auto].
  cbn. repeat split; auto. right. repeat split.
  - intros ->. discriminate.
  - intros ->. discriminate.
  - intros ->. discriminate.
Qed.

Lemma step_identity (sys : System) (a : Action) :
  let s := app sys in
  let s' := app (step sys a) in
  mobile_app_id (report_data s') = mobile_app_id (report_data s)
  /\ session_start (report_data s') = session_start (report_data s)
  /\ supabase s' = supabase s
  /\ (audio_recordings (media_attachments (report_data s)) = [] ->
      audio_recordings (media_attachments (report_data s')) = []).
Proof.
  cbv zeta.
  remember a as a0 eqn:Ea.
  destruct a as [n x g l | now h m | | now cb llm | base http | | | i q
                 | h llm];
    try (assert (Hs : same_session (app sys) (app (step sys a0)))
           by (subst a0; apply step_session; [intros; discriminate | discriminate]);
         subst a0; destruct Hs as (_ & _ & H1 & H2 & H3 & H4);
         rewrite H1, H2, H3, H4; repeat split; auto; fail);
    subst a0.
  - destruct sys as [s ls]. cbn [step app].
    destruct (onboard_session s n x g l) as (H1 & H2 & H3 & H4 & _).
    cbv zeta in *. rewrite H1, H2, H3, H4. repeat split; auto.
  - destruct sys as [s ls]. repeat split.
Qed.

Lemma step_named (sys : System) (a : Action) :
  let named s :=
    is_onboarded s = true ->
    name (child_info (report_data s)) <> ""
    /\ gender (child_info (report_data s)) <> ""
    /\ location (child_info (report_data s)) <> "" in
  named (app sys) -> named (app (step sys a)).
Proof.
  intros named Hn. subst named. cbv beta in *.
  remember a as a0 eqn:Ea.
  destruct a as [n x g l | now h m | | now cb llm | base http | | | i q
                 | h llm];
    try (assert (Hs : same_session (app sys) (app (step sys a0)))
           by (subst a0; apply step_session; [intros; discriminate | discriminate]);
         subst a0; destruct Hs as (-> & -> & _); exact Hn);
    subst a0.
  - destruct sys as [s ls]. cbn [step app] in *.
    destruct (onboard_session s n x g l) as (_ & _ & _ & _ & [-> | (_ & H)]);
      [exact Hn | intros _; exact H].
  - destruct sys as [s ls]. exact Hn.
Qed.

Lemma step_gate (sys : System) (a : Action) :
  is_onboarded (app sys) = true -> is_onboarded (app (step sys a)) = true.
Proof.
  intros Hon.
  remember a as a0 eqn:Ea.
  destruct a as [n x g l | now h m | | now cb llm | base http | | | i q
                 | h llm];
    try (assert (Hs : same_session (app sys) (app (step sys a0)))
           by (subst a0; apply step_session; [intros; discriminate | discriminate]);
         subst a0; destruct Hs as (_ & -> & _); exact Hon);
    subst a0.
  - destruct sys as [s ls]. cbn [step app] in *.
    destruct (onboard_session s n x g l) as (_ & _ & _ & _ & [-> | (H & _)]);
      [exact Hon | exact H].
  - destruct sys as [s ls]. exact Hon.
Qed.

Lemma run_gate (actions : list Action) :
  forall sys,
  is_onboarded (app sys) = true ->
  is_onboarded (app (run sys actions)) = true.
Proof.
  induction actions as [|a actions IH]; intros sys Hon; [exact Hon|].
  apply IH, step_gate, Hon.
Qed.

Lemma run_named (actions : list Action) :
  forall sys,
  (is_onboarded (app sys) = true ->
   name (child_info (report_data (app sys))) <> ""
   /\ gender (child_info (report_data (app sys))) <> ""
   /\ location (child_info (report_data (app sys))) <> "") ->
  is_onboarded (app (run sys actions)) = true ->
  name (child_info (report_data (app (run sys actions)))) <> ""
  /\ gender (child_info (report_data (app (run sys actions)))) <> ""
  /\ location (child_info (report_data (app (run sys actions)))) <> "".
Proof.
  induction actions as [|a actions IH]; intros sys Hn; [exact Hn|].
  apply IH. exact (step_named sys a Hn).
Qed.

End SessionInvariants.

Section SessionInvariantProperties.

(** X17.  The session identifier, the start time and the lookup-store client are
    those given at creation in every state that the session reaches, and
    the list of audio recordings is empty in all of them: no operation
    writes any of the four. *)
Theorem session_identity_is_stable (uuid started : string)
    (client : option SupabaseClient) (actions : list Action) :
  let s := app (run (start uuid started client) actions) in
  mobile_app_id (report_data s) = uuid
  /\ session_start (report_data s) = started
  /\ supabase s = client
  /\ audio_recordings (media_attachments (report_data s)) = [].
Proof.
  cbv zeta.
  assert (H : forall sys,
            mobile_app_id (report_data (app (run sys actions)))
            = mobile_app_id (report_data (app sys))
            /\ session_start (report_data (app (run sys actions)))
               = session_start (report_data (app sys))
            /\ supabase (app (run sys actions)) = supabase (app sys)
            /\ (audio_recordings
                  (media_attachments (report_data (app sys))) = [] ->
                audio_recordings
                  (media_attachments (report_data (app (run sys actions))))
                = [])).
  { induction actions as [|a actions IH]; intros sys; [repeat split; auto|].
    change (run sys (a :: actions)) with (run (step sys a) actions).
    destruct (IH (step sys a)) as (-> & -> & -> & Ha).
    destruct (step_identity sys a) as (H1 & H2 & H3 & H4).
    repeat split; auto. }
  destruct (H (start uuid started client)) as (H1 & H2 & H3 & H4).
  repeat split; auto.
Qed.

(** X18.  Whenever the gate is open in a state that the session reaches, the
    child has a name, a gender and a location that are not empty; and once
    open the gate stays open through any further actions. *)
Theorem open_gate_has_child_details (uuid started : string)
    (client : option SupabaseClient) (actions more : list Action) :
  let sys := run (start uuid started client) actions in
  is_onboarded (app sys) = true ->
  name (child_info (report_data (app sys))) <> ""
  /\ gender (child_info (report_data (app sys))) <> ""
  /\ location (child_info (report_data (app sys))) <> ""
  /\ is_onboarded (app (run sys more)) = true.
Proof.
  intros sys Hon.
  destruct (run_named actions (start uuid started client)
              ltac:(discriminate) Hon) as (Hname & Hgender & Hloc).
  repeat split; auto. now apply run_gate.
Qed.

Lemma open_gate_has_child_details_witness :
  let actions :=
    [ActOnboard "" (Some (8 # 1)%Q) "Female" "Gaza";
     ActOnboard "Sam" (Some (8 # 1)%Q) "Female" "Gaza";
     ActAddMessage (fun _ => "") [] (mkMessage [] "She wakes up screaming")] in
  let sys := run (start "0f8fad5b" "2025-06-01T09:00:00" None) actions in
  is_onboarded (app sys) = true
  /\ name (child_info (report_data (app sys))) <> ""
  /\ is_onboarded (app (run sys [ActClear; ActOnboard "" None "" ""])) = true.
Proof.
  intros actions sys.
  assert (Hon : is_onboarded (app sys) = true) by (vm_compute; reflexivity).
  destruct (open_gate_has_child_details "0f8fad5b" "2025-06-01T09:00:00" None
              actions [ActClear; ActOnboard "" None "" ""] Hon)
    as (Hname & _ & _ & Hstay).
  exact (conj Hon (conj Hname Hstay)).
Defined.

End SessionInvariantProperties.

(** ** Submission: success, and a session without lookup-store client *)

Section SubmissionOutcomes.

(** X19.  An accepted push answered with 201 and a dict body reports success
    with the identifier in the message and stores the identifier, replacing
    any earlier one.  Polling is switched on by it exactly when the client
    is configured, the identifier is truthy and no loop is polling yet, and
    only then is a thread launched; nothing else in the session changes. *)
Theorem push_success_starts_polling_once (s : App) (base_url : string)
    (response : Response) (result : gmap string Py.value) :
  is_onboarded s = true ->
  conversation_history (report_data s) <> [] ->
  status_code response = 201%Z ->
  json response = JsonDict result ->
  let r := push_report_to_care_bridge s base_url (PostReturns response) in
  let s' := snd (fst r) in
  let starts := negb (polling_active s)
                && match supabase s with Some _ => true | None => false end
                && Py.truthy (get_id result) in
  fst (fst r) = (true, push_success_msg (get_id result))
  /\ submitted_report_id s' = get_id result
  /\ polling_active s' = polling_active s || starts
  /\ launched (snd r) = (if starts then 1 else 0)%nat
  /\ report_data s' = report_data s
  /\ ollama_conversation s' = ollama_conversation s
  /\ specialist_response s' = specialist_response s.
Proof.
  intros Hon Hh Hst Hj r s' starts. subst r s' starts.
  rewrite (push_accepted s base_url _ Hon Hh). cbv zeta.
  rewrite Hst, Hj. cbn [Z.eqb Pos.eqb fst snd].
  unfold start_response_polling.
  destruct s as [d gate id active buffer client reply].
  cbn [supabase set_submitted_report_id submitted_report_id polling_active
       report_data ollama_conversation specialist_response].
  destruct client, (Py.truthy (get_id result)), active; cbn; repeat split.
Qed.

Lemma push_success_starts_polling_once_witness :
  let s0 := init "0f8fad5b" "2025-06-01T09:00:00"
              (Some (mkSupabaseClient "https://db.example" "anon")) in
  let s1 := snd (complete_onboarding s0 "Sam" (Some (8 # 1)%Q) "Female" "Gaza") in
  let s2 := submit_turn s1 (text_turn "She wakes up screaming") in
  let response := mkResponse 201 "" (JsonDict (<["id" := Py.PyInt 42]> ∅)) in
  let r1 := push_report_to_care_bridge s2 default_base_url
              (PostReturns response) in
  let r2 := push_report_to_care_bridge (snd (fst r1)) default_base_url
              (PostReturns response) in
  is_onboarded s2 = true
  /\ submitted_report_id (snd (fst r1)) = Py.PyInt 42
  /\ launched (snd r1) = 1%nat
  /\ polling_active (snd (fst r2)) = true
  /\ launched (snd r2) = 0%nat.
Proof.
  intros s0 s1 s2 response r1 r2.
  assert (Hon : is_onboarded s2 = true) by reflexivity.
  assert (Hh : conversation_history (report_data s2) <> []) by discriminate.
  destruct (push_success_starts_polling_once s2 default_base_url response
              (<["id" := Py.PyInt 42]> ∅) Hon Hh eq_refl eq_refl)
    as (_ & Hid & Hp & Hl & Hd & _).
  fold r1 in Hid, Hp, Hl, Hd.
  assert (Hon1 : is_onboarded (snd (fst r1)) = true)
    by (vm_compute; reflexivity).
  assert (Hh1 : conversation_history (report_data (snd (fst r1))) <> [])
    by (rewrite Hd; exact Hh).
  destruct (push_success_starts_polling_once (snd (fst r1)) default_base_url
              response (<["id" := Py.PyInt 42]> ∅) Hon1 Hh1 eq_refl eq_refl)
    as (_ & _ & Hp2 & Hl2 & _).
  fold r2 in Hp2, Hl2. rewrite Hp in Hp2, Hl2.
  split; [exact Hon|]. split; [exact Hid|]. split; [exact Hl|].
  split; [exact Hp2 | exact Hl2].
Defined.

Lemma step_idle_without_client (sys : System) (a : Action) :
  idle_without_client sys -> idle_without_client (step sys a).
Proof.
  destruct sys as [s ls]. unfold idle_without_client. cbn [app loops].
  intros (Hc & Hp & -> & Hr).
  destruct a as [n x g l | now h m | | now cb llm | base http | | | i q
                 | h llm];
    cbn [step app loops].
  - destruct (complete_onboarding_frame s n x g l) as (-> & -> & _ & ->).
    auto.
  - pose proof (add_message_frame s now h m) as (H1 & H2 & _ & H4).
    destruct (add_message s now h m) as [[h' s'] out].
    cbn [fst snd app loops] in *. rewrite H1, H2, H4. auto.
  - auto.
  - pose proof (generate_frame s now cb llm) as (H1 & H2 & _ & H4).
    destruct (generate_comprehensive_report s now cb llm) as [[t s'] out].
    cbn [fst snd app loops] in *. rewrite H1, H2, H4. auto.
  - pose proof (push_cases s base http) as Hcases. cbv zeta in Hcases.
    destruct (push_report_to_care_bridge s base http) as [[res s'] out].
    cbn [fst snd app loops] in *.
    destruct Hcases as [[-> Hl] | (v & _ & -> & Hl)].
    + rewrite spawn_none by exact Hl. auto.
    + unfold start_response_polling in *.
      cbn [supabase set_submitted_report_id] in *. rewrite Hc in *.
      cbn [fst snd] in *. rewrite spawn_none by exact Hl. auto.
  - unfold start_response_polling. rewrite Hc. cbn. auto.
  - auto.
  - cbn. auto.
  - pose proof (bot_response_frame s h llm) as (H1 & H2 & _ & H4).
    destruct (bot_response s h llm) as [[y s'] out].
    cbn [fst snd app loops] in *. rewrite H1, H2, H4. auto.
Qed.

(** X20.  In a session created without lookup-store credentials nothing ever
    polls and no reply is ever stored, whatever is pushed: in every state
    that it reaches [polling_active] is false, no thread is alive and
    [get_specialist_response] has nothing.  [check_for_response] then
    reports that monitoring stopped at the time limit as soon as a truthy
    identifier is stored, although there was no monitoring. *)
Theorem no_client_never_polls (uuid started : string)
    (actions : list Action) :
  let sys := run (start uuid started None) actions in
  polling_active (app sys) = false
  /\ loops sys = []
  /\ get_specialist_response (app sys) = Returns (false, no_response_msg)
  /\ check_for_response (app sys)
     = Returns ("", if Py.truthy (submitted_report_id (app sys))
                    then stopped_status else not_submitted_status).
Proof.
  intros sys.
  assert (H : forall sys0,
            idle_without_client sys0 ->
            idle_without_client (run sys0 actions)).
  { induction actions as [|a actions' IH]; intros sys0 H0; [exact H0|].
    apply IH, step_idle_without_client, H0. }
  destruct (H (start uuid started None)) as (_ & Hp & Hl & Hr);
    [repeat split|].
  fold sys in Hp, Hl, Hr.
  split; [exact Hp|]. split; [exact Hl|].
  unfold check_for_response, get_specialist_response. rewrite Hr, Hp.
  split; [reflexivity|].
  now destruct (Py.truthy _).
Qed.

Lemma timeout_events_leave_reply (oracle : nat -> QueryOutcome) (s : App)
    (fuel : nat) :
  polling_active s = true ->
  (forall k, finds_nothing (oracle k)) ->
  (max_polls < fuel)%nat ->
  exists out,
    _poll_for_response fuel oracle s = Some (set_polling_active false s, out).
Proof.
  intros Hp Hn Hfuel. unfold _poll_for_response.
  rewrite (poll_loop_exhausts oracle Hn fuel s 0 Hp) by lia. eauto.
Qed.

(** X21.  What the user is told around a time-out.  While the loop runs with no
    reply stored, [check_for_response] says that it is still monitoring;
    after the loop has used up its attempts without finding rows, it says
    that monitoring stopped at the time limit, and
    [get_specialist_response] still has nothing. *)
Theorem timeout_is_reported_as_stopped (oracle : nat -> QueryOutcome)
    (s : App) (fuel : nat) :
  polling_active s = true ->
  Py.truthy (submitted_report_id s) = true ->
  specialist_response s = None ->
  (forall k, finds_nothing (oracle k)) ->
  (max_polls < fuel)%nat ->
  check_for_response s = Returns ("", monitoring_status)
  /\ exists s' out,
       _poll_for_response fuel oracle s = Some (s', out)
       /\ check_for_response s' = Returns ("", stopped_status)
       /\ get_specialist_response s' = Returns (false, no_response_msg).
Proof.
  intros Hp Hid Hr Hn Hfuel. split.
  - unfold check_for_response, get_specialist_response. now rewrite Hr, Hp.
  - destruct (timeout_events_leave_reply oracle s fuel Hp Hn Hfuel)
      as [out Hrun].
    exists (set_polling_active false s), out. split; [exact Hrun|].
    unfold check_for_response, get_specialist_response.
    cbn [specialist_response set_polling_active polling_active
         submitted_report_id].
    now rewrite Hr, Hid.
Qed.

Lemma timeout_is_reported_as_stopped_witness :
  let s0 := init "0f8fad5b" "2025-06-01T09:00:00"
              (Some (mkSupabaseClient "https://db.example" "anon")) in
  let s1 := snd (complete_onboarding s0 "Sam" (Some (8 # 1)%Q) "Female" "Gaza") in
  let s2 := submit_turn s1 (text_turn "She wakes up screaming") in
  let s3 := snd (fst (push_report_to_care_bridge s2 default_base_url
              (PostReturns (mkResponse 201 "{}"
                 (JsonDict (<["id" := Py.PyStr "r-17"]> ∅)))))) in
  let oracle (k : nat) := QueryReturns [] in
  polling_active s3 = true
  /\ check_for_response s3 = Returns ("", monitoring_status)
  /\ exists s' out,
       _poll_for_response 121 oracle s3 = Some (s', out)
       /\ check_for_response s' = Returns ("", stopped_status).
Proof.
  intros s0 s1 s2 s3 oracle.
  assert (Hp : polling_active s3 = true) by (vm_compute; reflexivity).
  assert (Hid : Py.truthy (submitted_report_id s3) = true)
    by (vm_compute; reflexivity).
  assert (Hr : specialist_response s3 = None) by (vm_compute; reflexivity).
  destruct (timeout_is_reported_as_stopped oracle s3 121 Hp Hid Hr
              ltac:(intros k; reflexivity) ltac:(unfold max_polls; lia))
    as (Hbefore & s' & out & Hrun & Hafter & _).
  split; [exact Hp|]. split; [exact Hbefore|].
  exists s', out. split; [exact Hrun | exact Hafter].
Defined.

End SubmissionOutcomes.

(** ** The model buffer and the reset *)

Section BufferAndReset.

Lemma extends_refl {A : Type} (l : list A) : extends l l.
Proof. exists []. now rewrite app_nil_r. Qed.

Lemma extends_trans {A : Type} (l1 l2 l3 : list A) :
  extends l1 l2 -> extends l2 l3 -> extends l1 l3.
Proof.
  intros [a ->] [b ->]. exists (a ++ b). now rewrite app_assoc.
Qed.

Lemma add_message_buffer (s : App) now history message :
  extends (ollama_conversation s)
          (ollama_conversation (snd (fst (add_message s now history message)))).
Proof.
  unfold add_message.
  destruct (is_onboarded s); cbn [negb]; [|apply extends_refl].
  destruct (add_files_shape (files message) 0 now history s []) as [m Hm].
  destruct (add_files _ _ _ _ _ _) as [[h1 s1] out].
  cbn [fst snd] in Hm. subst s1. unfold add_text.
  destruct (Py.nonempty (text message)); cbn;
    [eexists; reflexivity | apply extends_refl].
Qed.

Lemma bot_response_buffer (s : App) history llm :
  extends (ollama_conversation s)
          (ollama_conversation (snd (fst (bot_response s history llm)))).
Proof.
  unfold bot_response.
  destruct history; [apply extends_refl|].
  destruct (is_onboarded s); cbn [negb]; [|apply extends_refl].
  destruct (match latest_user_content _ with Some _ => _ | None => _ end);
    destruct llm; cbn; eexists; reflexivity.
Qed.

Lemma step_buffer (sys : System) (a : Action) :
  extends (ollama_conversation (app sys))
          (ollama_conversation (app (step sys a))).
Proof.
  destruct sys as [s ls].
  destruct a as [n x g l | now h m | | now cb llm | base http | | | i q
                 | h llm];
    cbn [step app loops].
  - unfold complete_onboarding. destruct x as [x|]; [|apply extends_refl].
    destruct (_ && _); apply extends_refl.
  - pose proof (add_message_buffer s now h m) as Hf.
    now destruct (add_message s now h m) as [[h' s'] out].
  - apply extends_refl.
  - unfold generate_comprehensive_report.
    destruct (is_onboarded s); cbn [negb]; [|apply extends_refl].
    destruct (ollama_conversation s) eqn:E;
      [cbn; rewrite E; apply extends_refl|].
    destruct llm; cbn; rewrite E; apply extends_refl.
  - pose proof (push_cases s base http) as Hc. cbv zeta in Hc.
    destruct (push_report_to_care_bridge s base http) as [[res s'] out].
    cbn [fst snd app] in *.
    destruct Hc as [[-> _] | (v & _ & -> & _)]; [apply extends_refl|].
    destruct (start_response_polling_cases (set_submitted_report_id v s))
      as [[-> _] | (_ & _ & _ & -> & _)]; apply extends_refl.
  - destruct (start_response_polling_cases s)
      as [[E _] | (_ & _ & _ & E & _)];
      destruct (start_response_polling s) as [s' out]; cbn [fst app] in *;
      subst s'; apply extends_refl.
  - apply extends_refl.
  - destruct (ls !! i) as [pc|]; [|apply extends_refl].
    assert (E : ollama_conversation (fst (fst (poll_iteration s pc q)))
                = ollama_conversation s).
    { unfold poll_iteration, after_loop.
      destruct (polling_active s && (pc <? max_polls)%nat).
      - destruct q as [e | [|r data]]; cbn [fst]; try reflexivity.
        cbv zeta. destruct (get_specialist_response _); [|reflexivity].
        destruct (max_polls <=? pc)%nat; reflexivity.
      - destruct (max_polls <=? pc)%nat; reflexivity. }
    destruct (poll_iteration s pc q) as [[s' [pc'|]] out];
      cbn [fst app] in *; rewrite E; apply extends_refl.
  - pose proof (bot_response_buffer s h llm) as Hf.
    now destruct (bot_response s h llm) as [[y s'] out].
Qed.

End BufferAndReset.

Section BufferAndResetProperties.

(** X22.  The buffer of turns sent to the model only grows: through any actions
    of a session, a reset among them, the buffer before is an initial
    segment of the buffer after.  No operation of the program removes a
    turn from it. *)
Theorem model_buffer_only_grows (sys : System) (actions : list Action) :
  extends (ollama_conversation (app sys))
          (ollama_conversation (app (run sys actions))).
Proof.
  revert sys. induction actions as [|a actions IH]; intros sys.
  - apply extends_refl.
  - eapply extends_trans; [apply step_buffer | apply IH].
Qed.

(** X23.  A reset starts the observations afresh and nothing more: it leaves the
    score, the indicators and the cultural context of an earlier synthesis,
    the gate, the model buffer and the submission state as they were, a
    second reset changes nothing, and the observations after the next
    accepted turn are the text of that turn alone. *)
Theorem reset_restarts_observations (s : App) (t : TurnInput) :
  let s' := snd (clear_conversation s) in
  severity_score (assessment_data (report_data s'))
  = severity_score (assessment_data (report_data s))
  /\ risk_indicators (assessment_data (report_data s'))
     = risk_indicators (assessment_data (report_data s))
  /\ cultural_context (assessment_data (report_data s'))
     = cultural_context (assessment_data (report_data s))
  /\ is_onboarded s' = is_onboarded s
  /\ ollama_conversation s' = ollama_conversation s
  /\ same_coordination s s'
  /\ snd (clear_conversation s') = s'
  /\ (is_onboarded s = true ->
      observations (submit_turn s' t) = text (turn_message t)).
Proof.
  cbv zeta. repeat (split; [reflexivity|]).
  split; [repeat split|]. split; [reflexivity|].
  intros Hon. rewrite submit_turn_observations by exact Hon.
  unfold appended. cbn.
  destruct (text (turn_message t)); reflexivity.
Qed.

Lemma reset_restarts_observations_witness :
  let s0 := init "0f8fad5b" "2025-06-01T09:00:00" None in
  let s1 := snd (complete_onboarding s0 "Sam" (Some (8 # 1)%Q) "Female" "Gaza") in
  let s2 := submit_turn s1 (text_turn "She wakes up screaming") in
  let s3 := snd (clear_conversation s2) in
  is_onboarded s2 = true
  /\ observations (submit_turn s3 (text_turn "He will not eat"))
     = "He will not eat".
Proof.
  intros s0 s1 s2 s3.
  assert (Hon : is_onboarded s2 = true) by reflexivity.
  destruct (reset_restarts_observations s2 (text_turn "He will not eat"))
    as (_ & _ & _ & _ & _ & _ & _ & H).
  split; [exact Hon | exact (H Hon)].
Defined.

End BufferAndResetProperties.

(** ** Rendering a reply *)

Section ReplyRendering.

Lemma urgency_color_unknown (level : string) :
  level <> "low" -> level <> "medium" -> level <> "high" ->
  level <> "critical" ->
  urgency_color !! level = None.
Proof.
  intros H1 H2 H3 H4. unfold urgency_color.
  rewrite !lookup_insert_ne by congruence. apply lookup_empty.
Qed.

End ReplyRendering.

Section ReplyRenderingProperties.

(** X25.  The urgency badge is looked up by the level exactly as it is stored,
    while the level is shown in capitals: a level other than "low",
    "medium", "high" and "critical" in lower case, "High" for one, gets the
    white badge for unknown levels beside its capitalised name.  (Stated
    for ASCII levels, where the model's [upper] is Python's.) *)
Theorem urgency_badge_is_case_sensitive (r : SpecialistResponse) :
  ascii_text (urgency_level r) ->
  urgency_level r <> "low" -> urgency_level r <> "medium" ->
  urgency_level r <> "high" -> urgency_level r <> "critical" ->
  exists p q,
    format_response r
    = p +:+ ("**Urgency Level:** ⚪ " +:+ Py.upper (urgency_level r)) +:+ q.
Proof.
  intros _ H1 H2 H3 H4.
  rewrite format_response_parts.
  destruct (join_In Py.nl
              ("**Urgency Level:** ⚪ " +:+ Py.upper (urgency_level r))
              ([""; "# 👨‍⚕️ SPECIALIST RESPONSE RECEIVED"; "";
                "**Response Date:** "
                  +:+ Py.replace "T"%char " "%char
                        (Py.take 19 (response_date r)) +:+ "  ";
                "**Specialist ID:** " +:+ psychologist_id r +:+ "  ";
                "**Urgency Level:** ⚪ " +:+ Py.upper (urgency_level r);
                ""; "---"; ""; "## 📝 PSYCHOLOGIST NOTES"; "";
                psychologist_notes r; ""; "---"; "";
                "## 💡 RECOMMENDATIONS"; ""; ""]))
    as (p & q & E); [cbn; tauto|].
  exists p. eexists.
  unfold response_header.
  rewrite (urgency_color_unknown _ H1 H2 H3 H4). cbn [default].
  replace ("**Urgency Level:** " +:+ "⚪" +:+ " " +:+ Py.upper (urgency_level r))
    with ("**Urgency Level:** ⚪ " +:+ Py.upper (urgency_level r))
    by reflexivity.
  rewrite E. rewrite !append_assoc. reflexivity.
Qed.

Lemma urgency_badge_is_case_sensitive_witness :
  let r := mkSpecialistResponse "2025-06-02T14:03:27.512+00:00" "psy-4"
             "High" "Start weekly sessions." (RecFlat "Rest.") in
  exists p q, format_response r = p +:+ "**Urgency Level:** ⚪ HIGH" +:+ q.
Proof.
  intros r.
  apply (urgency_badge_is_case_sensitive r); try discriminate.
  reflexivity.
Defined.

End ReplyRenderingProperties.

(** ** Saving a report *)

Section Saving.

Lemma contains_unfold (needle hay : string) :
  Py.contains needle hay
  = if String.prefix needle hay then true
    else match hay with
         | EmptyString => false
         | String _ r => Py.contains needle r
         end.
Proof. destruct hay; reflexivity. Qed.

Lemma prefix_append (needle : string) :
  forall x q,
  String.prefix needle x = true -> String.prefix needle (x +:+ q) = true.
Proof.
  induction needle as [|a needle IH]; intros x q H.
  - now destruct (x +:+ q).
  - destruct x as [|b x]; [discriminate|].
    rewrite append_cons. cbn [String.prefix] in *.
    destruct (ascii_dec a b); [now apply IH | discriminate].
Qed.

Lemma contains_append_r (needle : string) :
  forall x q,
  Py.contains needle x = true -> Py.contains needle (x +:+ q) = true.
Proof.
  induction x as [|c x IH]; intros q H; rewrite contains_unfold in H.
  - destruct (String.prefix needle "") eqn:E; [|discriminate].
    rewrite contains_unfold, (prefix_append needle "" q E). reflexivity.
  - rewrite contains_unfold.
    destruct (String.prefix needle (String c x)) eqn:E.
    + now rewrite (prefix_append needle (String c x) q E).
    + rewrite append_cons.
      destruct (String.prefix needle (String c (x +:+ q))); [reflexivity|].
      now apply IH.
Qed.

Lemma contains_append_l (needle : string) :
  forall p y,
  Py.contains needle y = true -> Py.contains needle (p +:+ y) = true.
Proof.
  induction p as [|c p IH]; intros y H; [exact H|].
  rewrite append_cons, contains_unfold.
  destruct (String.prefix needle (String c (p +:+ y))); [reflexivity|].
  now apply IH.
Qed.

End Saving.

Section SavingProperties.

(** X26.  Saving is refused, with nothing written, for an empty text and for any
    text in which "Please complete" occurs.  That holds also for a genuine
    report: when the observations of the record that the report was
    rendered from contain that phrase, the report cannot be saved. *)
Theorem save_refuses_report_quoting_notice (s : App) (now : ReportClock)
    (cb : bool) (llm : StructuredOutcome) (timestamp : string)
    (io : SaveOutcome) :
  is_onboarded s = true ->
  ollama_conversation s <> [] ->
  let g := generate_comprehensive_report s now cb llm in
  Py.contains "Please complete"
    (parent_observations (assessment_data (report_data (snd (fst g)))))
  = true ->
  save_report_with_data (snd (fst g)) timestamp io (fst (fst g))
  = ("❌ No report available to save.", [])
  /\ save_report_with_data (snd (fst g)) timestamp io ""
     = ("❌ No report available to save.", []).
Proof.
  intros Hon Hconv g Hquote.
  destruct (generate_proceeds s now cb llm Hon Hconv) as [Hr _].
  fold g in Hr. split; [|reflexivity].
  destruct (report_has_line (report_data (snd (fst g))) now
              (parent_observations (assessment_data (report_data (snd (fst g))))))
    as (p & q & E).
  { unfold report_lines. repeat (first [apply in_eq | apply in_cons]). }
  unfold save_report_with_data.
  rewrite Hr, E.
  rewrite (contains_append_l "Please complete" p _
             (contains_append_r "Please complete" _ q Hquote)).
  now rewrite orb_true_r.
Qed.

Lemma save_refuses_report_quoting_notice_witness :
  let s0 := init "0f8fad5b" "2025-06-01T09:00:00" None in
  let s1 := snd (complete_onboarding s0 "Sam" (Some (8 # 1)%Q) "Female" "Gaza") in
  let s2 := submit_turn s1
              (text_turn "Please complete her file, she cannot sleep") in
  let now := mkReportClock "June 01, 2025 at 09:30" "June 01, 2025"
               "2025-06-01T09:30:00" "June 01, 2025" in
  let g := generate_comprehensive_report s2 now false (ChatRaises "down") in
  is_onboarded s2 = true
  /\ ollama_conversation s2 <> []
  /\ save_report_with_data (snd (fst g)) "20250601_093000" SaveSucceeds
       (fst (fst g))
     = (no_report_to_save_msg, []).
Proof.
  intros s0 s1 s2 now g.
  assert (Hon : is_onboarded s2 = true) by reflexivity.
  assert (Hconv : ollama_conversation s2 <> []) by discriminate.
  destruct (save_refuses_report_quoting_notice s2 now false (ChatRaises "down")
              "20250601_093000" SaveSucceeds Hon Hconv
              ltac:(vm_compute; reflexivity)) as [H _].
  exact (conj Hon (conj Hconv H)).
Defined.

(** X27.  Of the two refusals of report generation only one is kept out of the
    files.  What generation returns for a session without turns in the
    model buffer is refused by the save when the session is not onboarded,
    and is written to the report file, with the data file beside it, when
    the session is onboarded: the notice asking for a conversation is saved
    as if it were a report. *)
Theorem save_writes_conversation_notice (s : App) (now : ReportClock)
    (cb : bool) (llm : StructuredOutcome) (timestamp : string) :
  ollama_conversation s = [] ->
  let notice := fst (fst (generate_comprehensive_report s now cb llm)) in
  save_report_with_data s timestamp SaveSucceeds notice
  = if is_onboarded s
    then ("✅ Report saved as: **" +:+ report_filename s timestamp
          +:+ "**<br>📊 Data saved as: **" +:+ data_filename s timestamp
          +:+ "**",
          [WroteReport (report_filename s timestamp)
             "Please have a conversation first before generating a report.";
           DumpedData (data_filename s timestamp) (report_data s)])
    else ("❌ No report available to save.", []).
Proof.
  intros Hconv notice. subst notice.
  unfold generate_comprehensive_report. rewrite Hconv.
  destruct (is_onboarded s); reflexivity.
Qed.

Lemma save_writes_conversation_notice_witness :
  let s0 := init "0f8fad5b" "2025-06-01T09:00:00" None in
  let s1 := snd (complete_onboarding s0 "Sam" (Some (8 # 1)%Q) "Female" "Gaza") in
  let now := mkReportClock "June 01, 2025 at 09:30" "June 01, 2025"
               "2025-06-01T09:30:00" "June 01, 2025" in
  let notice := fst (fst (generate_comprehensive_report s1 now false
                            (ChatRaises "down"))) in
  ollama_conversation s1 = []
  /\ snd (save_report_with_data s1 "20250601_093000" SaveSucceeds notice)
     = [WroteReport "trauma_report_Sam_20250601_093000.md"
          no_conversation_report_msg;
        DumpedData "assessment_data_Sam_20250601_093000.json" (report_data s1)].
Proof.
  intros s0 s1 now notice.
  assert (Hconv : ollama_conversation s1 = []) by reflexivity.
  split; [exact Hconv|].
  unfold notice.
  rewrite (save_writes_conversation_notice s1 now false (ChatRaises "down")
             "20250601_093000" Hconv).
  reflexivity.
Defined.

End SavingProperties.
